(** * BudgetManager: the API worker and the CSV import mapping

    A shallow embedding of the Cloudflare worker of BudgetManager (the
    request handlers over the D1 database [BUDGET_DB]) and of the client's
    CSV import mapping ([parseCSV], [handleCSVImport]), followed by the
    properties of the specification that concern them.

    Modelling conventions.
    - Numbers.  The amounts of the program are IEEE-754 doubles (JavaScript
      [number], SQLite [REAL]).  They are modelled by exact rationals [Qc];
      rounding and overflow are not represented.  The client's [parseFloat]
      can also yield [NaN] and the infinities: the client side uses
      [jsnumber], which has them.
    - Request bodies are JSON objects.  Every field is modelled at the type
      the client's [Transaction] and [Budget] interfaces declare for it, and
      may also be absent ([Undefined] after destructuring) or [Null].
    - The store.  The database is the three tables of [schema.sql], each a
      list of rows in insertion order.  A statement either succeeds or throws
      with a message; the constraints that make it throw are the ones
      [schema.sql] declares (NOT NULL, CHECK, UNIQUE, FOREIGN KEY, the last
      one enforced as D1 does).  AUTOINCREMENT is modelled by taking one
      more than the largest id of the table.
    - [CURRENT_TIMESTAMP] is an argument [now] of the handlers that write.
    - [strftime('%Y-%m', _)] is a function of SQLite, not of this repository:
      it is a parameter [strftime_Ym] of the queries that use it. *)

From Stdlib Require Import List String Ascii ZArith QArith Qcanon Qcabs Bool Lia.
From Stdlib Require Import Permutation Sorted DecimalString OrderedTypeEx.
Import ListNotations.
Local Open Scope string_scope.
Local Open Scope list_scope.

(** ** Numbers *)

Abbreviation number := Qc (only parsing).

Definition num_of_Z (z : Z) : number := Q2Qc (inject_Z z).

Definition num_eqb (x y : number) : bool := Qeq_bool x y.
Definition num_leb (x y : number) : bool := Qle_bool x y.
Definition num_ltb (x y : number) : bool := negb (Qle_bool y x).

(** ** JSON fields of a request body *)

Inductive field (A : Type) : Type :=
| Undefined : field A
| Null : field A
| Value : A -> field A.
Arguments Undefined {A}.
Arguments Null {A}.
Arguments Value {A} _.

(** JavaScript truthiness, at the two field types where the handlers test
    it. *)
Definition truthy_string (f : field string) : bool :=
  match f with Value s => negb (s =? "") | _ => false end.

Definition truthy_int (f : field Z) : bool :=
  match f with Value z => negb (z =? 0)%Z | _ => false end.

Definition is_undefined {A} (f : field A) : bool :=
  match f with Undefined => true | _ => false end.

(** A bound parameter: [Null] reaches the store as NULL.  The handlers bind
    a field only after checking that it is not [Undefined]. *)
Definition bound {A} (f : field A) : option A :=
  match f with Value a => Some a | _ => None end.

(** Destructuring default: [{ source = 'manual' }] replaces only [undefined]. *)
Definition with_default {A} (d : A) (f : field A) : field A :=
  match f with Undefined => Value d | _ => f end.

(** ** The persisted schema ([schema.sql]) *)

Definition timestamp := string.

Record category_row := {
  cat_id : Z;
  cat_name : string;
  cat_is_active : Z;
  cat_created_at : timestamp
}.

Record transaction_row := {
  txn_id : Z;
  txn_date : string;
  txn_description : string;
  txn_amount : number;
  txn_type : string;
  txn_category_id : Z;
  txn_source : option string;
  txn_created_at : timestamp
}.

Record budget_row := {
  mb_id : Z;
  mb_month : string;
  mb_category_id : Z;
  mb_budget_amount : number;
  mb_created_at : timestamp;
  mb_updated_at : timestamp
}.

Record database := {
  categories : list category_row;
  transactions : list transaction_row;
  monthly_budgets : list budget_row
}.

(** [id INTEGER PRIMARY KEY AUTOINCREMENT] *)
Definition next_id (ids : list Z) : Z := (fold_right Z.max 0 ids + 1)%Z.

(** ** Relational operators of the queries *)

Section Relational.
Context {A B K : Type}.

(** [l LEFT JOIN r ON on]: a row of [l] without a match is kept once,
    with NULLs on the right. *)
Definition left_join (on : A -> B -> bool) (l : list A) (r : list B)
  : list (A * option B) :=
  flat_map (fun a =>
              match filter (on a) r with
              | [] => [(a, None)]
              | bs => map (fun b => (a, Some b)) bs
              end) l.

(** [ORDER BY]: insertion sort by a boolean order; rows that compare equal
    keep their order. *)
Fixpoint insert_by (le : A -> A -> bool) (x : A) (l : list A) : list A :=
  match l with
  | [] => [x]
  | y :: l' => if le x y then x :: y :: l' else y :: insert_by le x l'
  end.

Definition order_by (le : A -> A -> bool) (l : list A) : list A :=
  fold_right (insert_by le) [] l.

(** [GROUP BY]: the groups in order of first appearance, each with its
    rows in order. *)
Fixpoint add_to_group (eqb : K -> K -> bool) (k : K) (a : A)
         (gs : list (K * list A)) : list (K * list A) :=
  match gs with
  | [] => [(k, [a])]
  | (k', g) :: gs' =>
      if eqb k k' then (k', g ++ [a]) :: gs'
      else (k', g) :: add_to_group eqb k a gs'
  end.

Definition group_by (eqb : K -> K -> bool) (key : A -> K) (l : list A)
  : list (K * list A) :=
  fold_left (fun gs a => add_to_group eqb (key a) a gs) l [].
End Relational.

(** [SUM]: NULLs are skipped, and the sum of no value is NULL. *)
Fixpoint SUM (l : list (option number)) : option number :=
  match l with
  | [] => None
  | None :: l' => SUM l'
  | Some x :: l' =>
      match SUM l' with
      | None => Some x
      | Some s => Some (x + s)%Qc
      end
  end.

Definition COALESCE {A} (o : option A) (d : A) : A :=
  match o with Some a => a | None => d end.

(** The sum of a list of amounts, as the specification speaks of it. *)
Definition sum_amounts (l : list number) : number :=
  fold_right Qcplus 0%Qc l.

(** ** The statements the worker prepares, over the tables *)

Definition thrown := string.

Definition category_exists (db : database) (id : Z) : bool :=
  existsb (fun c => (cat_id c =? id)%Z) (categories db).

Definition type_check (type : string) : bool :=
  (type =? "income") || (type =? "expense").

Definition source_check (source : option string) : bool :=
  match source with
  | None => true
  | Some s => (s =? "manual") || (s =? "csv")
  end.

(** [SELECT * FROM categories WHERE is_active = 1 ORDER BY name] *)
Definition select_active_categories (db : database) : list category_row :=
  order_by (fun c1 c2 => String.leb (cat_name c1) (cat_name c2))
           (filter (fun c => (cat_is_active c =? 1)%Z) (categories db)).

(** [UPDATE categories SET is_active = 0 WHERE id = ?] *)
Definition deactivate_category (id : Z) (db : database)
  : thrown + (unit * database) :=
  inr (tt,
       {| categories :=
            map (fun c =>
                   if (cat_id c =? id)%Z
                   then {| cat_id := cat_id c; cat_name := cat_name c;
                           cat_is_active := 0;
                           cat_created_at := cat_created_at c |}
                   else c) (categories db);
          transactions := transactions db;
          monthly_budgets := monthly_budgets db |}).

(** [INSERT INTO transactions (date, description, amount, type,
    category_id, source) VALUES (?, ?, ?, ?, ?, ?)]; the result is
    [meta.last_row_id]. *)
Definition insert_transaction (now : timestamp)
           (date description : option string) (amount : option number)
           (type : option string) (category_id : option Z)
           (source : option string) (db : database)
  : thrown + (Z * database) :=
  match date, description, amount, type, category_id with
  | None, _, _, _, _ => inl "NOT NULL constraint failed: transactions.date"
  | _, None, _, _, _ =>
      inl "NOT NULL constraint failed: transactions.description"
  | _, _, None, _, _ => inl "NOT NULL constraint failed: transactions.amount"
  | _, _, _, None, _ => inl "NOT NULL constraint failed: transactions.type"
  | _, _, _, _, None =>
      inl "NOT NULL constraint failed: transactions.category_id"
  | Some d, Some ds, Some a, Some ty, Some c =>
      if negb (type_check ty) then inl "CHECK constraint failed: type"
      else if negb (source_check source)
           then inl "CHECK constraint failed: source"
      else if negb (category_exists db c)
           then inl "FOREIGN KEY constraint failed"
      else
        let id := next_id (map txn_id (transactions db)) in
        inr (id,
             {| categories := categories db;
                transactions :=
                  transactions db ++
                  [{| txn_id := id; txn_date := d; txn_description := ds;
                      txn_amount := a; txn_type := ty;
                      txn_category_id := c; txn_source := source;
                      txn_created_at := now |}];
                monthly_budgets := monthly_budgets db |})
  end.

(** [UPDATE transactions SET date = ?, description = ?, amount = ?,
    type = ?, category_id = ? WHERE id = ?] *)
Definition update_transaction
           (date description : option string) (amount : option number)
           (type : option string) (category_id : option Z) (id : Z)
           (db : database)
  : thrown + (unit * database) :=
  if negb (existsb (fun t => (txn_id t =? id)%Z) (transactions db))
  then inr (tt, db)
  else
    match date, description, amount, type, category_id with
    | None, _, _, _, _ => inl "NOT NULL constraint failed: transactions.date"
    | _, None, _, _, _ =>
        inl "NOT NULL constraint failed: transactions.description"
    | _, _, None, _, _ =>
        inl "NOT NULL constraint failed: transactions.amount"
    | _, _, _, None, _ => inl "NOT NULL constraint failed: transactions.type"
    | _, _, _, _, None =>
        inl "NOT NULL constraint failed: transactions.category_id"
    | Some d, Some ds, Some a, Some ty, Some c =>
        if negb (type_check ty) then inl "CHECK constraint failed: type"
        else if negb (category_exists db c)
             then inl "FOREIGN KEY constraint failed"
        else
          inr (tt,
               {| categories := categories db;
                  transactions :=
                    map (fun t =>
                           if (txn_id t =? id)%Z
                           then {| txn_id := txn_id t; txn_date := d;
                                   txn_description := ds; txn_amount := a;
                                   txn_type := ty; txn_category_id := c;
                                   txn_source := txn_source t;
                                   txn_created_at := txn_created_at t |}
                           else t) (transactions db);
                  monthly_budgets := monthly_budgets db |})
    end.

Definition same_budget_key (month : string) (category_id : Z)
           (b : budget_row) : bool :=
  (mb_month b =? month) && (mb_category_id b =? category_id)%Z.

(** [INSERT INTO monthly_budgets (month, category_id, budget_amount)
    VALUES (?, ?, ?) ON CONFLICT(month, category_id) DO UPDATE SET
    budget_amount = excluded.budget_amount, updated_at = CURRENT_TIMESTAMP] *)
Definition upsert_budget (now : timestamp) (month : option string)
           (category_id : option Z) (budget_amount : option number)
           (db : database)
  : thrown + (unit * database) :=
  match month, category_id, budget_amount with
  | None, _, _ => inl "NOT NULL constraint failed: monthly_budgets.month"
  | _, None, _ =>
      inl "NOT NULL constraint failed: monthly_budgets.category_id"
  | _, _, None =>
      inl "NOT NULL constraint failed: monthly_budgets.budget_amount"
  | Some m, Some c, Some a =>
      if existsb (same_budget_key m c) (monthly_budgets db)
      then
        inr (tt,
             {| categories := categories db;
                transactions := transactions db;
                monthly_budgets :=
                  map (fun b =>
                         if same_budget_key m c b
                         then {| mb_id := mb_id b; mb_month := mb_month b;
                                 mb_category_id := mb_category_id b;
                                 mb_budget_amount := a;
                                 mb_created_at := mb_created_at b;
                                 mb_updated_at := now |}
                         else b) (monthly_budgets db) |})
      else if negb (category_exists db c)
           then inl "FOREIGN KEY constraint failed"
      else
        inr (tt,
             {| categories := categories db;
                transactions := transactions db;
                monthly_budgets :=
                  monthly_budgets db ++
                  [{| mb_id := next_id (map mb_id (monthly_budgets db));
                      mb_month := m; mb_category_id := c;
                      mb_budget_amount := a;
                      mb_created_at := now; mb_updated_at := now |}] |})
  end.

(** The state invariant the schema maintains: [id] is the primary key of
    [categories], and [monthly_budgets] is UNIQUE on (month, category_id). *)
Definition budget_key (b : budget_row) : string * Z :=
  (mb_month b, mb_category_id b).

Definition schema_ok (db : database) : Prop :=
  NoDup (map cat_id (categories db)) /\
  NoDup (map budget_key (monthly_budgets db)).

(** ** The worker ([export default { fetch }] and its handlers) *)

Module Worker.

(** *** Responses *)

Record transaction_body := {
  date : field string;
  description : field string;
  amount : field number;
  type : field string;
  category_id : field Z;
  source : field string
}.

Record budget_body := {
  b_category_id : field Z;
  budget_amount : field number
}.

(** A row of [SELECT t.*, c.name as category_name]. *)
Record transaction_view := {
  t_row : transaction_row;
  category_name : option string
}.

(** A row of the category breakdown. *)
Record breakdown_row := {
  id : Z;
  name : string;
  actual : number;
  budgeted : number
}.

Record Summary := {
  month : string;
  total_income : number;
  total_expenses : number;
  net : number;
  category_breakdown : list breakdown_row
}.

Inductive json : Type :=
| ErrorBody (error : string)
| MessageBody (message : string)
| CategoryList (results : list category_row)
| TransactionList (results : list transaction_view)
| TransactionBody (id : Z) (txn : transaction_body)
| ImportBody (message : string) (imported : nat)
| SummaryBody (summary : Summary).

Record Response := { body : json; status : nat }.

Definition jsonResponse (data : json) (status : nat) : Response :=
  {| body := data; status := status |}.

Definition errorResponse (message : string) (status : nat) : Response :=
  jsonResponse (ErrorBody message) status.

(** *** The environment and the calls on [env.BUDGET_DB] *)

(** [statements] counts the statements run on the database so far. *)
Record Env := { BUDGET_DB : database; statements : nat }.

(** A computation that runs statements and may throw. *)
Definition D1 (A : Type) : Type := Env -> (thrown + A) * Env.

Definition ret {A} (a : A) : D1 A := fun env => (inr a, env).

Definition bind {A B} (m : D1 A) (k : A -> D1 B) : D1 B :=
  fun env =>
    match m env with
    | (inl e, env') => (inl e, env')
    | (inr a, env') => k a env'
    end.

(** [prepare(..).bind(..).run()] *)
Definition run {A} (stmt : database -> thrown + (A * database)) : D1 A :=
  fun env =>
    match stmt (BUDGET_DB env) with
    | inl e =>
        (inl e, {| BUDGET_DB := BUDGET_DB env;
                   statements := S (statements env) |})
    | inr (a, db') =>
        (inr a, {| BUDGET_DB := db'; statements := S (statements env) |})
    end.

(** [prepare(..).bind(..).all()] *)
Definition all {A} (query : database -> A) : D1 A :=
  fun env =>
    (inr (query (BUDGET_DB env)),
     {| BUDGET_DB := BUDGET_DB env; statements := S (statements env) |}).

(** [try { .. } catch (error) { return errorResponse(error.message, 500) }] *)
Definition try_catch (m : D1 Response) : Env -> Response * Env :=
  fun env =>
    match m env with
    | (inr r, env') => (r, env')
    | (inl e, env') => (errorResponse e 500, env')
    end.

Notation "x <- m ;; k" := (bind m (fun x => k))
  (at level 61, m at next level, right associativity).

Definition dquote : string := String (ascii_of_nat 34) EmptyString.

Definition string_of_nat (n : nat) : string :=
  NilEmpty.string_of_uint (Nat.to_uint n).

(** *** Categories handlers *)

Definition getCategories : Env -> Response * Env :=
  try_catch (
    results <- all select_active_categories ;;
    ret (jsonResponse (CategoryList results) 200)).

(** The router calls [deleteCategory] with the digits that end the path; the
    store compares them with the integer [id] column as a number. *)
Definition deleteCategory (id : Z) : Env -> Response * Env :=
  try_catch (
    _ <- run (deactivate_category id) ;;
    ret (jsonResponse (MessageBody "Category deactivated successfully") 200)).

(** *** Transactions handlers *)

Definition missing_required_fields (b : transaction_body) : bool :=
  negb (truthy_string (date b)) || negb (truthy_string (description b))
  || is_undefined (amount b) || negb (truthy_string (type b))
  || negb (truthy_int (category_id b)).

Definition with_source (s : field string) (b : transaction_body)
  : transaction_body :=
  {| date := date b; description := description b; amount := amount b;
     type := type b; category_id := category_id b; source := s |}.

Definition createTransaction (now : timestamp) (b : transaction_body)
  : Env -> Response * Env :=
  try_catch (
    let source := with_default "manual" (source b) in
    if missing_required_fields b
    then ret (errorResponse "Missing required fields" 400)
    else if negb (type_check (match type b with Value s => s | _ => "" end))
    then ret (errorResponse
                ("Type must be " ++ dquote ++ "income" ++ dquote ++ " or "
                 ++ dquote ++ "expense" ++ dquote) 400)
    else
      last_row_id <-
        run (insert_transaction now (bound (date b)) (bound (description b))
               (bound (amount b)) (bound (type b)) (bound (category_id b))
               (bound source)) ;;
      ret (jsonResponse (TransactionBody last_row_id (with_source source b))
             201)).

Definition updateTransaction (id : Z) (b : transaction_body)
  : Env -> Response * Env :=
  try_catch (
    if missing_required_fields b
    then ret (errorResponse "Missing required fields" 400)
    else
      _ <- run (update_transaction (bound (date b)) (bound (description b))
                  (bound (amount b)) (bound (type b))
                  (bound (category_id b)) id) ;;
      ret (jsonResponse (TransactionBody id (with_source Undefined b)) 200)).

(** The loop of [importTransactions]: [imported] counts the inserts. *)
Fixpoint import_loop (now : timestamp) (txns : list transaction_body)
         (imported : nat) : D1 nat :=
  match txns with
  | [] => ret imported
  | txn :: rest =>
      let source := with_default "csv" (source txn) in
      if negb (missing_required_fields txn)
      then
        _ <- run (insert_transaction now (bound (date txn))
                    (bound (description txn)) (bound (amount txn))
                    (bound (type txn)) (bound (category_id txn))
                    (bound source)) ;;
        import_loop now rest (S imported)
      else import_loop now rest imported
  end.

(** [body.transactions] is [None] when it is not an array. *)
Definition importTransactions (now : timestamp)
           (transactions : option (list transaction_body))
  : Env -> Response * Env :=
  try_catch (
    match transactions with
    | None => ret (errorResponse "Transactions must be an array" 400)
    | Some txns =>
        imported <- import_loop now txns 0 ;;
        ret (jsonResponse
               (ImportBody
                  (string_of_nat imported
                   ++ " transactions imported successfully") imported) 200)
    end).

(** *** Budget handlers *)

Fixpoint save_loop (now : timestamp) (month : field string)
         (budgets : list budget_body) : D1 unit :=
  match budgets with
  | [] => ret tt
  | budget :: rest =>
      if truthy_int (b_category_id budget)
         && negb (is_undefined (budget_amount budget))
      then
        _ <- run (upsert_budget now (bound month)
                    (bound (b_category_id budget))
                    (bound (budget_amount budget))) ;;
        save_loop now month rest
      else save_loop now month rest
  end.

(** [body.budgets] is [None] when it is not an array. *)
Definition saveBudgets (now : timestamp) (month : field string)
           (budgets : option (list budget_body))
  : Env -> Response * Env :=
  try_catch (
    match budgets with
    | Some bs =>
        if negb (truthy_string month)
        then ret (errorResponse "Month and budgets array are required" 400)
        else
          _ <- save_loop now month bs ;;
          ret (jsonResponse (MessageBody "Budgets saved successfully") 200)
    | None => ret (errorResponse "Month and budgets array are required" 400)
    end).

(** *** Queries by month *)

Section ByMonth.
(** [strftime('%Y-%m', d)]: the month key of a date, NULL when SQLite
    cannot read [d] as a date. *)
Variable strftime_Ym : string -> option string.

(** [strftime('%Y-%m', d) = ?]: NULL is not a match. *)
Definition in_month (m : string) (d : string) : bool :=
  match strftime_Ym d with
  | Some k => k =? m
  | None => false
  end.

(** [SELECT t.*, c.name as category_name FROM transactions t
    LEFT JOIN categories c ON t.category_id = c.id] *)
Definition transactions_with_category (db : database)
  : list transaction_view :=
  map (fun tc : transaction_row * option category_row =>
         {| t_row := fst tc;
            category_name := option_map cat_name (snd tc) |})
      (left_join (fun t c => (txn_category_id t =? cat_id c)%Z)
                 (transactions db) (categories db)).

(** [ORDER BY t.date DESC] *)
Definition date_desc (r1 r2 : transaction_view) : bool :=
  String.leb (txn_date (t_row r2)) (txn_date (t_row r1)).

Definition select_transactions_of_month (m : string) (db : database)
  : list transaction_view :=
  order_by date_desc
    (filter (fun r => in_month m (txn_date (t_row r)))
            (transactions_with_category db)).

Definition select_recent_transactions (db : database)
  : list transaction_view :=
  firstn 100 (order_by date_desc (transactions_with_category db)).

(** [url.searchParams.get('month')] is [None] when the parameter is
    absent; the empty string is falsy. *)
Definition getTransactions (month : option string)
  : Env -> Response * Env :=
  try_catch (
    match month with
    | Some m =>
        if negb (m =? "")
        then
          results <- all (select_transactions_of_month m) ;;
          ret (jsonResponse (TransactionList results) 200)
        else
          results <- all select_recent_transactions ;;
          ret (jsonResponse (TransactionList results) 200)
    | None =>
        results <- all select_recent_transactions ;;
        ret (jsonResponse (TransactionList results) 200)
    end).

(** [SELECT SUM(CASE WHEN type = 'income' THEN amount ELSE 0 END) as
    total_income, SUM(CASE WHEN type = 'expense' THEN amount ELSE 0 END)
    as total_expenses FROM transactions WHERE strftime('%Y-%m', date) = ?]:
    an aggregate without GROUP BY yields one row. *)
Definition case_type (ty : string) (t : transaction_row) : number :=
  if txn_type t =? ty then txn_amount t else 0%Qc.

Definition select_totals (m : string) (db : database)
  : list (option number * option number) :=
  let rows := filter (fun t => in_month m (txn_date t)) (transactions db) in
  [(SUM (map (fun t => Some (case_type "income" t)) rows),
    SUM (map (fun t => Some (case_type "expense" t)) rows))].

(** The rows of [categories c LEFT JOIN transactions t .. LEFT JOIN
    monthly_budgets mb ..]. *)
Definition joined_row : Type :=
  (category_row * option transaction_row) * option budget_row.

Definition group_key : Type := (Z * string) * option number.

Definition group_key_eqb (k1 k2 : group_key) : bool :=
  (fst (fst k1) =? fst (fst k2))%Z
  && (snd (fst k1) =? snd (fst k2))
  && match snd k1, snd k2 with
     | Some a, Some b => num_eqb a b
     | None, None => true
     | _, _ => false
     end.

Definition key_of (r : joined_row) : group_key :=
  ((cat_id (fst (fst r)), cat_name (fst (fst r))),
   option_map mb_budget_amount (snd r)).

(** [CASE WHEN t.type = 'expense' THEN t.amount ELSE 0 END]: on a row
    without transaction [t.type] is NULL and the ELSE branch is taken. *)
Definition case_expense (r : joined_row) : option number :=
  match snd (fst r) with
  | Some t => Some (case_type "expense" t)
  | None => Some 0%Qc
  end.

(** [SELECT c.id, c.name, COALESCE(SUM(..), 0) as actual,
    COALESCE(mb.budget_amount, 0) as budgeted
    FROM categories c
    LEFT JOIN transactions t ON c.id = t.category_id
                             AND strftime('%Y-%m', t.date) = ?
    LEFT JOIN monthly_budgets mb ON c.id = mb.category_id AND mb.month = ?
    WHERE c.is_active = 1
    GROUP BY c.id, c.name, mb.budget_amount
    ORDER BY actual DESC] *)
Definition select_breakdown (m : string) (db : database)
  : list breakdown_row :=
  let ct :=
    left_join (fun c t => (cat_id c =? txn_category_id t)%Z
                          && in_month m (txn_date t))
              (categories db) (transactions db) in
  let ctb :=
    left_join (fun (r : category_row * option transaction_row) mb =>
                 (cat_id (fst r) =? mb_category_id mb)%Z
                 && (mb_month mb =? m))
              ct (monthly_budgets db) in
  let active :=
    filter (fun r : joined_row => (cat_is_active (fst (fst r)) =? 1)%Z)
           ctb in
  let groups := group_by group_key_eqb key_of active in
  order_by (fun r1 r2 => num_leb (actual r2) (actual r1))
    (map (fun g : group_key * list joined_row =>
            {| id := fst (fst (fst g)); name := snd (fst (fst g));
               actual := COALESCE (SUM (map case_expense (snd g))) 0%Qc;
               budgeted := COALESCE (snd (fst g)) 0%Qc |}) groups).

(** [x || 0] on a nullable number *)
Definition or_zero (x : option number) : number :=
  match x with
  | Some n => if num_eqb n 0%Qc then 0%Qc else n
  | None => 0%Qc
  end.

Definition getSummary (month : option string) : Env -> Response * Env :=
  try_catch (
    match month with
    | Some m =>
        if m =? ""
        then ret (errorResponse "Month parameter is required" 400)
        else
          totals <- all (select_totals m) ;;
          categoryBreakdown <- all (select_breakdown m) ;;
          let totalIncome :=
            or_zero (match totals with r :: _ => fst r | [] => None end) in
          let totalExpenses :=
            or_zero (match totals with r :: _ => snd r | [] => None end) in
          let net := (totalIncome - totalExpenses)%Qc in
          ret (jsonResponse
                 (SummaryBody
                    {| month := m;
                       total_income := totalIncome;
                       total_expenses := totalExpenses;
                       net := net;
                       category_breakdown := categoryBreakdown |}) 200)
    | None => ret (errorResponse "Month parameter is required" 400)
    end).
End ByMonth.

End Worker.

(** ** The rest of the worker: the other statements, handlers and the router *)

(** [INSERT INTO categories (name) VALUES (?)]: [name] is NOT NULL UNIQUE,
    [is_active] defaults to 1; the result is [meta.last_row_id]. *)
Definition insert_category (now : timestamp) (name : option string)
           (db : database) : thrown + (Z * database) :=
  match name with
  | None => inl "NOT NULL constraint failed: categories.name"
  | Some n =>
      if existsb (fun c => cat_name c =? n) (categories db)
      then inl "UNIQUE constraint failed: categories.name"
      else
        let id := next_id (map cat_id (categories db)) in
        inr (id,
             {| categories :=
                  categories db ++
                  [{| cat_id := id; cat_name := n; cat_is_active := 1;
                      cat_created_at := now |}];
                transactions := transactions db;
                monthly_budgets := monthly_budgets db |})
  end.

(** [UPDATE categories SET name = ? WHERE id = ?] *)
Definition update_category_name (name : option string) (id : Z)
           (db : database) : thrown + (unit * database) :=
  if negb (existsb (fun c => (cat_id c =? id)%Z) (categories db))
  then inr (tt, db)
  else
    match name with
    | None => inl "NOT NULL constraint failed: categories.name"
    | Some n =>
        if existsb (fun c => (cat_name c =? n) && negb (cat_id c =? id)%Z)
                   (categories db)
        then inl "UNIQUE constraint failed: categories.name"
        else
          inr (tt,
               {| categories :=
                    map (fun c =>
                           if (cat_id c =? id)%Z
                           then {| cat_id := cat_id c; cat_name := n;
                                   cat_is_active := cat_is_active c;
                                   cat_created_at := cat_created_at c |}
                           else c) (categories db);
                  transactions := transactions db;
                  monthly_budgets := monthly_budgets db |})
    end.

(** [DELETE FROM transactions WHERE id = ?] *)
Definition delete_transaction (id : Z) (db : database)
  : thrown + (unit * database) :=
  inr (tt,
       {| categories := categories db;
          transactions :=
            filter (fun t => negb (txn_id t =? id)%Z) (transactions db);
          monthly_budgets := monthly_budgets db |}).

(** A row of [SELECT mb.*, c.name as category_name]. *)
Record budget_view := {
  b_row : budget_row;
  b_category_name : option string
}.

(** [ORDER BY c.name]: NULL sorts before every name. *)
Definition name_asc (r1 r2 : budget_view) : bool :=
  match b_category_name r1, b_category_name r2 with
  | None, _ => true
  | Some _, None => false
  | Some n1, Some n2 => String.leb n1 n2
  end.

(** [SELECT mb.*, c.name as category_name FROM monthly_budgets mb
    LEFT JOIN categories c ON mb.category_id = c.id
    WHERE mb.month = ? ORDER BY c.name] *)
Definition select_budgets (m : string) (db : database) : list budget_view :=
  order_by name_asc
    (map (fun bc : budget_row * option category_row =>
            {| b_row := fst bc;
               b_category_name := option_map cat_name (snd bc) |})
         (filter (fun bc : budget_row * option category_row =>
                    mb_month (fst bc) =? m)
                 (left_join (fun mb c => (mb_category_id mb =? cat_id c)%Z)
                            (monthly_budgets db) (categories db)))).

Module Api.

(** The bodies of the responses: those of the handlers above, and those of
    the handlers of this module. *)
Inductive json : Type :=
| Of (j : Worker.json)
| CategoryBody (id : Z) (name : string) (is_active : option Z)
| BudgetList (results : list budget_view)
| NoBody.

Record Response := { body : json; status : nat }.

Definition jsonResponse (data : json) (status : nat) : Response :=
  {| body := data; status := status |}.

Definition errorResponse (message : string) (status : nat) : Response :=
  jsonResponse (Of (Worker.ErrorBody message)) status.

(** A response of a handler above, as the router returns it. *)
Definition of_worker (r : Worker.Response * Worker.Env)
  : Response * Worker.Env :=
  ({| body := Of (Worker.body (fst r)); status := Worker.status (fst r) |},
   snd r).

Definition try_catch (m : Worker.D1 Response)
  : Worker.Env -> Response * Worker.Env :=
  fun env =>
    match m env with
    | (inr r, env') => (r, env')
    | (inl e, env') => (errorResponse e 500, env')
    end.

(** [new Response(null, { status: 204, headers: corsHeaders })] *)
Definition handleOptions : Response := {| body := NoBody; status := 204 |}.

(** *** Categories handlers *)

Definition createCategory (now : timestamp) (name : field string)
  : Worker.Env -> Response * Worker.Env :=
  try_catch (
    match name with
    | Value n =>
        if n =? ""
        then Worker.ret (errorResponse "Category name is required" 400)
        else
          Worker.bind (Worker.run (insert_category now (bound name)))
            (fun last_row_id =>
               Worker.ret (jsonResponse (CategoryBody last_row_id n (Some 1%Z))
                             201))
    | _ => Worker.ret (errorResponse "Category name is required" 400)
    end).

Definition updateCategory (id : Z) (name : field string)
  : Worker.Env -> Response * Worker.Env :=
  try_catch (
    match name with
    | Value n =>
        if n =? ""
        then Worker.ret (errorResponse "Category name is required" 400)
        else
          Worker.bind (Worker.run (update_category_name (bound name) id))
            (fun _ => Worker.ret (jsonResponse (CategoryBody id n None) 200))
    | _ => Worker.ret (errorResponse "Category name is required" 400)
    end).

(** *** Transactions and budget handlers *)

Definition deleteTransaction (id : Z)
  : Worker.Env -> Worker.Response * Worker.Env :=
  Worker.try_catch (
    Worker.bind (Worker.run (delete_transaction id))
      (fun _ =>
         Worker.ret (Worker.jsonResponse
                       (Worker.MessageBody "Transaction deleted successfully")
                       200))).

Definition getBudgets (month : option string)
  : Worker.Env -> Response * Worker.Env :=
  try_catch (
    match month with
    | Some m =>
        if m =? ""
        then Worker.ret (errorResponse "Month parameter is required" 400)
        else
          Worker.bind (Worker.all (select_budgets m))
            (fun results => Worker.ret (jsonResponse (BudgetList results) 200))
    | None => Worker.ret (errorResponse "Month parameter is required" 400)
    end).

(** *** The router *)

(** The JSON object of a request body: the fields the handlers destructure,
    each at its type, absent or null. *)
Record Body := {
  name : field string;
  transaction : Worker.transaction_body;
  transactions : option (list Worker.transaction_body);
  month : field string;
  budgets : option (list Worker.budget_body)
}.

(** [json] is what [request.json()] gives: the body, or the message of the
    error it throws. *)
Record Request := {
  method : string;
  pathname : string;
  month_param : option string;
  json_body : thrown + Body
}.

Definition is_digit (c : ascii) : bool :=
  let n := nat_of_ascii c in (48 <=? n)%nat && (n <=? 57)%nat.

(** [path.match(/^<prefix>\d+$/)] and then [path.split('/').pop()]: the
    digits that follow a prefix ending in ['/']. *)
Definition id_route (prefix path : string) : option string :=
  if String.prefix prefix path
  then
    let rest := String.substring (String.length prefix)
                  (String.length path - String.length prefix) path in
    if negb (rest =? "") && forallb is_digit (list_ascii_of_string rest)
    then Some rest
    else None
  else None.

(** The number a string of digits denotes, for the store ([id = ?] on the
    integer column) and for [parseInt(id)]. *)
Definition id_number (id : string) : Z :=
  fold_left (fun acc c => (10 * acc + (Z.of_nat (nat_of_ascii c) - 48))%Z)
            (list_ascii_of_string id) 0%Z.

Fixpoint first_some {A} (l : list (option A)) : option A :=
  match l with
  | [] => None
  | Some a :: _ => Some a
  | None :: l' => first_some l'
  end.

Section Router.
Variable strftime_Ym : string -> option string.
Variable now : timestamp.

Definition handler : Type := Worker.Env -> Response * Worker.Env.

(** [const body = await request.json()] inside the [try] of the router:
    when it throws, the [catch] answers [error.message || 'Internal server
    error'] with status 500. *)
Definition with_json (request : Request) (k : Body -> handler) : handler :=
  fun env =>
    match json_body request with
    | inl e =>
        (errorResponse (if e =? "" then "Internal server error" else e) 500,
         env)
    | inr body => k body env
    end.

Definition lift (h : Worker.Env -> Worker.Response * Worker.Env) : handler :=
  fun env => of_worker (h env).

(** The [if] blocks of the router, in order; a block that does not return
    falls through to the next. *)
Definition routes (request : Request) : list (option handler) :=
  let path := pathname request in
  let method := method request in
  [ (if path =? "/api/categories"
     then if method =? "GET" then Some (lift Worker.getCategories)
          else if method =? "POST"
          then Some (with_json request
                       (fun body => createCategory now (name body)))
          else None
     else None);
    (match id_route "/api/categories/" path with
     | Some id =>
         if method =? "PUT"
         then Some (with_json request
                      (fun body =>
                         updateCategory (id_number id) (name body)))
         else if method =? "DELETE"
         then Some (lift (Worker.deleteCategory (id_number id)))
         else None
     | None => None
     end);
    (if path =? "/api/transactions"
     then if method =? "GET"
          then Some (lift (Worker.getTransactions strftime_Ym
                             (month_param request)))
          else if method =? "POST"
          then Some (with_json request
                       (fun body =>
                          lift (Worker.createTransaction now
                                  (transaction body))))
          else None
     else None);
    (if path =? "/api/transactions/import"
     then if method =? "POST"
          then Some (with_json request
                       (fun body =>
                          lift (Worker.importTransactions now
                                  (transactions body))))
          else None
     else None);
    (match id_route "/api/transactions/" path with
     | Some id =>
         if method =? "PUT"
         then Some (with_json request
                      (fun body =>
                         lift (Worker.updateTransaction (id_number id)
                                 (transaction body))))
         else if method =? "DELETE"
         then Some (lift (deleteTransaction (id_number id)))
         else None
     | None => None
     end);
    (if path =? "/api/budgets"
     then if method =? "GET" then Some (getBudgets (month_param request))
          else if method =? "POST"
          then Some (with_json request
                       (fun body =>
                          lift (Worker.saveBudgets now (month body)
                                  (budgets body))))
          else None
     else None);
    (if path =? "/api/reports/summary"
     then if method =? "GET"
          then Some (lift (Worker.getSummary strftime_Ym
                             (month_param request)))
          else None
     else None) ].

(** [export default { fetch }] *)
Definition fetch (request : Request) : handler :=
  if method request =? "OPTIONS"
  then fun env => (handleOptions, env)
  else
    match first_some (routes request) with
    | Some h => h
    | None => fun env => (errorResponse "Not found" 404, env)
    end.
End Router.

End Api.

(** ** The client ([main.ts]): dashboard rows and the CSV import mapping

    Strings are byte strings; the white space of [trim] and [parseFloat] is
    the ASCII one. *)

Module Frontend.

(** A JavaScript number as the client computes it. *)
Inductive jsnumber : Type :=
| Finite (q : number)
| Infinity (negative : bool)
| NaN.

Definition isNaN (x : jsnumber) : bool :=
  match x with NaN => true | _ => false end.

Definition Math_abs (x : jsnumber) : jsnumber :=
  match x with
  | Finite q => Finite (Qcabs q)
  | Infinity _ => Infinity false
  | NaN => NaN
  end.

(** *** Strings *)

Definition is_white (c : ascii) : bool :=
  let n := nat_of_ascii c in
  (n =? 32)%nat || ((9 <=? n)%nat && (n <=? 13)%nat).

Definition is_digit (c : ascii) : bool :=
  let n := nat_of_ascii c in (48 <=? n)%nat && (n <=? 57)%nat.

Fixpoint trimStart (s : string) : string :=
  match s with
  | String c s' => if is_white c then trimStart s' else s
  | EmptyString => EmptyString
  end.

Fixpoint rev_string (acc s : string) : string :=
  match s with
  | String c s' => rev_string (String c acc) s'
  | EmptyString => acc
  end.

(** [s.trim()] *)
Definition trim (s : string) : string :=
  rev_string "" (trimStart (rev_string "" (trimStart s))).

(** [s.split(sep)] for a one-character separator *)
Fixpoint split (sep : ascii) (s : string) : list string :=
  match s with
  | EmptyString => [""]
  | String c s' =>
      if Ascii.eqb c sep then "" :: split sep s'
      else match split sep s' with
           | h :: t => String c h :: t
           | [] => [String c ""]
           end
  end.

(** [s.replace(/[$,]/g, '')] *)
Fixpoint strip_currency (s : string) : string :=
  match s with
  | EmptyString => EmptyString
  | String c s' =>
      if Ascii.eqb c "$" || Ascii.eqb c ","
      then strip_currency s'
      else String c (strip_currency s')
  end.

(** *** [parseFloat] *)

(** The longest prefix of decimal digits, as digit values, and the rest. *)
Fixpoint digits (s : string) : list Z * string :=
  match s with
  | String c s' =>
      if is_digit c
      then let r := digits s' in
           ((Z.of_nat (nat_of_ascii c) - 48)%Z :: fst r, snd r)
      else ([], s)
  | EmptyString => ([], EmptyString)
  end.

Definition digits_value (ds : list Z) : Z :=
  fold_left (fun acc d => (10 * acc + d)%Z) ds 0%Z.

(** An optional sign: [true] for ["-"]. *)
Definition sign (s : string) : bool * string :=
  match s with
  | String c s' =>
      if Ascii.eqb c "-" then (true, s')
      else if Ascii.eqb c "+" then (false, s')
      else (false, s)
  | EmptyString => (false, s)
  end.

(** An ExponentPart: [e] or [E], an optional sign and at least one digit;
    otherwise the exponent is not part of the literal and counts as 0. *)
Definition exponent (s : string) : Z :=
  match s with
  | String c s' =>
      if Ascii.eqb c "e" || Ascii.eqb c "E"
      then let (neg, r) := sign s' in
           match fst (digits r) with
           | [] => 0%Z
           | ds => if neg then (- digits_value ds)%Z else digits_value ds
           end
      else 0%Z
  | EmptyString => 0%Z
  end.

(** [parseFloat(s)]: leading white space is skipped and the longest prefix
    that is a StrDecimalLiteral is read; [NaN] when there is none. *)
Definition parseFloat (s : string) : jsnumber :=
  let (neg, s1) := sign (trimStart s) in
  if String.prefix "Infinity" s1 then Infinity neg
  else
    let (ip, s2) := digits s1 in
    let (fp, s3) :=
      match s2 with
      | String c r => if Ascii.eqb c "." then digits r else ([], s2)
      | EmptyString => ([], s2)
      end in
    match ip ++ fp with
    | [] => NaN
    | ds =>
        let m := digits_value ds in
        let e := (exponent s3 - Z.of_nat (List.length fp))%Z in
        let v := (inject_Z m * Qpower (10 # 1) e)%Q in
        Finite (Q2Qc (if neg then Qopp v else v))
    end.

(** *** [parseCSV] *)

(** A row object: the value of a property is [None] when it is
    [undefined]; a property set twice keeps its last value. *)
Definition object := list (string * option string).

Fixpoint set (o : object) (key : string) (v : option string) : object :=
  match o with
  | [] => [(key, v)]
  | (k, w) :: o' =>
      if k =? key then (k, v) :: o' else (k, w) :: set o' key v
  end.

Fixpoint get (o : object) (key : string) : option string :=
  match o with
  | [] => None
  | (k, w) :: o' => if k =? key then w else get o' key
  end.

(** [headers.forEach((header, index) => row[header] = values[index])] *)
Fixpoint fill (headers : list string) (index : nat) (values : list string)
         (row : object) : object :=
  match headers with
  | [] => row
  | header :: rest =>
      fill rest (S index) values (set row header (nth_error values index))
  end.

Definition parseCSV (csvText : string) : list object :=
  match split "010" (trim csvText) with
  | [] => []
  | line0 :: lines =>
      let headers := map trim (split "," line0) in
      map (fun line => fill headers 0 (map trim (split "," line)) []) lines
  end.

(** *** [handleCSVImport] *)

Record Transaction := {
  date : option string;
  description : option string;
  amount : jsnumber;
  type : string;
  category_id : Z;
  source : string
}.

Definition truthy (s : option string) : bool :=
  match s with Some v => negb (v =? "") | None => false end.

Section CSVImport.
(** [new Date(date)] followed by [toISOString().split('T')[0]]: [None]
    when [getTime()] is NaN.  Date parsing belongs to the JavaScript
    engine. *)
Variable toISODate : string -> option string.

Variables dateColumn descColumn amountColumn : string.
Variable defaultType : string.
Variable defaultCategory : Z.

(** The callback of [parsedCSVData.map]; calling [replace] on
    [undefined] throws a TypeError. *)
Definition map_row (row : object) : thrown + Transaction :=
  let date :=
    if truthy (get row dateColumn)
    then match get row dateColumn with
         | Some d => match toISODate d with
                     | Some iso => Some iso
                     | None => Some d
                     end
         | None => None
         end
    else get row dateColumn in
  match get row amountColumn with
  | None =>
      inl "Cannot read properties of undefined (reading 'replace')"
  | Some raw =>
      let amount := parseFloat (strip_currency raw) in
      let absAmount := Math_abs amount in
      inr {| date := date;
             description := get row descColumn;
             amount := absAmount;
             type := defaultType;
             category_id := defaultCategory;
             source := "csv" |}
  end.

(** [Array.prototype.map] with a callback that may throw. *)
Fixpoint map_rows (rows : list object) : thrown + list Transaction :=
  match rows with
  | [] => inr []
  | row :: rest =>
      match map_row row with
      | inl e => inl e
      | inr t =>
          match map_rows rest with
          | inl e => inl e
          | inr ts => inr (t :: ts)
          end
      end
  end.

Definition keep (txn : Transaction) : bool :=
  truthy (date txn) && truthy (description txn) && negb (isNaN (amount txn)).

(** The transactions handed to [importTransactions], and the count the
    success alert reports ([transactions.length]). *)
Definition handleCSVImport (parsedCSVData : list object)
  : thrown + (list Transaction * nat) :=
  match map_rows parsedCSVData with
  | inl e => inl e
  | inr mapped =>
      let transactions := filter keep mapped in
      inr (transactions, List.length transactions)
  end.
End CSVImport.

(** *** [loadDashboard]: the rows of the category table *)
Definition displayed (category_breakdown : list Worker.breakdown_row)
  : list Worker.breakdown_row :=
  filter (fun cat => num_ltb 0%Qc (Worker.actual cat)
                     || num_ltb 0%Qc (Worker.budgeted cat))
         category_breakdown.

(** *** The import request: [importTransactions] and the alert *)

(** [JSON.stringify] of a number: [NaN] and the infinities become [null]. *)
Definition json_number (x : jsnumber) : field number :=
  match x with
  | Finite q => Value q
  | _ => Null
  end.

(** [JSON.stringify] of a string property: an [undefined] one is left
    out. *)
Definition json_string (s : option string) : field string :=
  match s with
  | Some v => Value v
  | None => Undefined
  end.

(** The element of the request body that [JSON.stringify({ transactions })]
    writes for a transaction. *)
Definition to_body (txn : Transaction) : Worker.transaction_body :=
  {| Worker.date := json_string (date txn);
     Worker.description := json_string (description txn);
     Worker.amount := json_number (amount txn);
     Worker.type := Value (type txn);
     Worker.category_id := Value (category_id txn);
     Worker.source := Value (source txn) |}.

(** [response.ok] *)
Definition ok (r : Worker.Response) : bool :=
  (200 <=? Worker.status r)%nat && (Worker.status r <=? 299)%nat.

(** The [try] block of [handleCSVImport] against the worker: the text of
    the alert and the environment of the worker afterwards. *)
Definition submit (now : timestamp) (transactions : list Transaction)
           (env : Worker.Env) : string * Worker.Env :=
  let r := Worker.importTransactions now (Some (map to_body transactions))
             env in
  if ok (fst r)
  then (("Successfully imported "
         ++ Worker.string_of_nat (List.length transactions)
         ++ " transactions")%string, snd r)
  else ("Failed to import transactions", snd r).

(** *** [loadBudget]: the totals under the budget table *)

(** [summary.category_breakdown.find(c => c.id === cat.id)] *)
Definition catData (summary : Worker.Summary) (cat : category_row)
  : option Worker.breakdown_row :=
  find (fun c => (Worker.id c =? cat_id cat)%Z)
       (Worker.category_breakdown summary).

(** The loop over [categories]: [totalBudgeted] and [totalActual]. *)
Definition budget_totals (categories : list category_row)
           (summary : Worker.Summary) : number * number :=
  fold_left
    (fun (totals : number * number) cat =>
       let budgeted :=
         Worker.or_zero (option_map Worker.budgeted (catData summary cat)) in
       let actual :=
         Worker.or_zero (option_map Worker.actual (catData summary cat)) in
       ((fst totals + budgeted)%Qc, (snd totals + actual)%Qc))
    categories (0%Qc, 0%Qc).

(** [totalBudgeted], [totalActual] and [totalDiff]. *)
Definition loadBudget_totals (categories : list category_row)
           (summary : Worker.Summary) : number * number * number :=
  let totals := budget_totals categories summary in
  (fst totals, snd totals, (fst totals - snd totals)%Qc).


End Frontend.

(** ** The vocabulary of the specification *)

Section Vocabulary.
Variable strftime_Ym : string -> option string.

(** The transactions dated in a month, and those of one type among some
    transactions. *)
Definition of_month (m : string) (db : database) : list transaction_row :=
  filter (fun t => Worker.in_month strftime_Ym m (txn_date t))
         (transactions db).

Definition of_type (ty : string) (l : list transaction_row)
  : list transaction_row :=
  filter (fun t => txn_type t =? ty) l.

Definition of_category (c : Z) (l : list transaction_row)
  : list transaction_row :=
  filter (fun t => (txn_category_id t =? c)%Z) l.

(** The budget amount of a category for a month, 0 without a budget row. *)
Definition budget_of (m : string) (c : Z) (db : database) : number :=
  match find (same_budget_key m c) (monthly_budgets db) with
  | Some b => mb_budget_amount b
  | None => 0%Qc
  end.

Definition active (c : category_row) : bool := (cat_is_active c =? 1)%Z.

(** The breakdown entry the specification describes for a category. *)
Definition breakdown_of (m : string) (db : database) (c : category_row)
  : Worker.breakdown_row :=
  {| Worker.id := cat_id c;
     Worker.name := cat_name c;
     Worker.actual :=
       sum_amounts
         (map txn_amount
              (of_type "expense" (of_category (cat_id c) (of_month m db))));
     Worker.budgeted := budget_of m (cat_id c) db |}.
End Vocabulary.

(** *** Import: what the batch stores *)

(** The presence validation of an element of the array. *)
Definition passes_validation (t : Worker.transaction_body) : bool :=
  negb (Worker.missing_required_fields t).

(** The insert of an element of the batch, as [importTransactions] binds
    it. *)
Definition insert_element (now : timestamp) (t : Worker.transaction_body)
           (db : database) : thrown + (Z * database) :=
  insert_transaction now (bound (Worker.date t))
    (bound (Worker.description t)) (bound (Worker.amount t))
    (bound (Worker.type t)) (bound (Worker.category_id t))
    (bound (with_default "csv" (Worker.source t))) db.

(** Inserting the elements of a list one by one, until the store throws:
    the database reached, and the message of the store if it threw. *)
Fixpoint insert_each (now : timestamp) (l : list Worker.transaction_body)
         (db : database) : database * option thrown :=
  match l with
  | [] => (db, None)
  | t :: l' =>
      match insert_element now t db with
      | inl e => (db, Some e)
      | inr (_, db') => insert_each now l' db'
      end
  end.

(** The constraints of the [transactions] table hold of an element. *)
Definition accepted_by (db : database) (t : Worker.transaction_body) : bool :=
  match bound (Worker.amount t), bound (Worker.type t),
        bound (Worker.category_id t) with
  | Some _, Some ty, Some c =>
      type_check ty
      && source_check (bound (with_default "csv" (Worker.source t)))
      && category_exists db c
  | _, _, _ => false
  end.

(** A row holds the fields of an element. *)
Definition stores (t : Worker.transaction_body) (row : transaction_row)
  : Prop :=
  Worker.date t = Value (txn_date row)
  /\ Worker.description t = Value (txn_description row)
  /\ Worker.amount t = Value (txn_amount row)
  /\ Worker.type t = Value (txn_type row)
  /\ Worker.category_id t = Value (txn_category_id row)
  /\ bound (with_default "csv" (Worker.source t)) = txn_source row.

(** The claim on the import as the specification states it: every element
    that passes validation is inserted, and the response counts them. *)
Definition import_inserts_all_valid (now : timestamp)
           (txns : list Worker.transaction_body) (env : Worker.Env) : Prop :=
  let r := Worker.importTransactions now (Some txns) env in
  let valid := filter passes_validation txns in
  exists rows message,
    transactions (Worker.BUDGET_DB (snd r))
    = transactions (Worker.BUDGET_DB env) ++ rows
    /\ Forall2 stores valid rows
    /\ fst r = Worker.jsonResponse
                 (Worker.ImportBody message (List.length valid)) 200.

(** *** Budgets: saving one pair *)

(** The budget rows of a month and category. *)
Definition budget_rows (m : string) (c : Z) (db : database)
  : list budget_row :=
  filter (same_budget_key m c) (monthly_budgets db).

(** POST /api/budgets with the body [{month, budgets: [{category_id,
    budget_amount}]}] at time [now]: the environment it leaves. *)
Definition save_one (now : timestamp) (m : string) (c : Z) (a : number)
           (env : Worker.Env) : Worker.Env :=
  snd (Worker.saveBudgets now (Value m)
         (Some [{| Worker.b_category_id := Value c;
                   Worker.budget_amount := Value a |}]) env).

(** The row of (month, category) with its creation time replaced. *)
Definition created_at_first (t1 : timestamp) (m : string) (c : Z)
           (b : budget_row) : budget_row :=
  if same_budget_key m c b
  then {| mb_id := mb_id b; mb_month := mb_month b;
          mb_category_id := mb_category_id b;
          mb_budget_amount := mb_budget_amount b;
          mb_created_at := t1; mb_updated_at := mb_updated_at b |}
  else b.

(** The claim on saving twice as the specification states it: one row with
    the latest amount and a bumped [updated_at], and the state of a single
    save of the latest amount. *)
Definition saved_twice_as_once (t1 t2 : timestamp) (m : string) (c : Z)
           (a1 a2 : number) (env : Worker.Env) : Prop :=
  let twice :=
    Worker.BUDGET_DB (save_one t2 m c a2 (save_one t1 m c a1 env)) in
  (exists row,
      budget_rows m c twice = [row]
      /\ mb_budget_amount row = a2 /\ mb_updated_at row = t2)
  /\ exists t, twice = Worker.BUDGET_DB (save_one t m c a2 env).

(** *** Listings of transactions *)

(** [results] are in descending date order. *)
Definition date_descending (results : list Worker.transaction_view) : Prop :=
  StronglySorted
    (fun r1 r2 =>
       String.leb (txn_date (Worker.t_row r2)) (txn_date (Worker.t_row r1))
       = true) results.

(** [results] are at most [n] transactions of the database, no transaction
    left out is more recent than one of them, and none is left out when
    there are fewer than [n]. *)
Definition most_recent (n : nat) (db : database)
           (results : list Worker.transaction_view) : Prop :=
  (List.length results <= n)%nat
  /\ exists rest,
      Permutation (map Worker.t_row results ++ rest) (transactions db)
      /\ Forall (fun older =>
                   Forall (fun r =>
                             String.leb (txn_date older)
                                        (txn_date (Worker.t_row r)) = true)
                          results) rest
      /\ ((List.length results < n)%nat -> rest = []).

(** *** Categories with activity in a month *)

Section Activity.
Variable strftime_Ym : string -> option string.

(** The category has a transaction dated in the month or a budget row for
    the month. *)
Definition has_activity (m : string) (db : database) (c : Z) : Prop :=
  (exists t, In t (of_month strftime_Ym m db) /\ txn_category_id t = c)
  \/ (exists b, In b (monthly_budgets db)
                /\ mb_month b = m /\ mb_category_id b = c).

(** The claim on the breakdown as the specification states it: every
    category with activity in the month, deactivated or not, has a row in
    the raw breakdown. *)
Definition breakdown_covers_activity (m : string) (env : Worker.Env)
  : Prop :=
  exists s,
    fst (Worker.getSummary strftime_Ym (Some m) env)
    = Worker.jsonResponse (Worker.SummaryBody s) 200
    /\ forall c,
        In c (categories (Worker.BUDGET_DB env)) ->
        has_activity m (Worker.BUDGET_DB env) (cat_id c) ->
        In (cat_id c) (map Worker.id (Worker.category_breakdown s)).
End Activity.

(** *** The CSV mapping: what a transaction owes to its row *)

Section Mapped.
Variables dateColumn descColumn amountColumn defaultType : string.
Variable defaultCategory : Z.

(** The row has a cell in the amount column; the transaction carries the
    absolute value of what [parseFloat] reads in it once ['$'] and [','] are
    removed, the description of the row, the default type and the default
    category, and it has a date only if the row has one. *)
Definition mapped_from (row : Frontend.object) (txn : Frontend.Transaction)
  : Prop :=
  exists raw,
    Frontend.get row amountColumn = Some raw
    /\ Frontend.amount txn
       = Frontend.Math_abs
           (Frontend.parseFloat (Frontend.strip_currency raw))
    /\ Frontend.type txn = defaultType
    /\ Frontend.category_id txn = defaultCategory
    /\ Frontend.source txn = "csv"
    /\ Frontend.description txn = Frontend.get row descColumn
    /\ (Frontend.truthy (Frontend.date txn) = true ->
        Frontend.truthy (Frontend.get row dateColumn) = true).
End Mapped.

(** *** Updating a transaction: a row before and after *)

(** [t'] is [t] after PUT /api/transactions/:id with body [b]: the row with
    the id takes the five fields of the body and keeps its id, source and
    creation time; any other row is unchanged. *)
Definition updated_row (id : Z) (b : Worker.transaction_body)
           (t t' : transaction_row) : Prop :=
  txn_id t' = txn_id t
  /\ txn_source t' = txn_source t
  /\ txn_created_at t' = txn_created_at t
  /\ if (txn_id t =? id)%Z
     then Worker.date b = Value (txn_date t')
          /\ Worker.description b = Value (txn_description t')
          /\ Worker.amount b = Value (txn_amount t')
          /\ Worker.type b = Value (txn_type t')
          /\ Worker.category_id b = Value (txn_category_id t')
     else t' = t.

(** *** What stays of a budget row, and of a category *)

(** The id, the key and the creation time of a budget row. *)
Definition budget_core (b : budget_row) : Z * string * Z * timestamp :=
  (mb_id b, mb_month b, mb_category_id b, mb_created_at b).

(** The category a transaction refers to, deactivated or not. *)
Definition category_of (db : database) (t : transaction_row)
  : option category_row :=
  find (fun c => (txn_category_id t =? cat_id c)%Z) (categories db).

(** The budget table [db'] keeps the rows of [db]: same categories and
    transactions, the UNIQUE key of the budgets still unique, and the budget
    rows of [db] still there, in place, with their id, key and creation
    time, before any new row. *)
Definition budgets_kept (db db' : database) : Prop :=
  categories db' = categories db
  /\ transactions db' = transactions db
  /\ (NoDup (map budget_key (monthly_budgets db)) ->
      NoDup (map budget_key (monthly_budgets db')))
  /\ exists new,
      map budget_core (monthly_budgets db')
      = map budget_core (monthly_budgets db) ++ new.

(** *** Requests that run no statement, and what every request keeps *)

(** The status of a response that is sent before any statement is run:
    a preflight, a validation error, an unknown route. *)
Definition early_status (n : nat) : Prop :=
  n = 204%nat \/ n = 400%nat \/ n = 404%nat.

(** [db'] has the categories of [db], in place and with their ids, before
    any new one, and satisfies the keys of the schema if [db] does. *)
Definition categories_kept (db db' : database) : Prop :=
  (exists new,
      map cat_id (categories db') = map cat_id (categories db) ++ new)
  /\ (schema_ok db -> schema_ok db').

(** A handler that answers with such a status only when it has run no
    statement. *)
Definition quiet (h : Api.handler) : Prop :=
  forall env,
    early_status (Api.status (fst (h env))) -> snd (h env) = env.

(** A handler that keeps the categories, and one that does not write. *)
Definition keeps (h : Api.handler) : Prop :=
  forall env,
    categories_kept (Worker.BUDGET_DB env) (Worker.BUDGET_DB (snd (h env))).

Definition reads (h : Api.handler) : Prop :=
  forall env, Worker.BUDGET_DB (snd (h env)) = Worker.BUDGET_DB env.

(** *** The database of [schema.sql] and the states requests reach *)

(** [INSERT INTO categories (name) VALUES ('Housing'), ...]: the nine
    default categories, with ids 1 to 9 in this order. *)
Definition default_categories : list string :=
  ["Housing"; "Utilities"; "Groceries"; "Transportation"; "Insurance";
   "Debt Payments"; "Savings"; "Entertainment"; "Miscellaneous"].

Fixpoint number_from (id : Z) (created : timestamp) (names : list string)
  : list category_row :=
  match names with
  | [] => []
  | n :: rest =>
      {| cat_id := id; cat_name := n; cat_is_active := 1;
         cat_created_at := created |} :: number_from (id + 1) created rest
  end.

(** The database right after [schema.sql] has run at time [created]. *)
Definition initial_database (created : timestamp) : database :=
  {| categories := number_from 1 created default_categories;
     transactions := [];
     monthly_budgets := [] |}.

(** The environment after a sequence of requests, each with the time at
    which it is served. *)
Fixpoint serve (strftime_Ym : string -> option string)
         (requests : list (timestamp * Api.Request)) (env : Worker.Env)
  : Worker.Env :=
  match requests with
  | [] => env
  | (now, request) :: rest =>
      serve strftime_Ym rest (snd (Api.fetch strftime_Ym now request env))
  end.

(** *** Characters of a cell *)

(** The character occurs in the string. *)
Fixpoint contains (c : ascii) (s : string) : bool :=
  match s with
  | EmptyString => false
  | String a s' => Ascii.eqb a c || contains c s'
  end.

(** *** Amounts the client submits *)

(** A number that is not NaN and not below zero. *)
Definition nonnegative (x : Frontend.jsnumber) : Prop :=
  match x with
  | Frontend.Finite q => (0 <= q)%Qc
  | Frontend.Infinity negative => negative = false
  | Frontend.NaN => False
  end.


(** *** The summary after a budget is saved *)

(** A breakdown row of month [m'] once the budget of category [c] for the
    month [m] is [a]. *)
Definition budgeted_as (m : string) (c : Z) (a : number) (m' : string)
           (r : Worker.breakdown_row) : Worker.breakdown_row :=
  if (m' =? m) && (Worker.id r =? c)%Z
  then {| Worker.id := Worker.id r; Worker.name := Worker.name r;
          Worker.actual := Worker.actual r; Worker.budgeted := a |}
  else r.

(** ** Data for the examples *)

Module Sample.

(** An instance of [strftime_Ym] on calendar dates [YYYY-MM-DD]: the first
    seven characters, when the separators are in place. *)
Definition strftime_Ym (d : string) : option string :=
  match String.get 4 d, String.get 7 d, String.get 9 d with
  | Some c1, Some c2, Some _ =>
      if Ascii.eqb c1 "-" && Ascii.eqb c2 "-"
      then Some (String.substring 0 7 d)
      else None
  | _, _, _ => None
  end.

Definition category (id : Z) (name : string) (is_active : Z)
  : category_row :=
  {| cat_id := id; cat_name := name; cat_is_active := is_active;
     cat_created_at := "2024-01-01 00:00:00" |}.

Definition txn (id : Z) (date description : string) (amount : Z)
           (type : string) (category_id : Z) : transaction_row :=
  {| txn_id := id; txn_date := date; txn_description := description;
     txn_amount := num_of_Z amount; txn_type := type;
     txn_category_id := category_id; txn_source := Some "manual";
     txn_created_at := "2024-01-01 00:00:00" |}.

Definition budget (id : Z) (month : string) (category_id amount : Z)
  : budget_row :=
  {| mb_id := id; mb_month := month; mb_category_id := category_id;
     mb_budget_amount := num_of_Z amount;
     mb_created_at := "2024-01-01 00:00:00";
     mb_updated_at := "2024-01-01 00:00:00" |}.

(** Three categories, the third deactivated but with a March expense. *)
Definition db : database :=
  {| categories :=
       [category 1 "Housing" 1; category 2 "Groceries" 1;
        category 3 "Travel" 0];
     transactions :=
       [txn 1 "2024-03-01" "Rent" 1500 "expense" 1;
        txn 2 "2024-03-05" "Salary" 3000 "income" 2;
        txn 3 "2024-03-09" "Food" 200 "expense" 2;
        txn 4 "2024-03-10" "Flight" 400 "expense" 3;
        txn 5 "2024-02-11" "Food" 50 "expense" 2];
     monthly_budgets :=
       [budget 1 "2024-03" 1 1600; budget 2 "2024-03" 2 300] |}.

Definition body (date description : string) (amount : field number)
           (type : string) (category_id : Z) : Worker.transaction_body :=
  {| Worker.date := Value date; Worker.description := Value description;
     Worker.amount := amount; Worker.type := Value type;
     Worker.category_id := Value category_id;
     Worker.source := Undefined |}.

Definition now : timestamp := "2024-03-12 10:00:00".

Definition LF : string := String "010"%char EmptyString.

(** A CSV file whose second data line stops after the date. *)
Definition csv_short_line : string :=
  "Date,Description,Amount" ++ LF
  ++ "2024-03-01,Rent,$1500" ++ LF
  ++ "2024-03-02" ++ LF
  ++ "2024-03-03,Food,12.50".

(** A CSV file with full lines: one without date, one without a number,
    one without description, one with a negative amount. *)
Definition csv_full_lines : string :=
  "Date,Description,Amount" ++ LF
  ++ "2024-03-01,Rent,$1200.50" ++ LF
  ++ ",Food,12" ++ LF
  ++ "2024-03-03,Tea,abc" ++ LF
  ++ "2024-03-04,,5" ++ LF
  ++ "2024-03-05,Refund,-7.25".

(** A row object whose amount has a thousands separator. *)
Definition row_thousands : Frontend.object :=
  [("Date", Some "2024-03-01"); ("Description", Some "Rent");
   ("Amount", Some "$1,200.50")].

(** An instance of [toISODate] that reads the calendar dates [YYYY-MM-DD]
    and no other. *)
Definition toISODate (d : string) : option string :=
  match strftime_Ym d with
  | Some _ => Some (String.substring 0 10 d)
  | None => None
  end.

Definition env : Worker.Env :=
  {| Worker.BUDGET_DB := db; Worker.statements := 0 |}.

End Sample.

(** * Properties *)

(** The sample database satisfies the constraints of the schema. *)
Lemma sample_schema_ok : schema_ok Sample.db.
Proof.
  split; simpl; repeat constructor; simpl; intuition discriminate.
Defined.

(** ** Numbers and strings *)

Lemma num_eqb_eq (x y : number) : num_eqb x y = true <-> x = y.
Proof.
  unfold num_eqb. rewrite Qeq_bool_iff. split.
  - apply Qc_is_canon.
  - intros ->. reflexivity.
Qed.

Lemma num_eqb_refl (x : number) : num_eqb x x = true.
Proof. now apply num_eqb_eq. Qed.

Lemma num_leb_le (x y : number) : num_leb x y = true <-> (x <= y)%Qc.
Proof. unfold num_leb, Qcle. apply Qle_bool_iff. Qed.

Lemma num_leb_total (x y : number) : num_leb x y = true \/ num_leb y x = true.
Proof.
  rewrite !num_leb_le.
  destruct (Qclt_le_dec x y) as [H | H]; [left | right]; auto.
  now apply Qclt_le_weak.
Qed.

Lemma num_leb_trans (x y z : number) :
  num_leb x y = true -> num_leb y z = true -> num_leb x z = true.
Proof. rewrite !num_leb_le. apply Qcle_trans. Qed.

Lemma string_leb_iff (a b : string) :
  String.leb a b = true <-> a = b \/ String_as_OT.lt a b.
Proof.
  unfold String.leb.
  destruct (String.compare a b) eqn:E.
  - apply String_as_OT.cmp_eq in E. tauto.
  - apply String_as_OT.cmp_lt in E. tauto.
  - split; [discriminate|].
    intros [H | H].
    + apply String_as_OT.cmp_eq in H. unfold String_as_OT.cmp in H. congruence.
    + apply String_as_OT.cmp_lt in H. unfold String_as_OT.cmp in H. congruence.
Qed.

Lemma string_leb_trans (a b c : string) :
  String.leb a b = true -> String.leb b c = true -> String.leb a c = true.
Proof.
  rewrite !string_leb_iff.
  intros [-> | H1] [-> | H2]; auto.
  right. eapply String_as_OT.lt_trans; eauto.
Qed.

(** ** [ORDER BY] sorts and permutes *)

Section OrderBy.
Context {A : Type} (le : A -> A -> bool).

Let R (x y : A) : Prop := le x y = true.

Hypothesis le_total : forall x y, le x y = true \/ le y x = true.

Lemma insert_by_perm (x : A) (l : list A) :
  Permutation (insert_by le x l) (x :: l).
Proof.
  induction l as [| y l IH]; simpl.
  - reflexivity.
  - destruct (le x y).
    + reflexivity.
    + rewrite IH. apply perm_swap.
Qed.

Lemma order_by_perm (l : list A) : Permutation (order_by le l) l.
Proof.
  induction l as [| x l IH]; simpl.
  - constructor.
  - rewrite insert_by_perm. now constructor.
Qed.

Lemma insert_by_sorted (x : A) (l : list A) :
  Sorted R l -> Sorted R (insert_by le x l).
Proof.
  induction 1 as [| y l Hs IH Hd]; simpl.
  - repeat constructor.
  - destruct (le x y) eqn:E.
    + constructor; [now constructor | now constructor].
    + constructor; [exact IH |].
      assert (Hyx : R y x) by (destruct (le_total x y); [congruence | assumption]).
      destruct l as [| z l]; simpl.
      * now constructor.
      * destruct (le x z); constructor; auto.
        now inversion Hd.
Qed.

Lemma order_by_sorted (l : list A) : Sorted R (order_by le l).
Proof.
  induction l as [| x l IH]; simpl.
  - constructor.
  - now apply insert_by_sorted.
Qed.

Hypothesis le_trans :
  forall x y z, le x y = true -> le y z = true -> le x z = true.

Lemma order_by_strongly_sorted (l : list A) :
  StronglySorted R (order_by le l).
Proof.
  apply Sorted_StronglySorted.
  - intros x y z. apply le_trans.
  - apply order_by_sorted.
Qed.
End OrderBy.

(** In a sorted list, every row of a prefix is before every row of the
    rest. *)
Lemma strongly_sorted_firstn_skipn {A} (R : A -> A -> Prop) (n : nat)
      (l : list A) :
  StronglySorted R l ->
  forall x y, In x (firstn n l) -> In y (skipn n l) -> R x y.
Proof.
  intros Hs. revert n.
  induction Hs as [| a l Hs IH Hall]; intros n x y Hx Hy.
  - rewrite firstn_nil in Hx. contradiction.
  - destruct n as [| n]; simpl in *.
    + contradiction.
    + destruct Hx as [<- | Hx].
      * rewrite Forall_forall in Hall. apply Hall.
        rewrite <- (firstn_skipn n l). apply in_or_app. now right.
      * eapply IH; eauto.
Qed.

(** ** The monthly totals *)

Section Totals.
Import Worker.
Variable strftime_Ym : string -> option string.

Lemma SUM_some {A} (f : A -> number) (l : list A) :
  COALESCE (SUM (map (fun a => Some (f a)) l)) 0%Qc
  = sum_amounts (map f l).
Proof.
  induction l as [| a l IH]; simpl.
  - reflexivity.
  - destruct (SUM (map (fun a => Some (f a)) l)) as [s |] eqn:E;
      simpl in *; rewrite <- IH.
    + reflexivity.
    + ring.
Qed.

Lemma or_zero_COALESCE (x : option number) : or_zero x = COALESCE x 0%Qc.
Proof.
  destruct x as [n |]; simpl; [| reflexivity].
  destruct (num_eqb n 0%Qc) eqn:E; [| reflexivity].
  apply num_eqb_eq in E. now subst.
Qed.

Lemma sum_case_type (ty : string) (l : list transaction_row) :
  sum_amounts (map (case_type ty) l)
  = sum_amounts (map txn_amount (of_type ty l)).
Proof.
  induction l as [| t l IH]; simpl.
  - reflexivity.
  - unfold case_type at 1. destruct (txn_type t =? ty); simpl; rewrite IH.
    + reflexivity.
    + ring.
Qed.
End Totals.

(** C2. For every database state and every month, the summary returned by
    GET /api/reports/summary has [total_income] the sum of the amounts of
    the income transactions dated in that month, [total_expenses] the sum of
    the amounts of the expense transactions dated in that month, and
    [total_income - total_expenses = net]. *)
Theorem getSummary_net (strftime_Ym : string -> option string)
        (env : Worker.Env) (m : string) :
  m <> "" ->
  exists s : Worker.Summary,
    fst (Worker.getSummary strftime_Ym (Some m) env)
    = Worker.jsonResponse (Worker.SummaryBody s) 200
    /\ Worker.total_income s
       = sum_amounts
           (map txn_amount
                (of_type "income"
                         (of_month strftime_Ym m (Worker.BUDGET_DB env))))
    /\ Worker.total_expenses s
       = sum_amounts
           (map txn_amount
                (of_type "expense"
                         (of_month strftime_Ym m (Worker.BUDGET_DB env))))
    /\ (Worker.total_income s - Worker.total_expenses s)%Qc = Worker.net s.
Proof.
  intros Hm. apply String.eqb_neq in Hm.
  unfold Worker.getSummary, Worker.try_catch, Worker.bind, Worker.all,
    Worker.ret.
  rewrite Hm. cbn [fst snd Worker.BUDGET_DB Worker.select_totals].
  eexists. split; [reflexivity |].
  cbn [Worker.total_income Worker.total_expenses Worker.net].
  rewrite !or_zero_COALESCE, !SUM_some, !sum_case_type.
  repeat split; reflexivity.
Qed.

Lemma getSummary_net_witness :
  "2024-03" <> ""
  /\ exists s : Worker.Summary,
      fst (Worker.getSummary Sample.strftime_Ym (Some "2024-03") Sample.env)
      = Worker.jsonResponse (Worker.SummaryBody s) 200
      /\ Worker.total_income s
         = sum_amounts
             (map txn_amount
                  (of_type "income"
                     (of_month Sample.strftime_Ym "2024-03"
                               (Worker.BUDGET_DB Sample.env))))
      /\ Worker.total_expenses s
         = sum_amounts
             (map txn_amount
                  (of_type "expense"
                     (of_month Sample.strftime_Ym "2024-03"
                               (Worker.BUDGET_DB Sample.env))))
      /\ (Worker.total_income s - Worker.total_expenses s)%Qc = Worker.net s.
Proof.
  split; [discriminate |].
  apply (getSummary_net Sample.strftime_Ym Sample.env "2024-03").
  discriminate.
Defined.

(** ** Deactivating a category *)

Lemma deactivate_rows (id : Z) (l : list category_row) :
  Forall2
    (fun c c' =>
       cat_id c' = cat_id c /\ cat_name c' = cat_name c
       /\ cat_created_at c' = cat_created_at c
       /\ cat_is_active c'
          = if (cat_id c =? id)%Z then 0%Z else cat_is_active c)
    l
    (map (fun c =>
            if (cat_id c =? id)%Z
            then {| cat_id := cat_id c; cat_name := cat_name c;
                    cat_is_active := 0;
                    cat_created_at := cat_created_at c |}
            else c) l).
Proof.
  induction l as [| c l IH]; simpl; constructor; auto.
  destruct (cat_id c =? id)%Z; simpl; auto.
Qed.

Lemma select_active_categories_In (db : database) (c : category_row) :
  In c (select_active_categories db)
  <-> In c (categories db) /\ cat_is_active c = 1%Z.
Proof.
  unfold select_active_categories. split.
  - intros H. eapply Permutation_in in H; [| apply order_by_perm].
    apply filter_In in H. now rewrite Z.eqb_eq in H.
  - intros [H1 H2].
    eapply Permutation_in; [symmetry; apply order_by_perm |].
    apply filter_In. now rewrite Z.eqb_eq.
Qed.

(** C6. DELETE /api/categories/:id sets that category's [is_active] to 0
    and changes nothing else: the categories are the same rows in the same
    order with every other field unchanged, the transactions and the
    monthly budgets are unchanged; afterwards GET /api/categories does not
    list a category with that id. *)
Theorem deleteCategory_soft (env : Worker.Env) (id : Z) :
  let r := Worker.deleteCategory id env in
  let db := Worker.BUDGET_DB env in
  let db' := Worker.BUDGET_DB (snd r) in
  fst r = Worker.jsonResponse
            (Worker.MessageBody "Category deactivated successfully") 200
  /\ Forall2
       (fun c c' =>
          cat_id c' = cat_id c /\ cat_name c' = cat_name c
          /\ cat_created_at c' = cat_created_at c
          /\ cat_is_active c'
             = if (cat_id c =? id)%Z then 0%Z else cat_is_active c)
       (categories db) (categories db')
  /\ transactions db' = transactions db
  /\ monthly_budgets db' = monthly_budgets db
  /\ exists results,
      fst (Worker.getCategories (snd r))
      = Worker.jsonResponse (Worker.CategoryList results) 200
      /\ Forall (fun c => cat_id c <> id) results.
Proof.
  cbv zeta.
  unfold Worker.deleteCategory, Worker.getCategories, Worker.try_catch,
    Worker.bind, Worker.run, Worker.all, Worker.ret, deactivate_category.
  cbn [fst snd Worker.BUDGET_DB categories transactions monthly_budgets].
  split; [reflexivity |].
  split; [apply deactivate_rows |].
  split; [reflexivity |].
  split; [reflexivity |].
  eexists. split; [reflexivity |].
  apply Forall_forall. intros c Hc.
  apply select_active_categories_In in Hc. destruct Hc as [Hin Hact].
  cbn [categories] in Hin. apply in_map_iff in Hin.
  destruct Hin as [c0 [Heq _]].
  destruct (cat_id c0 =? id)%Z eqn:E; subst c.
  - simpl in Hact. discriminate.
  - now apply Z.eqb_neq in E.
Qed.

(** ** Creating a transaction: validation before the store *)

Lemma try_catch_ret (r : Worker.Response) (env : Worker.Env) :
  Worker.try_catch (Worker.ret r) env = (r, env).
Proof. reflexivity. Qed.

(** C7. A POST /api/transactions body that lacks one of date, description,
    amount, type or category_id, or whose type is neither 'income' nor
    'expense', is answered with status 400 and a descriptive message, no
    statement is run and the environment is unchanged.  For a body that
    passes validation the insert is run, and when the store throws, the
    answer is status 500 with the message of the store; otherwise the row
    is stored and the answer is status 201. *)
Theorem createTransaction_errors (now : timestamp)
        (b : Worker.transaction_body) (env : Worker.Env) :
  let r := Worker.createTransaction now b env in
  let insert :=
    insert_transaction now (bound (Worker.date b))
      (bound (Worker.description b)) (bound (Worker.amount b))
      (bound (Worker.type b)) (bound (Worker.category_id b))
      (bound (with_default "manual" (Worker.source b)))
      (Worker.BUDGET_DB env) in
  (Worker.date b = Undefined \/ Worker.description b = Undefined
   \/ Worker.amount b = Undefined \/ Worker.type b = Undefined
   \/ Worker.category_id b = Undefined
   \/ (Worker.type b <> Value "income" /\ Worker.type b <> Value "expense") ->
   (fst r = Worker.errorResponse "Missing required fields" 400
    \/ fst r = Worker.errorResponse
                 ("Type must be " ++ Worker.dquote ++ "income"
                  ++ Worker.dquote ++ " or " ++ Worker.dquote ++ "expense"
                  ++ Worker.dquote) 400)
   /\ snd r = env)
  /\ (Worker.missing_required_fields b = false ->
      Worker.type b = Value "income" \/ Worker.type b = Value "expense" ->
      Worker.statements (snd r) = S (Worker.statements env)
      /\ match insert with
         | inl e =>
             fst r = Worker.errorResponse e 500
             /\ Worker.BUDGET_DB (snd r) = Worker.BUDGET_DB env
         | inr (id, db') =>
             fst r = Worker.jsonResponse
                       (Worker.TransactionBody id
                          (Worker.with_source
                             (with_default "manual" (Worker.source b)) b)) 201
             /\ Worker.BUDGET_DB (snd r) = db'
         end).
Proof.
  cbv zeta. unfold Worker.createTransaction. split.
  - intros H.
    destruct (Worker.missing_required_fields b) eqn:Hmiss.
    + rewrite try_catch_ret. auto.
    + assert (Hty : type_check
                      match Worker.type b with Value s => s | _ => "" end
                    = false).
      { unfold Worker.missing_required_fields in Hmiss.
        rewrite !orb_false_iff in Hmiss.
        destruct Hmiss as [[[[Hd Hds] Ha] Ht] Hc].
        destruct H as [H | [H | [H | [H | [H | [H1 H2]]]]]];
          try (rewrite H in *; simpl in *; discriminate).
        destruct (Worker.type b) as [| | s]; try reflexivity.
        unfold type_check. apply orb_false_iff. split; apply String.eqb_neq;
          congruence. }
      rewrite Hty. simpl negb. cbv iota. rewrite try_catch_ret. auto.
  - intros Hmiss Hty. rewrite Hmiss.
    assert (Hck : type_check
                    match Worker.type b with Value s => s | _ => "" end
                  = true) by (destruct Hty as [-> | ->]; reflexivity).
    rewrite Hck. simpl negb. cbv iota.
    unfold Worker.try_catch, Worker.bind, Worker.run, Worker.ret.
    destruct (insert_transaction _ _ _ _ _ _ _ _) as [e | [id db']];
      simpl; auto.
Qed.

Lemma createTransaction_errors_witness :
  let b :=
    {| Worker.date := Value "2024-03-12"; Worker.description := Value "Tea";
       Worker.amount := Undefined; Worker.type := Value "expense";
       Worker.category_id := Value 2%Z; Worker.source := Undefined |} in
  let b' :=
    {| Worker.date := Value "2024-03-12"; Worker.description := Value "Tea";
       Worker.amount := Null; Worker.type := Value "expense";
       Worker.category_id := Value 2%Z; Worker.source := Undefined |} in
  Worker.createTransaction "2024-03-12 10:00:00" b Sample.env
  = (Worker.errorResponse "Missing required fields" 400, Sample.env)
  /\ fst (Worker.createTransaction "2024-03-12 10:00:00" b' Sample.env)
     = Worker.errorResponse
         "NOT NULL constraint failed: transactions.amount" 500.
Proof.
  cbv zeta. split.
  - match goal with
    | |- Worker.createTransaction ?n ?b ?e = _ =>
        destruct (createTransaction_errors n b e) as [H _]
    end.
    cbv zeta in H.
    destruct H as [[H | H] He].
    + right. right. left. reflexivity.
    + rewrite (surjective_pairing (Worker.createTransaction _ _ _)).
      rewrite H, He. reflexivity.
    + vm_compute in H. discriminate.
  - match goal with
    | |- fst (Worker.createTransaction ?n ?b ?e) = _ =>
        destruct (createTransaction_errors n b e) as [_ H]
    end.
    cbv zeta in H.
    destruct H as [_ H]; [reflexivity | right; reflexivity |].
    exact (proj1 H).
Defined.

(** ** Amounts are stored as they are sent *)

(** C8 (the code at a request with a negative amount).  POST
    /api/transactions, PUT /api/transactions/:id and POST
    /api/transactions/import each store the amount -5 of a request that
    carries it: the stored row has a negative amount. *)
Theorem negative_amount_stored :
  let b := Sample.body "2024-03-12" "Refund" (Value (num_of_Z (-5)))
                       "expense" 2 in
  let created := Worker.createTransaction Sample.now b Sample.env in
  let updated := Worker.updateTransaction 1 b Sample.env in
  let imported := Worker.importTransactions Sample.now (Some [b]) Sample.env in
  Worker.status (fst created) = 201%nat
  /\ Worker.status (fst updated) = 200%nat
  /\ Worker.status (fst imported) = 200%nat
  /\ Exists (fun t => (txn_amount t < 0)%Qc)
            (transactions (Worker.BUDGET_DB (snd created)))
  /\ Exists (fun t => (txn_amount t < 0)%Qc)
            (transactions (Worker.BUDGET_DB (snd updated)))
  /\ Exists (fun t => (txn_amount t < 0)%Qc)
            (transactions (Worker.BUDGET_DB (snd imported))).
Proof.
  cbv zeta.
  split; [reflexivity |]. split; [reflexivity |]. split; [reflexivity |].
  split; [| split].
  - vm_compute. do 5 apply Exists_cons_tl. apply Exists_cons_hd. reflexivity.
  - vm_compute. apply Exists_cons_hd. reflexivity.
  - vm_compute. do 5 apply Exists_cons_tl. apply Exists_cons_hd. reflexivity.
Qed.

(** ** The import batch *)

Lemma bound_Some {A} (f : field A) (a : A) : bound f = Some a -> f = Value a.
Proof. destruct f; simpl; congruence. Qed.

Lemma insert_element_row (now : timestamp) (t : Worker.transaction_body)
      (db db' : database) (id : Z) :
  insert_element now t db = inr (id, db') ->
  exists row,
    transactions db' = transactions db ++ [row]
    /\ stores t row
    /\ categories db' = categories db
    /\ monthly_budgets db' = monthly_budgets db.
Proof.
  unfold insert_element, insert_transaction.
  destruct (bound (Worker.date t)) as [d |] eqn:Ed; [| discriminate].
  destruct (bound (Worker.description t)) as [ds |] eqn:Eds; [| discriminate].
  destruct (bound (Worker.amount t)) as [a |] eqn:Ea; [| discriminate].
  destruct (bound (Worker.type t)) as [ty |] eqn:Ety; [| discriminate].
  destruct (bound (Worker.category_id t)) as [c |] eqn:Ec; [| discriminate].
  destruct (negb (type_check ty)); [discriminate |].
  destruct (negb (source_check _)); [discriminate |].
  destruct (negb (category_exists db c)); [discriminate |].
  intros H. injection H as _ <-.
  eexists. split; [reflexivity |].
  unfold stores; simpl.
  repeat split; auto using bound_Some.
Qed.

Lemma accepted_insert_element (now : timestamp)
      (t : Worker.transaction_body) (db : database) :
  passes_validation t = true -> accepted_by db t = true ->
  exists id db', insert_element now t db = inr (id, db').
Proof.
  unfold passes_validation, Worker.missing_required_fields, accepted_by,
    insert_element, insert_transaction.
  rewrite negb_true_iff, !orb_false_iff, !negb_false_iff.
  intros [[[[Hd Hds] _] _] _].
  destruct (Worker.date t) as [| | d]; try discriminate.
  destruct (Worker.description t) as [| | ds]; try discriminate.
  simpl bound.
  destruct (bound (Worker.amount t)); [| discriminate].
  destruct (bound (Worker.type t)); [| discriminate].
  destruct (bound (Worker.category_id t)); [| discriminate].
  rewrite !andb_true_iff. intros [[-> ->] ->]. simpl. eauto.
Qed.

Lemma insert_each_rows (now : timestamp) (l : list Worker.transaction_body) :
  forall db,
  exists rows,
    transactions (fst (insert_each now l db)) = transactions db ++ rows
    /\ Forall2 stores (firstn (List.length rows) l) rows
    /\ categories (fst (insert_each now l db)) = categories db
    /\ monthly_budgets (fst (insert_each now l db)) = monthly_budgets db
    /\ match snd (insert_each now l db) with
       | None => List.length rows = List.length l
       | Some _ => (List.length rows < List.length l)%nat
       end.
Proof.
  induction l as [| t l IH]; intros db; simpl.
  - exists []. rewrite app_nil_r. repeat split; constructor.
  - destruct (insert_element now t db) as [e | [id db']] eqn:E; simpl.
    + exists []. rewrite app_nil_r. simpl.
      repeat split; [constructor | lia].
    + destruct (insert_element_row _ _ _ _ _ E) as [row [Ht [Hs [Hc Hb]]]].
      destruct (IH db') as [rows [Ht' [Hs' [Hc' [Hb' Hn]]]]].
      exists (row :: rows).
      rewrite Ht', Ht, <- app_assoc, Hc', Hb'. simpl.
      repeat split; auto.
      destruct (snd (insert_each now l db')); lia.
Qed.

Lemma category_exists_same (db db' : database) (c : Z) :
  categories db' = categories db ->
  category_exists db' c = category_exists db c.
Proof. unfold category_exists. now intros ->. Qed.

Lemma accepted_by_same (db db' : database) (t : Worker.transaction_body) :
  categories db' = categories db -> accepted_by db' t = accepted_by db t.
Proof.
  intros H. unfold accepted_by.
  destruct (bound (Worker.amount t)), (bound (Worker.type t)),
    (bound (Worker.category_id t)); auto.
  now rewrite (category_exists_same db db').
Qed.

Lemma forallb_pointwise {A} (f g : A -> bool) (l : list A) :
  (forall x, f x = g x) -> forallb f l = forallb g l.
Proof.
  intros H. induction l as [| x l IH]; simpl; [reflexivity |].
  now rewrite H, IH.
Qed.

Lemma insert_each_accepted (now : timestamp)
      (l : list Worker.transaction_body) :
  forall db,
    forallb passes_validation l = true ->
    forallb (accepted_by db) l = true ->
    snd (insert_each now l db) = None.
Proof.
  induction l as [| t l IH]; intros db Hv Ha; simpl in *.
  - reflexivity.
  - apply andb_true_iff in Hv. destruct Hv as [Hv Hvl].
    apply andb_true_iff in Ha. destruct Ha as [Ha Hal].
    destruct (accepted_insert_element now t db Hv Ha) as [id [db' E]].
    rewrite E.
    destruct (insert_element_row _ _ _ _ _ E) as [_ [_ [_ [Hc _]]]].
    apply IH; auto.
    rewrite (forallb_pointwise _ (accepted_by db)); [exact Hal |].
    intros x. now apply accepted_by_same.
Qed.

Lemma import_loop_insert_each (now : timestamp)
      (txns : list Worker.transaction_body) :
  forall (n : nat) (env : Worker.Env),
    let valid := filter passes_validation txns in
    let r := Worker.import_loop now txns n env in
    Worker.BUDGET_DB (snd r) = fst (insert_each now valid (Worker.BUDGET_DB env))
    /\ fst r = match snd (insert_each now valid (Worker.BUDGET_DB env)) with
               | None => inr (n + List.length valid)%nat
               | Some e => inl e
               end.
Proof.
  induction txns as [| t txns IH]; intros n env; cbv zeta; simpl.
  - split; [reflexivity |]. unfold Worker.ret. simpl. f_equal. lia.
  - change (passes_validation t)
      with (negb (Worker.missing_required_fields t)).
    destruct (negb (Worker.missing_required_fields t)) eqn:Hv.
    + simpl insert_each. unfold insert_element.
      unfold Worker.bind, Worker.run.
      destruct (insert_transaction _ _ _ _ _ _ _ _) as [e | [id db']];
        simpl.
      * auto.
      * specialize (IH (S n) {| Worker.BUDGET_DB := db';
                                Worker.statements :=
                                  S (Worker.statements env) |}).
        cbv zeta in IH. simpl in IH. destruct IH as [IH1 IH2].
        split; [exact IH1 |]. rewrite IH2.
        destruct (snd (insert_each now _ db')); [reflexivity |].
        f_equal. lia.
    + apply (IH n env).
Qed.

(** C5, as the specification states it, fails when the store rejects an
    element that passes the presence validation: of three such elements, the
    second with type 'transfer', the response is an error and carries no
    count. *)
Lemma import_inserts_all_valid_fails :
  ~ import_inserts_all_valid Sample.now
      [Sample.body "2024-03-12" "Tea" (Value (num_of_Z 4)) "expense" 2;
       Sample.body "2024-03-13" "Move" (Value (num_of_Z 10)) "transfer" 2;
       Sample.body "2024-03-14" "Bus" (Value (num_of_Z 3)) "expense" 1]
      Sample.env.
Proof.
  intros [rows [message [_ [_ H]]]]. vm_compute in H. discriminate.
Qed.

(** C5, amended.  POST /api/transactions/import validates each element of
    the array for the presence of date, description, amount, type and
    category_id, skips the elements that fail, and inserts the others one by
    one in order.  If the store accepts them all, they are exactly the rows
    added and the response reports their number as [imported].  If the
    store rejects one, the import stops there: the response is the store's
    message with status 500 and the rows inserted before it stay. *)
Theorem importTransactions_batch (now : timestamp)
        (txns : list Worker.transaction_body) (env : Worker.Env) :
  let r := Worker.importTransactions now (Some txns) env in
  let db := Worker.BUDGET_DB env in
  let db' := Worker.BUDGET_DB (snd r) in
  let valid := filter passes_validation txns in
  (forallb (accepted_by db) valid = true ->
   import_inserts_all_valid now txns env)
  /\ db' = fst (insert_each now valid db)
  /\ categories db' = categories db
  /\ monthly_budgets db' = monthly_budgets db
  /\ exists rows,
      transactions db' = transactions db ++ rows
      /\ Forall2 stores (firstn (List.length rows) valid) rows
      /\ match snd (insert_each now valid db) with
         | None =>
             List.length rows = List.length valid
             /\ fst r = Worker.jsonResponse
                          (Worker.ImportBody
                             (Worker.string_of_nat (List.length valid)
                              ++ " transactions imported successfully")
                             (List.length valid)) 200
         | Some e =>
             (List.length rows < List.length valid)%nat
             /\ fst r = Worker.errorResponse e 500
         end.
Proof.
  cbv zeta.
  destruct (import_loop_insert_each now txns 0 env) as [Hdb Hres].
  cbv zeta in Hdb, Hres.
  destruct (insert_each_rows now (filter passes_validation txns)
              (Worker.BUDGET_DB env)) as [rows [Ht [Hs [Hc [Hb Hn]]]]].
  assert (Hdb' : Worker.BUDGET_DB
                   (snd (Worker.importTransactions now (Some txns) env))
                 = fst (insert_each now (filter passes_validation txns)
                          (Worker.BUDGET_DB env))).
  { unfold Worker.importTransactions, Worker.try_catch, Worker.bind.
    rewrite <- Hdb.
    destruct (Worker.import_loop now txns 0 env) as [[e | n] env']; reflexivity. }
  assert (Hr : fst (Worker.importTransactions now (Some txns) env)
               = match snd (insert_each now (filter passes_validation txns)
                              (Worker.BUDGET_DB env)) with
                 | None =>
                     Worker.jsonResponse
                       (Worker.ImportBody
                          (Worker.string_of_nat
                             (List.length (filter passes_validation txns))
                           ++ " transactions imported successfully")
                          (List.length (filter passes_validation txns))) 200
                 | Some e => Worker.errorResponse e 500
                 end).
  { unfold Worker.importTransactions, Worker.try_catch, Worker.bind.
    destruct (Worker.import_loop now txns 0 env) as [[e | n] env'];
      simpl in Hres;
      destruct (snd (insert_each now _ _)); try discriminate;
      injection Hres as ->; reflexivity. }
  split; [| split; [| split; [| split]]].
  - intros Hacc. unfold import_inserts_all_valid. cbv zeta.
    assert (Hnone : snd (insert_each now (filter passes_validation txns)
                           (Worker.BUDGET_DB env)) = None).
    { apply insert_each_accepted; [| exact Hacc].
      apply forallb_forall. intros x Hx. now apply filter_In in Hx. }
    rewrite Hnone in Hn, Hr.
    exists rows. eexists. rewrite Hdb', Hr.
    split; [exact Ht |]. split; [| reflexivity].
    rewrite Hn, firstn_all in Hs. exact Hs.
  - exact Hdb'.
  - now rewrite Hdb'.
  - now rewrite Hdb'.
  - exists rows. rewrite Hdb'. split; [exact Ht |]. split; [exact Hs |].
    rewrite Hr. destruct (snd (insert_each now _ _)); auto.
Qed.

Lemma importTransactions_batch_witness :
  let txns :=
    [Sample.body "2024-03-12" "Tea" (Value (num_of_Z 4)) "expense" 2;
     Sample.body "2024-03-13" "" (Value (num_of_Z 10)) "expense" 2;
     Sample.body "2024-03-14" "Bus" (Value (num_of_Z 3)) "expense" 1] in
  forallb (accepted_by Sample.db) (filter passes_validation txns) = true
  /\ import_inserts_all_valid Sample.now txns Sample.env.
Proof.
  cbv zeta. split.
  - reflexivity.
  - apply (importTransactions_batch Sample.now _ Sample.env). reflexivity.
Defined.

(** ** Saving a budget twice *)

(** C4, as the specification states it, fails for a budget that did not
    exist: after two saves the row was created at the first and updated at
    the second, which no single save produces. *)
Lemma saved_twice_as_once_fails :
  ~ saved_twice_as_once "2024-04-01 09:00:00" "2024-04-02 09:00:00"
      "2024-04" 2 (num_of_Z 250) (num_of_Z 300) Sample.env.
Proof.
  intros [_ [t H]].
  apply (f_equal monthly_budgets) in H.
  vm_compute in H.
  apply (f_equal (fun l => map (fun b => (mb_created_at b, mb_updated_at b))
                               (skipn 2 l))) in H.
  simpl in H. injection H as H1 H2. rewrite <- H1 in H2. discriminate.
Qed.

Lemma same_budget_key_iff (m : string) (c : Z) (b : budget_row) :
  same_budget_key m c b = true <-> budget_key b = (m, c).
Proof.
  unfold same_budget_key, budget_key.
  rewrite andb_true_iff, String.eqb_eq, Z.eqb_eq.
  split; [intros [-> ->]; reflexivity | intros H; now inversion H].
Qed.

Lemma filter_none {A} (f : A -> bool) (l : list A) :
  existsb f l = false -> filter f l = [].
Proof.
  induction l as [| x l IH]; simpl; [reflexivity |].
  intros H. apply orb_false_iff in H. destruct H as [-> H]. auto.
Qed.

Lemma map_unless {A} (f : A -> bool) (g : A -> A) (l : list A) :
  existsb f l = false -> map (fun x => if f x then g x else x) l = l.
Proof.
  induction l as [| x l IH]; simpl; [reflexivity |].
  intros H. apply orb_false_iff in H. destruct H as [-> H].
  now rewrite IH.
Qed.

(** With the UNIQUE constraint, a key that is present has one row. *)
Lemma budget_row_unique (m : string) (c : Z) (l : list budget_row) :
  NoDup (map budget_key l) ->
  existsb (same_budget_key m c) l = true ->
  exists b, filter (same_budget_key m c) l = [b].
Proof.
  induction l as [| x l IH]; simpl; [discriminate |].
  intros Hnd Hex. inversion Hnd as [| k ks Hnotin Hnd']; subst.
  destruct (same_budget_key m c x) eqn:Ex.
  - exists x. f_equal. apply filter_none.
    destruct (existsb (same_budget_key m c) l) eqn:El; [| reflexivity].
    exfalso. apply Hnotin.
    apply existsb_exists in El. destruct El as [y [Hy Ey]].
    apply same_budget_key_iff in Ex. apply same_budget_key_iff in Ey.
    rewrite Ex, <- Ey. now apply in_map.
  - simpl in Hex. auto.
Qed.

Lemma save_one_upsert (now : timestamp) (m : string) (c : Z) (a : number)
      (env : Worker.Env) :
  m <> "" -> c <> 0%Z ->
  Worker.saveBudgets now (Value m)
    (Some [{| Worker.b_category_id := Value c;
              Worker.budget_amount := Value a |}]) env
  = match upsert_budget now (Some m) (Some c) (Some a)
            (Worker.BUDGET_DB env) with
    | inl e =>
        (Worker.errorResponse e 500,
         {| Worker.BUDGET_DB := Worker.BUDGET_DB env;
            Worker.statements := S (Worker.statements env) |})
    | inr (_, db') =>
        (Worker.jsonResponse
           (Worker.MessageBody "Budgets saved successfully") 200,
         {| Worker.BUDGET_DB := db';
            Worker.statements := S (Worker.statements env) |})
    end.
Proof.
  intros Hm Hc. apply String.eqb_neq in Hm. apply Z.eqb_neq in Hc.
  unfold Worker.saveBudgets, Worker.try_catch, Worker.save_loop,
    Worker.bind, Worker.run, Worker.ret.
  cbn -[upsert_budget]. rewrite Hm, Hc. cbn -[upsert_budget].
  destruct (upsert_budget _ _ _ _ _) as [e | [u db']]; reflexivity.
Qed.

Section Upsert.
Variables (m : string) (c : Z).

Let update (a : number) (now : timestamp) (b : budget_row) : budget_row :=
  if same_budget_key m c b
  then {| mb_id := mb_id b; mb_month := mb_month b;
          mb_category_id := mb_category_id b; mb_budget_amount := a;
          mb_created_at := mb_created_at b; mb_updated_at := now |}
  else b.

Lemma update_key (a : number) (now : timestamp) (b : budget_row) :
  same_budget_key m c (update a now b) = same_budget_key m c b.
Proof.
  unfold update. destruct (same_budget_key m c b) eqn:E; [| exact E].
  exact E.
Qed.

Lemma update_update (a1 a2 : number) (t1 t2 : timestamp) (b : budget_row) :
  update a2 t2 (update a1 t1 b) = update a2 t2 b.
Proof.
  unfold update at 2. destruct (same_budget_key m c b) eqn:E.
  - unfold update. simpl. unfold same_budget_key in *. simpl. rewrite E.
    reflexivity.
  - reflexivity.
Qed.

Lemma existsb_update (a : number) (now : timestamp) (l : list budget_row) :
  existsb (same_budget_key m c) (map (update a now) l)
  = existsb (same_budget_key m c) l.
Proof.
  induction l as [| b l IH]; simpl; [reflexivity |].
  now rewrite update_key, IH.
Qed.

Lemma filter_update (a : number) (now : timestamp) (l : list budget_row) :
  filter (same_budget_key m c) (map (update a now) l)
  = map (update a now) (filter (same_budget_key m c) l).
Proof.
  induction l as [| b l IH]; simpl; [reflexivity |].
  rewrite update_key. destruct (same_budget_key m c b); simpl; now rewrite IH.
Qed.

Lemma upsert_existing (now : timestamp) (a : number) (db : database) :
  existsb (same_budget_key m c) (monthly_budgets db) = true ->
  upsert_budget now (Some m) (Some c) (Some a) db
  = inr (tt, {| categories := categories db;
                transactions := transactions db;
                monthly_budgets :=
                  map (update a now) (monthly_budgets db) |}).
Proof. unfold upsert_budget. now intros ->. Qed.

Lemma upsert_fresh (now : timestamp) (a : number) (db : database) :
  existsb (same_budget_key m c) (monthly_budgets db) = false ->
  category_exists db c = true ->
  upsert_budget now (Some m) (Some c) (Some a) db
  = inr (tt, {| categories := categories db;
                transactions := transactions db;
                monthly_budgets :=
                  monthly_budgets db ++
                  [{| mb_id := next_id (map mb_id (monthly_budgets db));
                      mb_month := m; mb_category_id := c;
                      mb_budget_amount := a;
                      mb_created_at := now; mb_updated_at := now |}] |}).
Proof. unfold upsert_budget. now intros -> ->. Qed.

Lemma same_budget_key_refl (b : budget_row) :
  mb_month b = m -> mb_category_id b = c -> same_budget_key m c b = true.
Proof.
  intros H1 H2. unfold same_budget_key.
  now rewrite H1, H2, String.eqb_refl, Z.eqb_refl.
Qed.

(** The state after a save, then a second one, and after the second one
    alone. *)
Lemma twice_and_once (t1 t2 : timestamp) (a1 a2 : number)
      (env : Worker.Env) :
  m <> "" -> c <> 0%Z ->
  category_exists (Worker.BUDGET_DB env) c = true ->
  let db := Worker.BUDGET_DB env in
  let once := Worker.BUDGET_DB (save_one t2 m c a2 env) in
  let twice :=
    Worker.BUDGET_DB (save_one t2 m c a2 (save_one t1 m c a1 env)) in
  categories twice = categories once
  /\ transactions twice = transactions once
  /\ if existsb (same_budget_key m c) (monthly_budgets db)
     then monthly_budgets once = map (update a2 t2) (monthly_budgets db)
          /\ twice = once
     else monthly_budgets once
          = monthly_budgets db ++
            [{| mb_id := next_id (map mb_id (monthly_budgets db));
                mb_month := m; mb_category_id := c;
                mb_budget_amount := a2;
                mb_created_at := t2; mb_updated_at := t2 |}]
          /\ monthly_budgets twice
             = monthly_budgets db ++
               [{| mb_id := next_id (map mb_id (monthly_budgets db));
                   mb_month := m; mb_category_id := c;
                   mb_budget_amount := a2;
                   mb_created_at := t1; mb_updated_at := t2 |}].
Proof.
  intros Hm Hc Hcat. cbv zeta. unfold save_one.
  rewrite !(save_one_upsert _ m c _ _ Hm Hc).
  destruct (existsb (same_budget_key m c)
              (monthly_budgets (Worker.BUDGET_DB env))) eqn:E.
  - rewrite !(upsert_existing _ _ _ E). cbn -[upsert_budget].
    rewrite upsert_existing by (cbn; now rewrite existsb_update).
    cbn. rewrite map_map.
    rewrite (map_ext _ _ (update_update a1 a2 t1 t2)). auto.
  - rewrite !(upsert_fresh _ _ _ E Hcat). cbn -[upsert_budget].
    rewrite upsert_existing.
    2:{ cbn. rewrite existsb_app. cbn.
        rewrite same_budget_key_refl by reflexivity.
        now rewrite orb_true_r. }
    cbn. rewrite map_app. fold (update a2 t2).
    unfold update at 1. rewrite (map_unless _ _ _ E).
    repeat split. cbn. unfold update.
    rewrite same_budget_key_refl by reflexivity. reflexivity.
Qed.
End Upsert.

Lemma save_one_status (now : timestamp) (m : string) (c : Z) (a : number)
      (env : Worker.Env) :
  m <> "" -> c <> 0%Z ->
  category_exists (Worker.BUDGET_DB env) c = true ->
  fst (Worker.saveBudgets now (Value m)
         (Some [{| Worker.b_category_id := Value c;
                   Worker.budget_amount := Value a |}]) env)
  = Worker.jsonResponse (Worker.MessageBody "Budgets saved successfully") 200.
Proof.
  intros Hm Hc Hcat. rewrite (save_one_upsert _ m c _ _ Hm Hc).
  destruct (existsb (same_budget_key m c)
              (monthly_budgets (Worker.BUDGET_DB env))) eqn:E.
  - now rewrite (upsert_existing _ _ _ _ _ E).
  - now rewrite (upsert_fresh _ _ _ _ _ E Hcat).
Qed.

Lemma save_one_categories (now : timestamp) (m : string) (c : Z) (a : number)
      (env : Worker.Env) :
  categories (Worker.BUDGET_DB (save_one now m c a env))
  = categories (Worker.BUDGET_DB env).
Proof.
  unfold save_one.
  destruct (m =? "") eqn:Em.
  - apply String.eqb_eq in Em. subst m. reflexivity.
  - destruct (c =? 0)%Z eqn:Ec.
    + apply Z.eqb_eq in Ec. subst c.
      unfold Worker.saveBudgets, Worker.try_catch. cbn. rewrite Em.
      reflexivity.
    + apply String.eqb_neq in Em. apply Z.eqb_neq in Ec.
      rewrite (save_one_upsert _ m c _ _ Em Ec). unfold upsert_budget.
      destruct (existsb _ _); [reflexivity |].
      destruct (negb _); reflexivity.
Qed.

(** C4, amended.  For a month and a category that exists, running POST
    /api/budgets twice with the same (month, category_id) and amounts a1
    then a2 leaves exactly one monthly_budgets row for that (month,
    category_id), with [budget_amount = a2] and [updated_at] the time of the
    second save.  If the row existed before the first save, the final state
    equals the state after a single save of a2 at the time of the second
    one; if it did not, the two states differ only in the [created_at] of
    that row, which is the time of the first save. *)
Theorem saveBudgets_twice (t1 t2 : timestamp) (m : string) (c : Z)
        (a1 a2 : number) (env : Worker.Env) :
  m <> "" -> c <> 0%Z ->
  category_exists (Worker.BUDGET_DB env) c = true ->
  schema_ok (Worker.BUDGET_DB env) ->
  let pair a := Some [{| Worker.b_category_id := Value c;
                         Worker.budget_amount := Value a |}] in
  let r1 := Worker.saveBudgets t1 (Value m) (pair a1) env in
  let r2 := Worker.saveBudgets t2 (Value m) (pair a2) (snd r1) in
  let twice := Worker.BUDGET_DB (snd r2) in
  let once := Worker.BUDGET_DB (save_one t2 m c a2 env) in
  Worker.status (fst r1) = 200%nat
  /\ Worker.status (fst r2) = 200%nat
  /\ (exists row,
         budget_rows m c twice = [row]
         /\ mb_budget_amount row = a2 /\ mb_updated_at row = t2)
  /\ categories twice = categories once
  /\ transactions twice = transactions once
  /\ if existsb (same_budget_key m c)
          (monthly_budgets (Worker.BUDGET_DB env))
     then twice = once
     else monthly_budgets twice
          = map (created_at_first t1 m c) (monthly_budgets once).
Proof.
  intros Hm Hc Hcat [_ Huniq]. cbv zeta.
  destruct (twice_and_once m c t1 t2 a1 a2 env Hm Hc Hcat)
    as [Hcs [Hts Hbs]].
  pose proof (save_one_categories t1 m c a1 env) as Hc1.
  unfold save_one in *.
  split; [now rewrite save_one_status |].
  split.
  { rewrite save_one_status; auto.
    unfold category_exists in *. now rewrite Hc1. }
  split; [| split; [exact Hcs | split; [exact Hts |]]].
  - unfold budget_rows.
    destruct (existsb (same_budget_key m c)
                (monthly_budgets (Worker.BUDGET_DB env))) eqn:E.
    + destruct Hbs as [Hone ->]. rewrite Hone, filter_update.
      destruct (budget_row_unique m c _ Huniq E) as [b Hb].
      rewrite Hb. simpl.
      assert (Hk : same_budget_key m c b = true).
      { assert (Hin : In b (filter (same_budget_key m c)
                              (monthly_budgets (Worker.BUDGET_DB env))))
          by (rewrite Hb; now left).
        now apply filter_In in Hin. }
      rewrite Hk. eexists. split; [reflexivity |]. split; reflexivity.
    + destruct Hbs as [_ ->]. rewrite filter_app, (filter_none _ _ E).
      simpl. rewrite same_budget_key_refl by reflexivity.
      eexists. split; [reflexivity |]. split; reflexivity.
  - destruct (existsb (same_budget_key m c)
                (monthly_budgets (Worker.BUDGET_DB env))) eqn:E.
    + now destruct Hbs.
    + destruct Hbs as [-> ->]. rewrite map_app. simpl.
      unfold created_at_first at 2. simpl.
      rewrite same_budget_key_refl by reflexivity.
      f_equal.
      unfold created_at_first. now rewrite (map_unless _ _ _ E).
Qed.

Lemma saveBudgets_twice_witness :
  "2024-04" <> "" /\ 2%Z <> 0%Z
  /\ category_exists (Worker.BUDGET_DB Sample.env) 2 = true
  /\ schema_ok (Worker.BUDGET_DB Sample.env)
  /\ let twice :=
       Worker.BUDGET_DB
         (save_one "2024-04-02 09:00:00" "2024-04" 2 (num_of_Z 300)
            (save_one "2024-04-01 09:00:00" "2024-04" 2 (num_of_Z 250)
               Sample.env)) in
     exists row,
       budget_rows "2024-04" 2 twice = [row]
       /\ mb_budget_amount row = num_of_Z 300
       /\ mb_updated_at row = "2024-04-02 09:00:00".
Proof.
  assert (H1 : "2024-04" <> "") by discriminate.
  assert (H2 : 2%Z <> 0%Z) by discriminate.
  assert (H3 : category_exists (Worker.BUDGET_DB Sample.env) 2 = true)
    by reflexivity.
  assert (H4 : schema_ok (Worker.BUDGET_DB Sample.env))
    by exact sample_schema_ok.
  repeat (split; [assumption |]).
  exact (proj1 (proj2 (proj2
           (saveBudgets_twice "2024-04-01 09:00:00" "2024-04-02 09:00:00"
              "2024-04" 2 (num_of_Z 250) (num_of_Z 300) Sample.env
              H1 H2 H3 H4)))).
Defined.

(** ** Joins on a key *)

(** Under a key without duplicates, a condition that fixes the key matches
    at most one row. *)
Lemma unique_match {A K} (key : A -> K) (f : A -> bool) (k : K)
      (l : list A) :
  NoDup (map key l) ->
  (forall x, f x = true -> key x = k) ->
  filter f l = [] \/ exists x, In x l /\ f x = true /\ filter f l = [x].
Proof.
  intros Hnd Hf.
  induction l as [| a l IH]; simpl; [now left |].
  inversion Hnd as [| ? ? Hnotin Hnd']; subst.
  destruct (f a) eqn:Ea.
  - right. exists a. split; [now left |]. split; [exact Ea |].
    f_equal. apply filter_none.
    destruct (existsb f l) eqn:El; [| reflexivity].
    exfalso. apply Hnotin.
    apply existsb_exists in El. destruct El as [y [Hy Ey]].
    rewrite (Hf a Ea), <- (Hf y Ey). now apply in_map.
  - destruct (IH Hnd') as [H | [x [Hx [Efx H]]]]; [now left |].
    right. exists x. auto.
Qed.

(** Each row of the left table of a join on a unique key appears once. *)
Lemma left_join_unique {A B K} (key : B -> K) (on : A -> B -> bool)
      (k : A -> K) (l : list A) (r : list B) :
  NoDup (map key r) ->
  (forall a b, on a b = true -> key b = k a) ->
  left_join on l r
  = map (fun a => (a, match filter (on a) r with
                      | b :: _ => Some b
                      | [] => None
                      end)) l.
Proof.
  intros Hnd Hon. unfold left_join.
  induction l as [| a l IH]; [reflexivity |].
  cbn [flat_map]. rewrite IH, map_cons.
  destruct (unique_match key (on a) (k a) r Hnd (Hon a))
    as [-> | [x [_ [_ ->]]]]; reflexivity.
Qed.

Lemma on_category_key (t : transaction_row) (c : category_row) :
  (txn_category_id t =? cat_id c)%Z = true -> cat_id c = txn_category_id t.
Proof. intros H. apply Z.eqb_eq in H. congruence. Qed.

Section Listing.
Variable strftime_Ym : string -> option string.

Lemma transactions_with_category_rows (db : database) :
  schema_ok db ->
  map Worker.t_row (Worker.transactions_with_category db)
  = transactions db.
Proof.
  intros [Hcat _]. unfold Worker.transactions_with_category.
  rewrite (left_join_unique cat_id _ txn_category_id _ _ Hcat
             on_category_key).
  rewrite !map_map. simpl. apply map_id.
Qed.

Lemma date_desc_total (r1 r2 : Worker.transaction_view) :
  Worker.date_desc r1 r2 = true \/ Worker.date_desc r2 r1 = true.
Proof. unfold Worker.date_desc. apply String.leb_total. Qed.

Lemma date_desc_trans (r1 r2 r3 : Worker.transaction_view) :
  Worker.date_desc r1 r2 = true -> Worker.date_desc r2 r3 = true ->
  Worker.date_desc r1 r3 = true.
Proof.
  unfold Worker.date_desc. intros H1 H2.
  eapply string_leb_trans; eauto.
Qed.

Lemma order_by_date_desc (l : list Worker.transaction_view) :
  date_descending (order_by Worker.date_desc l).
Proof.
  apply (order_by_strongly_sorted Worker.date_desc date_desc_total
           date_desc_trans).
Qed.

Lemma firstn_strongly_sorted {A} (R : A -> A -> Prop) (n : nat)
      (l : list A) :
  StronglySorted R l -> StronglySorted R (firstn n l).
Proof.
  intros Hs. revert n.
  induction Hs as [| a l Hs IH Hall]; intros [| n]; simpl;
    try constructor.
  - apply IH.
  - rewrite Forall_forall in *. intros x Hx. apply Hall.
    rewrite <- (firstn_skipn n l). apply in_or_app. now left.
Qed.

Lemma map_filter_row (p : transaction_row -> bool)
      (l : list Worker.transaction_view) :
  map Worker.t_row (filter (fun r => p (Worker.t_row r)) l)
  = filter p (map Worker.t_row l).
Proof.
  induction l as [| r l IH]; simpl; [reflexivity |].
  destruct (p (Worker.t_row r)); simpl; now rewrite IH.
Qed.

Lemma select_recent_most_recent (db : database) :
  schema_ok db ->
  date_descending (Worker.select_recent_transactions db)
  /\ most_recent 100 db (Worker.select_recent_transactions db).
Proof.
  intros Hok. unfold Worker.select_recent_transactions.
  set (sorted := order_by Worker.date_desc
                   (Worker.transactions_with_category db)).
  assert (Hs : date_descending sorted) by apply order_by_date_desc.
  split; [now apply firstn_strongly_sorted |].
  split; [apply firstn_le_length |].
  exists (map Worker.t_row (skipn 100 sorted)).
  split; [| split].
  - rewrite <- map_app, firstn_skipn.
    rewrite <- (transactions_with_category_rows db Hok).
    apply Permutation_map. apply order_by_perm.
  - apply Forall_forall. intros older Ho.
    apply in_map_iff in Ho. destruct Ho as [r' [<- Hr']].
    apply Forall_forall. intros r Hr.
    exact (strongly_sorted_firstn_skipn _ 100 sorted Hs r r' Hr Hr').
  - intros Hlt. rewrite length_firstn in Hlt.
    rewrite skipn_all2; [reflexivity | lia].
Qed.

Lemma select_of_month_all (m : string) (db : database) :
  schema_ok db ->
  date_descending (Worker.select_transactions_of_month strftime_Ym m db)
  /\ Permutation
       (map Worker.t_row
            (Worker.select_transactions_of_month strftime_Ym m db))
       (of_month strftime_Ym m db).
Proof.
  intros Hok. unfold Worker.select_transactions_of_month.
  split; [apply order_by_date_desc |].
  unfold of_month. rewrite <- (transactions_with_category_rows db Hok).
  rewrite <- (map_filter_row
                (fun t => Worker.in_month strftime_Ym m (txn_date t))).
  apply Permutation_map. apply order_by_perm.
Qed.
End Listing.

(** C10. GET /api/transactions without a month parameter returns at most
    100 transactions, the most recent by date, in descending date order;
    with a month parameter it returns all the transactions of that month,
    without limit, in descending date order.  (An empty month parameter
    counts as none.) *)
Theorem getTransactions_listing (strftime_Ym : string -> option string)
        (month : option string) (env : Worker.Env) :
  schema_ok (Worker.BUDGET_DB env) ->
  exists results,
    fst (Worker.getTransactions strftime_Ym month env)
    = Worker.jsonResponse (Worker.TransactionList results) 200
    /\ date_descending results
    /\ match month with
       | Some m =>
           if m =? ""
           then most_recent 100 (Worker.BUDGET_DB env) results
           else Permutation (map Worker.t_row results)
                            (of_month strftime_Ym m (Worker.BUDGET_DB env))
       | None => most_recent 100 (Worker.BUDGET_DB env) results
       end.
Proof.
  intros Hok.
  destruct (select_recent_most_recent (Worker.BUDGET_DB env) Hok)
    as [Hs Hr].
  unfold Worker.getTransactions, Worker.try_catch, Worker.bind, Worker.all,
    Worker.ret.
  destruct month as [m |].
  - destruct (m =? "") eqn:Em; simpl.
    + eexists. split; [reflexivity |]. auto.
    + destruct (select_of_month_all strftime_Ym m (Worker.BUDGET_DB env) Hok)
        as [Hs' Hp].
      eexists. split; [reflexivity |]. auto.
  - simpl. eexists. split; [reflexivity |]. auto.
Qed.

Lemma getTransactions_listing_witness :
  schema_ok (Worker.BUDGET_DB Sample.env)
  /\ exists results,
      fst (Worker.getTransactions Sample.strftime_Ym (Some "2024-03")
             Sample.env)
      = Worker.jsonResponse (Worker.TransactionList results) 200
      /\ date_descending results
      /\ Permutation (map Worker.t_row results)
                     (of_month Sample.strftime_Ym "2024-03"
                               (Worker.BUDGET_DB Sample.env)).
Proof.
  split; [exact sample_schema_ok |].
  exact (getTransactions_listing Sample.strftime_Ym (Some "2024-03")
           Sample.env sample_schema_ok).
Defined.

(** ** [GROUP BY] over rows that arrive key by key *)

Section GroupBy.
Context {A K : Type} (eqb : K -> K -> bool) (key : A -> K).
Hypothesis eqb_eq : forall k k', eqb k k' = true <-> k = k'.

Let step (gs : list (K * list A)) (a : A) : list (K * list A) :=
  add_to_group eqb (key a) a gs.

Lemma add_to_group_new (k : K) (a : A) (gs : list (K * list A)) :
  ~ In k (map fst gs) -> add_to_group eqb k a gs = gs ++ [(k, [a])].
Proof.
  induction gs as [| [k' g] gs IH]; simpl; intros Hk; [reflexivity |].
  destruct (eqb k k') eqn:E.
  - apply eqb_eq in E. subst. exfalso. apply Hk. now left.
  - rewrite IH; [reflexivity |]. intros H. apply Hk. now right.
Qed.

Lemma add_to_group_last (k : K) (a : A) (g : list A)
      (gs : list (K * list A)) :
  ~ In k (map fst gs) ->
  add_to_group eqb k a (gs ++ [(k, g)]) = gs ++ [(k, g ++ [a])].
Proof.
  induction gs as [| [k' g'] gs IH]; simpl; intros Hk.
  - assert (E : eqb k k = true) by now apply eqb_eq.
    now rewrite E.
  - destruct (eqb k k') eqn:E.
    + apply eqb_eq in E. subst. exfalso. apply Hk. now left.
    + rewrite IH; [reflexivity |]. intros H. apply Hk. now right.
Qed.

Lemma fold_group_same (k : K) (xs : list A) :
  forall (g : list A) (gs : list (K * list A)),
    (forall x, In x xs -> key x = k) ->
    ~ In k (map fst gs) ->
    fold_left step xs (gs ++ [(k, g)]) = gs ++ [(k, g ++ xs)].
Proof.
  induction xs as [| x xs IH]; intros g gs Hxs Hk; simpl.
  - now rewrite app_nil_r.
  - change (step (gs ++ [(k, g)]) x)
      with (add_to_group eqb (key x) x (gs ++ [(k, g)])).
    rewrite (Hxs x) by now left.
    rewrite add_to_group_last by exact Hk.
    rewrite IH; auto.
    + now rewrite <- app_assoc.
    + intros y Hy. apply Hxs. now right.
Qed.

Lemma fold_group_flat_map {C} (f : C -> list A) (kc : C -> K)
      (l : list C) :
  (forall c, In c l -> f c <> [] /\ forall x, In x (f c) -> key x = kc c) ->
  NoDup (map kc l) ->
  forall gs,
    (forall c, In c l -> ~ In (kc c) (map fst gs)) ->
    fold_left step (flat_map f l) gs
    = gs ++ map (fun c => (kc c, f c)) l.
Proof.
  induction l as [| c l IH]; intros Hf Hnd gs Hgs; simpl.
  - now rewrite app_nil_r.
  - inversion Hnd as [| ? ? Hnotin Hnd']; subst.
    destruct (Hf c (or_introl eq_refl)) as [Hne Hkey].
    rewrite fold_left_app.
    destruct (f c) as [| x xs] eqn:Efc; [now contradiction Hne |].
    cbn [fold_left].
    change (step gs x) with (add_to_group eqb (key x) x gs).
    rewrite (Hkey x) by now left.
    rewrite add_to_group_new by (apply Hgs; now left).
    rewrite fold_group_same.
    + rewrite IH; auto.
      * now rewrite <- app_assoc.
      * intros c' Hc'. apply Hf. now right.
      * intros c' Hc'. rewrite map_app, in_app_iff. simpl.
        intros [H | [H | []]].
        -- apply (Hgs c'); [now right | exact H].
        -- apply Hnotin. rewrite H. now apply in_map.
    + intros y Hy. apply Hkey. now right.
    + apply Hgs. now left.
Qed.

Lemma group_by_flat_map {C} (f : C -> list A) (kc : C -> K) (l : list C) :
  (forall c, In c l -> f c <> [] /\ forall x, In x (f c) -> key x = kc c) ->
  NoDup (map kc l) ->
  group_by eqb key (flat_map f l) = map (fun c => (kc c, f c)) l.
Proof.
  intros Hf Hnd. unfold group_by.
  apply (fold_group_flat_map f kc l Hf Hnd []). auto.
Qed.
End GroupBy.

(** ** The category breakdown *)

Lemma filter_all {A} (p : A -> bool) (l : list A) :
  (forall x, In x l -> p x = true) -> filter p l = l.
Proof.
  induction l as [| a l IH]; simpl; intros H; [reflexivity |].
  rewrite (H a) by now left. f_equal. apply IH. intros x Hx. apply H.
  now right.
Qed.

Lemma filter_nothing {A} (p : A -> bool) (l : list A) :
  (forall x, In x l -> p x = false) -> filter p l = [].
Proof.
  induction l as [| a l IH]; simpl; intros H; [reflexivity |].
  rewrite (H a) by now left. apply IH. intros x Hx. apply H. now right.
Qed.

Lemma filter_flat_map {A B} (p : B -> bool) (q : A -> bool)
      (f : A -> list B) (l : list A) :
  (forall a x, In x (f a) -> p x = q a) ->
  filter p (flat_map f l) = flat_map f (filter q l).
Proof.
  intros H. induction l as [| a l IH]; simpl; [reflexivity |].
  rewrite filter_app, IH. destruct (q a) eqn:E; simpl.
  - f_equal. apply filter_all. intros x Hx. now rewrite (H a x Hx).
  - rewrite filter_nothing; [reflexivity |].
    intros x Hx. now rewrite (H a x Hx).
Qed.

Lemma map_flat_map {A B C} (g : B -> C) (f : A -> list B) (l : list A) :
  map g (flat_map f l) = flat_map (fun a => map g (f a)) l.
Proof.
  induction l as [| a l IH]; simpl; [reflexivity |].
  now rewrite map_app, IH.
Qed.

Lemma filter_filter {A} (f g : A -> bool) (l : list A) :
  filter f (filter g l) = filter (fun x => g x && f x) l.
Proof.
  induction l as [| a l IH]; simpl; [reflexivity |].
  destruct (g a); simpl; [destruct (f a) |]; now rewrite IH.
Qed.

Lemma hd_filter_find {A} (f : A -> bool) (l : list A) :
  match filter f l with b :: _ => Some b | [] => None end = find f l.
Proof.
  induction l as [| a l IH]; simpl; [reflexivity |].
  now destruct (f a).
Qed.

Lemma find_pointwise {A} (f g : A -> bool) (l : list A) :
  (forall x, f x = g x) -> find f l = find g l.
Proof.
  intros H. induction l as [| a l IH]; simpl; [reflexivity |].
  now rewrite H, IH.
Qed.

Lemma group_key_eqb_eq (k k' : Worker.group_key) :
  Worker.group_key_eqb k k' = true <-> k = k'.
Proof.
  destruct k as [[i n] b], k' as [[i' n'] b'].
  unfold Worker.group_key_eqb. simpl.
  rewrite !andb_true_iff, Z.eqb_eq, String.eqb_eq.
  split.
  - intros [[-> ->] H]. destruct b, b'; try discriminate; [| reflexivity].
    apply num_eqb_eq in H. now subst.
  - intros H. inversion H; subst. repeat split.
    destruct b'; [apply num_eqb_refl | reflexivity].
Qed.

Lemma NoDup_map_filter {A K} (key : A -> K) (p : A -> bool) (l : list A) :
  NoDup (map key l) -> NoDup (map key (filter p l)).
Proof.
  induction l as [| a l IH]; simpl; intros H; [constructor |].
  inversion H as [| ? ? Hnotin Hnd]; subst.
  destruct (p a); simpl; auto.
  constructor; auto.
  intros Hin. apply Hnotin. apply in_map_iff in Hin.
  destruct Hin as [x [Hx Hin]]. apply filter_In in Hin.
  rewrite <- Hx. apply in_map. tauto.
Qed.

Lemma NoDup_map_finer {A K K'} (f : A -> K) (g : A -> K') (l : list A) :
  (forall x y, g x = g y -> f x = f y) ->
  NoDup (map f l) -> NoDup (map g l).
Proof.
  intros Hfg. induction l as [| a l IH]; simpl; intros H; [constructor |].
  inversion H as [| ? ? Hnotin Hnd]; subst.
  constructor; auto.
  intros Hin. apply Hnotin. apply in_map_iff in Hin.
  destruct Hin as [x [Hx Hin]]. rewrite <- (Hfg _ _ Hx). now apply in_map.
Qed.

Section Breakdown.
Variable strftime_Ym : string -> option string.
Variables (m : string) (db : database).

Let on1 (c : category_row) (t : transaction_row) : bool :=
  (cat_id c =? txn_category_id t)%Z
  && Worker.in_month strftime_Ym m (txn_date t).

Let on2 (r : category_row * option transaction_row) (mb : budget_row)
  : bool :=
  (cat_id (fst r) =? mb_category_id mb)%Z && (mb_month mb =? m).

Let opts (c : category_row) : list (category_row * option transaction_row) :=
  match filter (on1 c) (transactions db) with
  | [] => [(c, None)]
  | bs => map (fun b => (c, Some b)) bs
  end.

Let bopt (c : category_row) : option budget_row :=
  find (same_budget_key m (cat_id c)) (monthly_budgets db).

Let rows (c : category_row) : list Worker.joined_row :=
  map (fun r => (r, bopt c)) (opts c).

Let kc (c : category_row) : Worker.group_key :=
  ((cat_id c, cat_name c), option_map mb_budget_amount (bopt c)).

Lemma opts_fst (c : category_row) r : In r (opts c) -> fst r = c.
Proof.
  unfold opts. destruct (filter (on1 c) (transactions db)) as [| t ts].
  - intros [<- | []]. reflexivity.
  - intros H. apply in_map_iff in H. destruct H as [x [<- _]]. reflexivity.
Qed.

Lemma opts_nonempty (c : category_row) : opts c <> [].
Proof.
  unfold opts. destruct (filter (on1 c) (transactions db)); discriminate.
Qed.

Lemma on2_key r mb : on2 r mb = true -> budget_key mb = (m, cat_id (fst r)).
Proof.
  unfold on2, budget_key. rewrite andb_true_iff, Z.eqb_eq, String.eqb_eq.
  now intros [-> ->].
Qed.

Lemma on2_same_budget_key r mb :
  on2 r mb = same_budget_key m (cat_id (fst r)) mb.
Proof.
  unfold on2, same_budget_key. now rewrite andb_comm, Z.eqb_sym.
Qed.

Lemma joined_active :
  schema_ok db ->
  filter (fun r : Worker.joined_row =>
            (cat_is_active (fst (fst r)) =? 1)%Z)
         (left_join on2 (left_join on1 (categories db) (transactions db))
                    (monthly_budgets db))
  = flat_map rows (filter active (categories db)).
Proof.
  intros [_ Huniq].
  rewrite (left_join_unique budget_key on2
             (fun r => (m, cat_id (fst r))) _ _ Huniq on2_key).
  change (left_join on1 (categories db) (transactions db))
    with (flat_map opts (categories db)).
  rewrite map_flat_map.
  rewrite (filter_flat_map _ active).
  - apply flat_map_ext. intros c. unfold rows.
    apply map_ext_in. intros r Hr. f_equal.
    rewrite hd_filter_find. unfold bopt.
    rewrite <- (opts_fst c r Hr).
    apply find_pointwise. intros mb. apply on2_same_budget_key.
  - intros c x Hx. apply in_map_iff in Hx. destruct Hx as [r [<- Hr]].
    simpl. now rewrite (opts_fst c r Hr).
Qed.

Lemma rows_key (c : category_row) :
  rows c <> [] /\ forall x, In x (rows c) -> Worker.key_of x = kc c.
Proof.
  split.
  - unfold rows. pose proof (opts_nonempty c).
    destruct (opts c); [contradiction | discriminate].
  - intros x Hx. unfold rows in Hx. apply in_map_iff in Hx.
    destruct Hx as [r [<- Hr]]. unfold Worker.key_of, kc. simpl.
    now rewrite (opts_fst c r Hr).
Qed.

Lemma of_category_month (c : category_row) :
  of_category (cat_id c) (of_month strftime_Ym m db)
  = filter (on1 c) (transactions db).
Proof.
  unfold of_category, of_month. rewrite filter_filter.
  apply filter_ext. intros t. unfold on1.
  now rewrite andb_comm, Z.eqb_sym.
Qed.

Lemma rows_actual (c : category_row) :
  COALESCE (SUM (map Worker.case_expense (rows c))) 0%Qc
  = sum_amounts
      (map txn_amount
           (of_type "expense"
              (of_category (cat_id c) (of_month strftime_Ym m db)))).
Proof.
  rewrite of_category_month, <- sum_case_type.
  unfold rows, opts.
  destruct (filter (on1 c) (transactions db)) as [| t ts] eqn:E.
  - reflexivity.
  - rewrite !map_map.
    change (fun x : transaction_row =>
              Worker.case_expense (c, Some x, bopt c))
      with (fun x : transaction_row =>
              Some (Worker.case_type "expense" x)).
    apply SUM_some.
Qed.

Lemma rows_budgeted (c : category_row) :
  COALESCE (option_map mb_budget_amount (bopt c)) 0%Qc
  = budget_of m (cat_id c) db.
Proof. unfold budget_of, bopt. now destruct (find _ _). Qed.

(** The query yields the entry of each active category, ordered. *)
Lemma select_breakdown_entries :
  schema_ok db ->
  Worker.select_breakdown strftime_Ym m db
  = order_by (fun r1 r2 => num_leb (Worker.actual r2) (Worker.actual r1))
      (map (breakdown_of strftime_Ym m db)
           (filter active (categories db))).
Proof.
  intros Hok. unfold Worker.select_breakdown. cbv zeta.
  fold on1. fold on2. rewrite (joined_active Hok).
  rewrite (group_by_flat_map Worker.group_key_eqb Worker.key_of
             group_key_eqb_eq rows kc).
  - rewrite map_map. f_equal. apply map_ext. intros c.
    unfold breakdown_of. simpl.
    now rewrite rows_actual, rows_budgeted.
  - intros c _. apply rows_key.
  - destruct Hok as [Hids _].
    apply (NoDup_map_finer cat_id kc).
    + intros x y H. unfold kc in H. congruence.
    + now apply NoDup_map_filter.
Qed.
End Breakdown.

Lemma getSummary_body (strftime_Ym : string -> option string) (m : string)
      (env : Worker.Env) :
  m <> "" ->
  exists s,
    fst (Worker.getSummary strftime_Ym (Some m) env)
    = Worker.jsonResponse (Worker.SummaryBody s) 200
    /\ Worker.category_breakdown s
       = Worker.select_breakdown strftime_Ym m (Worker.BUDGET_DB env).
Proof.
  intros Hm. apply String.eqb_neq in Hm.
  unfold Worker.getSummary, Worker.try_catch, Worker.bind, Worker.all,
    Worker.ret.
  rewrite Hm. cbn [fst snd Worker.BUDGET_DB].
  eexists. split; reflexivity.
Qed.

Lemma strongly_sorted_weaken {A} (R R' : A -> A -> Prop) (l : list A) :
  (forall x y, R x y -> R' x y) -> StronglySorted R l -> StronglySorted R' l.
Proof.
  intros HR. induction 1 as [| a l Hs IH Hall]; constructor; auto.
  eapply Forall_impl; [| exact Hall]. intros y. apply HR.
Qed.

Lemma actual_desc_total (r1 r2 : Worker.breakdown_row) :
  num_leb (Worker.actual r2) (Worker.actual r1) = true
  \/ num_leb (Worker.actual r1) (Worker.actual r2) = true.
Proof. apply num_leb_total. Qed.

Lemma actual_desc_trans (r1 r2 r3 : Worker.breakdown_row) :
  num_leb (Worker.actual r2) (Worker.actual r1) = true ->
  num_leb (Worker.actual r3) (Worker.actual r2) = true ->
  num_leb (Worker.actual r3) (Worker.actual r1) = true.
Proof. intros H1 H2. eapply num_leb_trans; eauto. Qed.

(** C1. For every month, the summary returned by GET /api/reports/summary
    contains one category_breakdown entry per active category, whose
    [actual] is the sum of the amounts of that category's expense
    transactions dated in that month (0 if there are none) and whose
    [budgeted] is that category's budget amount for that month (0 without a
    budget row); the entries are ordered by [actual] descending. *)
Theorem getSummary_breakdown (strftime_Ym : string -> option string)
        (env : Worker.Env) (m : string) :
  schema_ok (Worker.BUDGET_DB env) -> m <> "" ->
  exists s,
    fst (Worker.getSummary strftime_Ym (Some m) env)
    = Worker.jsonResponse (Worker.SummaryBody s) 200
    /\ Permutation
         (Worker.category_breakdown s)
         (map (breakdown_of strftime_Ym m (Worker.BUDGET_DB env))
              (filter active (categories (Worker.BUDGET_DB env))))
    /\ StronglySorted
         (fun r1 r2 => (Worker.actual r2 <= Worker.actual r1)%Qc)
         (Worker.category_breakdown s).
Proof.
  intros Hok Hm.
  destruct (getSummary_body strftime_Ym m env Hm) as [s [Hs Hb]].
  exists s. split; [exact Hs |].
  rewrite Hb, (select_breakdown_entries strftime_Ym m _ Hok).
  split; [apply order_by_perm |].
  eapply strongly_sorted_weaken;
    [| apply (order_by_strongly_sorted _ actual_desc_total
                actual_desc_trans)].
  intros r1 r2 H. now apply num_leb_le.
Qed.

Lemma getSummary_breakdown_witness :
  schema_ok (Worker.BUDGET_DB Sample.env) /\ "2024-03" <> ""
  /\ exists s,
      fst (Worker.getSummary Sample.strftime_Ym (Some "2024-03") Sample.env)
      = Worker.jsonResponse (Worker.SummaryBody s) 200
      /\ Permutation
           (Worker.category_breakdown s)
           (map (breakdown_of Sample.strftime_Ym "2024-03"
                              (Worker.BUDGET_DB Sample.env))
                (filter active (categories (Worker.BUDGET_DB Sample.env))))
      /\ StronglySorted
           (fun r1 r2 => (Worker.actual r2 <= Worker.actual r1)%Qc)
           (Worker.category_breakdown s).
Proof.
  split; [exact sample_schema_ok |].
  split; [discriminate |].
  apply (getSummary_breakdown Sample.strftime_Ym Sample.env "2024-03").
  - exact sample_schema_ok.
  - discriminate.
Defined.

(** C3, as the specification states it, fails for a deactivated category:
    'Travel' is deactivated and has an expense in March 2024, and the raw
    breakdown of that month has no row for it. *)
Lemma breakdown_covers_activity_fails :
  ~ breakdown_covers_activity Sample.strftime_Ym "2024-03" Sample.env.
Proof.
  intros [s [Hs H]].
  specialize (H (Sample.category 3 "Travel" 0)).
  assert (Hin : In (cat_id (Sample.category 3 "Travel" 0))
                   (map Worker.id (Worker.category_breakdown s))).
  { apply H.
    - simpl. auto.
    - left. exists (Sample.txn 4 "2024-03-10" "Flight" 400 "expense" 3).
      split; [| reflexivity].
      vm_compute. do 3 right. left. reflexivity. }
  clear H.
  assert (Hb : map Worker.id (Worker.category_breakdown s) = [1%Z; 2%Z]).
  { transitivity
      (match Worker.body (Worker.jsonResponse (Worker.SummaryBody s) 200)
       with
       | Worker.SummaryBody s' =>
           map Worker.id (Worker.category_breakdown s')
       | _ => []
       end); [reflexivity |].
    rewrite <- Hs. vm_compute. reflexivity. }
  rewrite Hb in Hin. simpl in Hin. intuition discriminate.
Qed.

Lemma NoDup_map_injective {A K} (key : A -> K) (l : list A) (x y : A) :
  NoDup (map key l) -> In x l -> In y l -> key x = key y -> x = y.
Proof.
  induction l as [| a l IH]; simpl; intros Hnd Hx Hy Hk; [contradiction |].
  inversion Hnd as [| ? ? Hnotin Hnd']; subst.
  destruct Hx as [-> | Hx], Hy as [-> | Hy]; auto.
  - exfalso. apply Hnotin. rewrite Hk. now apply in_map.
  - exfalso. apply Hnotin. rewrite <- Hk. now apply in_map.
Qed.

(** C3, amended.  For every month, the categories that appear in the raw
    category_breakdown of GET /api/reports/summary are exactly the active
    categories: every active category has its row, so in particular those
    with a transaction or a budget row in that month, and a deactivated
    category has none.  An active category with zero actual and zero budget
    is present in the raw result and excluded from the rows the dashboard
    displays. *)
Theorem getSummary_breakdown_active (strftime_Ym : string -> option string)
        (env : Worker.Env) (m : string) :
  schema_ok (Worker.BUDGET_DB env) -> m <> "" ->
  let db := Worker.BUDGET_DB env in
  exists s,
    fst (Worker.getSummary strftime_Ym (Some m) env)
    = Worker.jsonResponse (Worker.SummaryBody s) 200
    /\ forall c,
        In c (categories db) ->
        (In (cat_id c) (map Worker.id (Worker.category_breakdown s))
         <-> cat_is_active c = 1%Z)
        /\ (cat_is_active c = 1%Z ->
            has_activity strftime_Ym m db (cat_id c) ->
            In (cat_id c) (map Worker.id (Worker.category_breakdown s)))
        /\ (cat_is_active c = 1%Z ->
            In (breakdown_of strftime_Ym m db c) (Worker.category_breakdown s)
            /\ (Worker.actual (breakdown_of strftime_Ym m db c) = 0%Qc ->
                Worker.budgeted (breakdown_of strftime_Ym m db c) = 0%Qc ->
                ~ In (breakdown_of strftime_Ym m db c)
                     (Frontend.displayed (Worker.category_breakdown s)))).
Proof.
  intros Hok Hm. cbv zeta.
  destruct (getSummary_body strftime_Ym m env Hm) as [s [Hs Hb]].
  exists s. split; [exact Hs |].
  rewrite Hb, (select_breakdown_entries strftime_Ym m _ Hok).
  set (rows := map (breakdown_of strftime_Ym m (Worker.BUDGET_DB env))
                   (filter active (categories (Worker.BUDGET_DB env)))).
  set (sorted := order_by _ rows).
  assert (Hperm : Permutation sorted rows) by apply order_by_perm.
  assert (Hrow : forall c,
             In c (categories (Worker.BUDGET_DB env)) ->
             cat_is_active c = 1%Z ->
             In (breakdown_of strftime_Ym m (Worker.BUDGET_DB env) c) sorted).
  { intros c Hc Hact.
    eapply Permutation_in; [symmetry; exact Hperm |].
    unfold rows. apply in_map. apply filter_In. split; [exact Hc |].
    unfold active. now apply Z.eqb_eq. }
  assert (Hentry : forall c,
             In c (categories (Worker.BUDGET_DB env)) ->
             cat_is_active c = 1%Z ->
             In (cat_id c) (map Worker.id sorted)).
  { intros c Hc Hact.
    change (cat_id c)
      with (Worker.id (breakdown_of strftime_Ym m (Worker.BUDGET_DB env) c)).
    apply in_map. now apply Hrow. }
  intros c Hc. split; [split | split].
  - intros Hin.
    eapply Permutation_in in Hin; [| apply Permutation_map; exact Hperm].
    unfold rows in Hin. rewrite map_map in Hin. simpl in Hin.
    apply in_map_iff in Hin. destruct Hin as [c' [Hid Hc']].
    apply filter_In in Hc'. destruct Hc' as [Hc' Hact].
    destruct Hok as [Hids _].
    rewrite <- (NoDup_map_injective cat_id _ c' c Hids Hc' Hc Hid).
    now apply Z.eqb_eq.
  - now apply Hentry.
  - intros Hact _. now apply Hentry.
  - intros Hact. split; [now apply Hrow |].
    intros Ha Hbu Hin. unfold Frontend.displayed in Hin.
    apply filter_In in Hin. destruct Hin as [_ Hin].
    rewrite Ha, Hbu in Hin. vm_compute in Hin. discriminate.
Qed.

Lemma getSummary_breakdown_active_witness :
  schema_ok (Worker.BUDGET_DB Sample.env) /\ "2024-02" <> ""
  /\ exists s,
      fst (Worker.getSummary Sample.strftime_Ym (Some "2024-02") Sample.env)
      = Worker.jsonResponse (Worker.SummaryBody s) 200
      /\ In (cat_id (Sample.category 1 "Housing" 1))
            (map Worker.id (Worker.category_breakdown s))
      /\ ~ In (cat_id (Sample.category 3 "Travel" 0))
              (map Worker.id (Worker.category_breakdown s))
      /\ ~ In (breakdown_of Sample.strftime_Ym "2024-02" Sample.db
                 (Sample.category 1 "Housing" 1))
              (Frontend.displayed (Worker.category_breakdown s)).
Proof.
  split; [exact sample_schema_ok |].
  split; [discriminate |].
  destruct (getSummary_breakdown_active Sample.strftime_Ym Sample.env
              "2024-02" sample_schema_ok) as [s [Hs H]];
    [discriminate |].
  exists s. split; [exact Hs |].
  split; [| split].
  - apply (proj1 (H (Sample.category 1 "Housing" 1) (or_introl eq_refl))).
    reflexivity.
  - intros Hin.
    apply (proj1 (H (Sample.category 3 "Travel" 0)
                    (or_intror (or_intror (or_introl eq_refl))))) in Hin.
    discriminate.
  - pose proof (H (Sample.category 1 "Housing" 1) (or_introl eq_refl))
      as [_ [_ H1]].
    destruct (H1 eq_refl) as [_ H2].
    apply H2; apply Qc_is_canon; reflexivity.
Defined.

(** ** The CSV import mapping *)

Section CSVMapping.
Variable toISODate : string -> option string.
Variables dateColumn descColumn amountColumn defaultType : string.
Variable defaultCategory : Z.

Let map_row :=
  Frontend.map_row toISODate dateColumn descColumn amountColumn
                   defaultType defaultCategory.
Let map_rows :=
  Frontend.map_rows toISODate dateColumn descColumn amountColumn
                    defaultType defaultCategory.
Let handleCSVImport :=
  Frontend.handleCSVImport toISODate dateColumn descColumn amountColumn
                           defaultType defaultCategory.
Let mapped :=
  mapped_from dateColumn descColumn amountColumn defaultType
              defaultCategory.

Lemma map_row_mapped (row : Frontend.object) (txn : Frontend.Transaction) :
  map_row row = inr txn -> mapped row txn.
Proof.
  unfold map_row, Frontend.map_row, mapped, mapped_from.
  destruct (Frontend.get row amountColumn) as [raw |]; [| discriminate].
  intros H. injection H as <-. exists raw. simpl.
  repeat split.
  destruct (Frontend.truthy (Frontend.get row dateColumn)) eqn:E; auto.
  now rewrite E.
Qed.

Lemma map_rows_mapped (rows : list Frontend.object) :
  forall txns, map_rows rows = inr txns -> Forall2 mapped rows txns.
Proof.
  induction rows as [| row rows IH]; simpl; intros txns H.
  - injection H as <-. constructor.
  - fold map_row in H. destruct (map_row row) as [e | t] eqn:Et;
      [discriminate |].
    fold map_rows in H. destruct (map_rows rows) as [e | ts];
      [discriminate |].
    injection H as <-. constructor; auto using map_row_mapped.
Qed.

Lemma map_rows_defined (rows : list Frontend.object) :
  Forall (fun row => Frontend.get row amountColumn <> None) rows ->
  exists txns, map_rows rows = inr txns.
Proof.
  induction 1 as [| row rows Hrow _ [txns IH]]; simpl.
  - now exists [].
  - fold map_rows. rewrite IH. unfold Frontend.map_row.
    destruct (Frontend.get row amountColumn); [| contradiction].
    eauto.
Qed.

(** A row without a cell in the amount column makes the whole mapping
    throw. *)
Lemma map_rows_throws (rows : list Frontend.object) :
  Exists (fun row => Frontend.get row amountColumn = None) rows ->
  handleCSVImport rows
  = inl "Cannot read properties of undefined (reading 'replace')".
Proof.
  unfold handleCSVImport, Frontend.handleCSVImport. fold map_rows.
  induction 1 as [row rows Hrow | row rows _ IH]; simpl.
  - unfold Frontend.map_row. now rewrite Hrow.
  - fold map_rows. unfold Frontend.map_row.
    destruct (Frontend.get row amountColumn); [| reflexivity].
    destruct (map_rows rows); [| discriminate].
    injection IH as ->. reflexivity.
Qed.

(** When every row has a cell in the amount column, the transactions
    submitted are those of the rows with a date, a description and an
    amount that reads as a number; each carries the absolute value of that
    number and the default type, and the count is their number. *)
Lemma handleCSVImport_mapping (rows : list Frontend.object) :
  Forall (fun row => Frontend.get row amountColumn <> None) rows ->
  exists txns,
    handleCSVImport rows = inr (txns, List.length txns)
    /\ Forall
         (fun txn =>
            Frontend.isNaN (Frontend.amount txn) = false
            /\ exists row,
                In row rows /\ mapped row txn
                /\ Frontend.truthy (Frontend.get row dateColumn) = true
                /\ Frontend.truthy (Frontend.get row descColumn) = true)
         txns.
Proof.
  intros Hrows.
  destruct (map_rows_defined rows Hrows) as [mapped_rows Hm].
  unfold handleCSVImport, Frontend.handleCSVImport. fold map_rows.
  rewrite Hm. eexists. split; [reflexivity |].
  apply Forall_forall. intros txn Htxn.
  apply filter_In in Htxn. destruct Htxn as [Hin Hkeep].
  unfold Frontend.keep in Hkeep.
  rewrite !andb_true_iff, negb_true_iff in Hkeep.
  destruct Hkeep as [[Hd Hds] Hnan].
  split; [exact Hnan |].
  pose proof (map_rows_mapped rows _ Hm) as Hall.
  clear Hm Hrows. revert Hin.
  induction Hall as [| row t rows ts Hrt _ IH]; simpl; [contradiction |].
  intros [-> | Hin].
  - exists row. split; [now left |]. split; [exact Hrt |].
    destruct Hrt as [raw [_ [_ [_ [_ [_ [Hdesc Hdate]]]]]]].
    split; [now apply Hdate | now rewrite <- Hdesc].
  - destruct (IH Hin) as [row' [Hin' H']]. exists row'.
    split; [now right | exact H'].
Qed.
End CSVMapping.

(** The amount ["$1,200.50"] of a row object is submitted as 1200.50. *)
Example handleCSVImport_thousands :
  exists txn,
    Frontend.handleCSVImport Sample.toISODate "Date" "Description" "Amount"
      "expense" 1 [Sample.row_thousands]
    = inr ([txn], 1%nat)
    /\ exists q, Frontend.amount txn = Frontend.Finite q
                 /\ this q = (2401 # 2)%Q.
Proof.
  eexists. split; [reflexivity |]. eexists. split; reflexivity.
Qed.

(** Of five full lines, the two with a date, a description and a number
    are submitted, the negative amount as its absolute value. *)
Example handleCSVImport_full_lines :
  match Frontend.handleCSVImport Sample.toISODate "Date" "Description"
          "Amount" "expense" 1 (Frontend.parseCSV Sample.csv_full_lines) with
  | inr (txns, count) =>
      count = 2%nat
      /\ map (fun t => (Frontend.description t,
                        match Frontend.amount t with
                        | Frontend.Finite q => Some (this q)
                        | _ => None
                        end)) txns
         = [(Some "Rent", Some (2401 # 2)%Q); (Some "Refund", Some (29 # 4)%Q)]
  | inl _ => False
  end.
Proof. vm_compute. split; reflexivity. Qed.

(** C9 (the code on a CSV file with a short line).  The file has a line
    that stops after the date, between two full lines.  Its row has no
    description, so the specification has it dropped and the two others
    submitted; the mapping throws instead, and nothing is submitted. *)
Theorem handleCSVImport_short_line_throws :
  let rows := Frontend.parseCSV Sample.csv_short_line in
  List.length rows = 3%nat
  /\ map (fun row => Frontend.truthy (Frontend.get row "Description")) rows
     = [true; false; true]
  /\ Frontend.handleCSVImport Sample.toISODate "Date" "Description" "Amount"
       "expense" 1 rows
     = inl "Cannot read properties of undefined (reading 'replace')".
Proof. cbv zeta. repeat split; reflexivity. Qed.

(** * Further properties of the worker *)

(** ** Fresh ids *)

Lemma next_id_above (ids : list Z) (i : Z) : In i ids -> (i < next_id ids)%Z.
Proof.
  unfold next_id. induction ids as [| a ids IH]; simpl; [contradiction |].
  intros [-> | H]; [lia |]. specialize (IH H). lia.
Qed.

Lemma next_id_fresh (ids : list Z) : ~ In (next_id ids) ids.
Proof. intros H. apply next_id_above in H. lia. Qed.

(** ** Creating and renaming categories *)

Lemma insert_category_fresh (now : timestamp) (n : string) (db : database) :
  existsb (fun c => cat_name c =? n) (categories db) = false ->
  insert_category now (Some n) db
  = inr (next_id (map cat_id (categories db)),
         {| categories :=
              categories db ++
              [{| cat_id := next_id (map cat_id (categories db));
                  cat_name := n; cat_is_active := 1;
                  cat_created_at := now |}];
            transactions := transactions db;
            monthly_budgets := monthly_budgets db |}).
Proof. unfold insert_category. now intros ->. Qed.

(** X1. POST /api/categories with a non-empty name that no category row
    has answers 201 with a fresh id, adds one active row with that name at
    the end of the table and changes nothing else; the listing of
    GET /api/categories then contains the new row. *)
Theorem createCategory_listed (now : timestamp) (n : string)
        (env : Worker.Env) :
  n <> "" ->
  existsb (fun c => cat_name c =? n)
          (categories (Worker.BUDGET_DB env)) = false ->
  let r := Api.createCategory now (Value n) env in
  let db := Worker.BUDGET_DB env in
  let db' := Worker.BUDGET_DB (snd r) in
  exists id,
    fst r = Api.jsonResponse (Api.CategoryBody id n (Some 1%Z)) 201
    /\ ~ In id (map cat_id (categories db))
    /\ categories db'
       = categories db ++
         [{| cat_id := id; cat_name := n; cat_is_active := 1;
             cat_created_at := now |}]
    /\ transactions db' = transactions db
    /\ monthly_budgets db' = monthly_budgets db
    /\ exists results,
        fst (Worker.getCategories (snd r))
        = Worker.jsonResponse (Worker.CategoryList results) 200
        /\ In {| cat_id := id; cat_name := n; cat_is_active := 1;
                 cat_created_at := now |} results.
Proof.
  intros Hn Hfree. cbv zeta. apply String.eqb_neq in Hn.
  unfold Api.createCategory, Api.try_catch, Worker.bind, Worker.run,
    Worker.ret.
  rewrite Hn. cbn [bound]. rewrite (insert_category_fresh _ _ _ Hfree).
  cbn [fst snd Worker.BUDGET_DB categories transactions monthly_budgets].
  eexists. split; [reflexivity |].
  split; [apply next_id_fresh |].
  repeat (split; [reflexivity |]).
  unfold Worker.getCategories, Worker.try_catch, Worker.bind, Worker.all,
    Worker.ret.
  cbn [fst snd Worker.BUDGET_DB].
  eexists. split; [reflexivity |].
  apply select_active_categories_In. cbn [categories].
  split; [| reflexivity].
  apply in_or_app. right. now left.
Qed.

Lemma createCategory_listed_witness :
  "Pets" <> ""
  /\ existsb (fun c => cat_name c =? "Pets")
             (categories (Worker.BUDGET_DB Sample.env)) = false
  /\ exists id,
      fst (Api.createCategory Sample.now (Value "Pets") Sample.env)
      = Api.jsonResponse (Api.CategoryBody id "Pets" (Some 1%Z)) 201
      /\ ~ In id (map cat_id (categories (Worker.BUDGET_DB Sample.env))).
Proof.
  split; [discriminate |]. split; [reflexivity |].
  destruct (createCategory_listed Sample.now "Pets" Sample.env)
    as [id [H1 [H2 _]]]; [discriminate | reflexivity |].
  exists id. split; assumption.
Defined.

Lemma deactivate_names (id : Z) (l : list category_row) (n : string) :
  existsb (fun c => cat_name c =? n)
    (map (fun c =>
            if (cat_id c =? id)%Z
            then {| cat_id := cat_id c; cat_name := cat_name c;
                    cat_is_active := 0;
                    cat_created_at := cat_created_at c |}
            else c) l)
  = existsb (fun c => cat_name c =? n) l.
Proof.
  induction l as [| c l IH]; simpl; [reflexivity |].
  rewrite IH. now destruct (cat_id c =? id)%Z.
Qed.

Lemma createCategory_taken (now : timestamp) (n : string)
      (env : Worker.Env) :
  n <> "" ->
  existsb (fun c => cat_name c =? n)
          (categories (Worker.BUDGET_DB env)) = true ->
  Api.createCategory now (Value n) env
  = (Api.errorResponse "UNIQUE constraint failed: categories.name" 500,
     {| Worker.BUDGET_DB := Worker.BUDGET_DB env;
        Worker.statements := S (Worker.statements env) |}).
Proof.
  intros Hn Hex. apply String.eqb_neq in Hn.
  unfold Api.createCategory, Api.try_catch, Worker.bind, Worker.run,
    Worker.ret.
  rewrite Hn. cbn [bound]. unfold insert_category. now rewrite Hex.
Qed.

(** X2. The name of a deactivated category stays taken: after
    DELETE /api/categories/:id, POST /api/categories with the name of that
    category answers 500 with the message of the store, which rejects the
    row for its UNIQUE name, and the database is unchanged by it. *)
Theorem createCategory_deleted_name (now : timestamp) (c : category_row)
        (env : Worker.Env) :
  In c (categories (Worker.BUDGET_DB env)) ->
  cat_name c <> "" ->
  let env1 := snd (Worker.deleteCategory (cat_id c) env) in
  let r := Api.createCategory now (Value (cat_name c)) env1 in
  (exists message, fst r = Api.errorResponse message 500)
  /\ Worker.BUDGET_DB (snd r) = Worker.BUDGET_DB env1.
Proof.
  intros Hc Hn. cbv zeta.
  rewrite createCategory_taken;
    [split; [eexists |]; reflexivity | exact Hn |].
  unfold Worker.deleteCategory, Worker.try_catch, Worker.bind, Worker.run,
    Worker.ret, deactivate_category.
  cbn [fst snd Worker.BUDGET_DB categories].
  rewrite deactivate_names. apply existsb_exists.
  exists c. split; [exact Hc | apply String.eqb_refl].
Qed.

Lemma createCategory_deleted_name_witness :
  let c := Sample.category 3 "Travel" 0 in
  In c (categories (Worker.BUDGET_DB Sample.env))
  /\ cat_name c <> ""
  /\ exists message,
      fst (Api.createCategory Sample.now (Value (cat_name c))
             (snd (Worker.deleteCategory (cat_id c) Sample.env)))
      = Api.errorResponse message 500.
Proof.
  cbv zeta. split; [simpl; auto |]. split; [discriminate |].
  apply (createCategory_deleted_name Sample.now
           (Sample.category 3 "Travel" 0) Sample.env).
  - simpl. auto.
  - discriminate.
Defined.

Lemma rename_rows (id : Z) (n : string) (l : list category_row) :
  Forall2
    (fun c c' =>
       cat_id c' = cat_id c /\ cat_is_active c' = cat_is_active c
       /\ cat_created_at c' = cat_created_at c
       /\ cat_name c' = if (cat_id c =? id)%Z then n else cat_name c)
    l
    (map (fun c =>
            if (cat_id c =? id)%Z
            then {| cat_id := cat_id c; cat_name := n;
                    cat_is_active := cat_is_active c;
                    cat_created_at := cat_created_at c |}
            else c) l).
Proof.
  induction l as [| c l IH]; simpl; constructor; auto.
  destruct (cat_id c =? id)%Z eqn:E; simpl; rewrite ?E; auto.
Qed.

Lemma same_rows (id : Z) (n : string) (l : list category_row) :
  existsb (fun c => (cat_id c =? id)%Z) l = false ->
  Forall2
    (fun c c' =>
       cat_id c' = cat_id c /\ cat_is_active c' = cat_is_active c
       /\ cat_created_at c' = cat_created_at c
       /\ cat_name c' = if (cat_id c =? id)%Z then n else cat_name c)
    l l.
Proof.
  induction l as [| c l IH]; simpl; intros H; constructor.
  - apply orb_false_iff in H. destruct H as [-> _]. auto.
  - apply IH. apply orb_false_iff in H. tauto.
Qed.

(** X3. PUT /api/categories/:id with a non-empty name changes at most the
    name of the rows with that id: ids, [is_active] and [created_at] of
    every category, the transactions and the budgets are unchanged (a
    deactivated category is renamed and stays deactivated).  The answer is
    200 also when no category has the id; it is 500, with the database
    unchanged, exactly when the id exists and another category has the
    name (the store rejects the row for its UNIQUE name). *)
Theorem updateCategory_frame (id : Z) (n : string) (env : Worker.Env) :
  n <> "" ->
  let r := Api.updateCategory id (Value n) env in
  let db := Worker.BUDGET_DB env in
  let db' := Worker.BUDGET_DB (snd r) in
  transactions db' = transactions db
  /\ monthly_budgets db' = monthly_budgets db
  /\ if existsb (fun c => (cat_id c =? id)%Z) (categories db)
        && existsb (fun c => (cat_name c =? n) && negb (cat_id c =? id)%Z)
                   (categories db)
     then (exists message, fst r = Api.errorResponse message 500)
          /\ db' = db
     else fst r = Api.jsonResponse (Api.CategoryBody id n None) 200
          /\ Forall2
               (fun c c' =>
                  cat_id c' = cat_id c /\ cat_is_active c' = cat_is_active c
                  /\ cat_created_at c' = cat_created_at c
                  /\ cat_name c'
                     = if (cat_id c =? id)%Z then n else cat_name c)
               (categories db) (categories db').
Proof.
  intros Hn. cbv zeta. apply String.eqb_neq in Hn.
  unfold Api.updateCategory, Api.try_catch, Worker.bind, Worker.run,
    Worker.ret.
  rewrite Hn. cbn [bound]. unfold update_category_name.
  destruct (existsb (fun c => (cat_id c =? id)%Z)
              (categories (Worker.BUDGET_DB env))) eqn:Eid;
    destruct (existsb (fun c => (cat_name c =? n) && negb (cat_id c =? id)%Z)
                (categories (Worker.BUDGET_DB env))) eqn:Ename;
    simpl; repeat split;
    solve [eexists; reflexivity | apply rename_rows | now apply same_rows].
Qed.

Lemma updateCategory_frame_witness :
  "Home" <> ""
  /\ fst (Api.updateCategory 1 (Value "Home") Sample.env)
     = Api.jsonResponse (Api.CategoryBody 1 "Home" None) 200
  /\ (exists message,
        fst (Api.updateCategory 1 (Value "Travel") Sample.env)
        = Api.errorResponse message 500)
  /\ fst (Api.updateCategory 9 (Value "Travel") Sample.env)
     = Api.jsonResponse (Api.CategoryBody 9 "Travel" None) 200.
Proof.
  split; [discriminate |].
  split; [| split].
  - apply (updateCategory_frame 1 "Home" Sample.env). discriminate.
  - apply (updateCategory_frame 1 "Travel" Sample.env). discriminate.
  - apply (updateCategory_frame 9 "Travel" Sample.env). discriminate.
Defined.

(** ** Deleting a transaction *)

Lemma filter_other_ids (id : Z) (l : list transaction_row) :
  ~ In id (map txn_id l) ->
  filter (fun t => negb (txn_id t =? id)%Z) l = l.
Proof.
  intros H. apply filter_all. intros t Ht. apply negb_true_iff.
  apply Z.eqb_neq. intros E. apply H. rewrite <- E. now apply in_map.
Qed.

Lemma createTransaction_created (now : timestamp)
      (b : Worker.transaction_body) (env : Worker.Env) (id : Z)
      (b' : Worker.transaction_body) :
  fst (Worker.createTransaction now b env)
  = Worker.jsonResponse (Worker.TransactionBody id b') 201 ->
  exists row,
    Worker.BUDGET_DB (snd (Worker.createTransaction now b env))
    = {| categories := categories (Worker.BUDGET_DB env);
         transactions := transactions (Worker.BUDGET_DB env) ++ [row];
         monthly_budgets := monthly_budgets (Worker.BUDGET_DB env) |}
    /\ txn_id row = id
    /\ ~ In id (map txn_id (transactions (Worker.BUDGET_DB env)))
    /\ Worker.date b = Value (txn_date row)
    /\ Worker.description b = Value (txn_description row)
    /\ Worker.amount b = Value (txn_amount row)
    /\ Worker.type b = Value (txn_type row)
    /\ Worker.category_id b = Value (txn_category_id row)
    /\ txn_source row = bound (with_default "manual" (Worker.source b))
    /\ txn_created_at row = now.
Proof.
  unfold Worker.createTransaction, Worker.try_catch.
  destruct (Worker.missing_required_fields b); [discriminate |].
  destruct (negb (type_check _)); [discriminate |].
  unfold Worker.bind, Worker.run, Worker.ret, insert_transaction.
  destruct (bound (Worker.date b)) as [d |] eqn:Ed; [| discriminate].
  destruct (bound (Worker.description b)) as [ds |] eqn:Eds;
    [| discriminate].
  destruct (bound (Worker.amount b)) as [a |] eqn:Ea; [| discriminate].
  destruct (bound (Worker.type b)) as [ty |] eqn:Ety; [| discriminate].
  destruct (bound (Worker.category_id b)) as [c |] eqn:Ec; [| discriminate].
  destruct (negb (type_check ty)); [discriminate |].
  destruct (negb (source_check _)); [discriminate |].
  destruct (negb (category_exists _ c)); [discriminate |].
  cbn [fst snd Worker.BUDGET_DB]. intros H. injection H as Hid _.
  eexists. split; [reflexivity |]. cbn.
  split; [exact Hid |]. rewrite <- Hid.
  split; [apply next_id_fresh |].
  repeat split; auto using bound_Some.
Qed.

(** X4. Creating a transaction and then deleting the id that the creation
    returned restores the database: DELETE /api/transactions/:id removes
    the new row and no other. *)
Theorem deleteTransaction_created (now : timestamp)
        (b : Worker.transaction_body) (env : Worker.Env) (id : Z)
        (b' : Worker.transaction_body) :
  fst (Worker.createTransaction now b env)
  = Worker.jsonResponse (Worker.TransactionBody id b') 201 ->
  let r := Api.deleteTransaction id
             (snd (Worker.createTransaction now b env)) in
  fst r = Worker.jsonResponse
            (Worker.MessageBody "Transaction deleted successfully") 200
  /\ Worker.BUDGET_DB (snd r) = Worker.BUDGET_DB env.
Proof.
  intros H. cbv zeta.
  destruct (createTransaction_created now b env id b' H)
    as [row [Hdb [Hid [Hfresh _]]]].
  unfold Api.deleteTransaction, Worker.try_catch, Worker.bind, Worker.run,
    Worker.ret, delete_transaction.
  cbn [fst snd Worker.BUDGET_DB]. split; [reflexivity |].
  rewrite Hdb. cbn [categories transactions monthly_budgets].
  rewrite filter_app, (filter_other_ids _ _ Hfresh). simpl.
  rewrite Hid, Z.eqb_refl. simpl. rewrite app_nil_r.
  now destruct (Worker.BUDGET_DB env).
Qed.

Lemma deleteTransaction_created_witness :
  let b := Sample.body "2024-03-12" "Tea" (Value (num_of_Z 4)) "expense" 2 in
  fst (Worker.createTransaction Sample.now b Sample.env)
  = Worker.jsonResponse
      (Worker.TransactionBody 6
         (Worker.with_source (Value "manual") b)) 201
  /\ Worker.BUDGET_DB
       (snd (Api.deleteTransaction 6
               (snd (Worker.createTransaction Sample.now b Sample.env))))
     = Worker.BUDGET_DB Sample.env.
Proof.
  cbv zeta.
  assert (H : fst (Worker.createTransaction Sample.now
                     (Sample.body "2024-03-12" "Tea" (Value (num_of_Z 4))
                        "expense" 2) Sample.env)
              = Worker.jsonResponse
                  (Worker.TransactionBody 6
                     (Worker.with_source (Value "manual")
                        (Sample.body "2024-03-12" "Tea" (Value (num_of_Z 4))
                           "expense" 2))) 201) by reflexivity.
  split; [exact H |].
  exact (proj2 (deleteTransaction_created _ _ _ _ _ H)).
Defined.

(** ** Listing after creating and deleting *)

Lemma left_join_covers {A B} (on : A -> B -> bool) (l : list A)
      (r : list B) (a : A) :
  In a l -> exists b, In (a, b) (left_join on l r).
Proof.
  intros Ha. unfold left_join.
  destruct (filter (on a) r) as [| b bs] eqn:E.
  - exists None. apply in_flat_map. exists a. split; [exact Ha |].
    rewrite E. now left.
  - exists (Some b). apply in_flat_map. exists a. split; [exact Ha |].
    rewrite E. now left.
Qed.

Lemma left_join_left {A B} (on : A -> B -> bool) (l : list A)
      (r : list B) (a : A) (b : option B) :
  In (a, b) (left_join on l r) -> In a l.
Proof.
  unfold left_join. intros H. apply in_flat_map in H.
  destruct H as [a' [Ha' H]].
  destruct (filter (on a') r) as [| b' bs].
  - destruct H as [H | []]. now inversion H; subst.
  - apply in_map_iff in H. destruct H as [x [H _]]. now inversion H; subst.
Qed.

Section ListedAfter.
Variable strftime_Ym : string -> option string.

Lemma select_of_month_In (m : string) (db : database)
      (v : Worker.transaction_view) :
  In v (Worker.select_transactions_of_month strftime_Ym m db)
  <-> In v (Worker.transactions_with_category db)
      /\ Worker.in_month strftime_Ym m (txn_date (Worker.t_row v)) = true.
Proof.
  unfold Worker.select_transactions_of_month. split.
  - intros H. eapply Permutation_in in H; [| apply order_by_perm].
    now apply filter_In in H.
  - intros H. eapply Permutation_in; [symmetry; apply order_by_perm |].
    now apply filter_In.
Qed.

Lemma with_category_row (db : database) (v : Worker.transaction_view) :
  In v (Worker.transactions_with_category db) ->
  In (Worker.t_row v) (transactions db).
Proof.
  unfold Worker.transactions_with_category. intros H.
  apply in_map_iff in H. destruct H as [[t c] [<- H]].
  simpl. eapply left_join_left. exact H.
Qed.

Lemma row_with_category (db : database) (t : transaction_row) :
  In t (transactions db) ->
  exists v, In v (Worker.transactions_with_category db)
            /\ Worker.t_row v = t.
Proof.
  intros H.
  destruct (left_join_covers
              (fun t c => (txn_category_id t =? cat_id c)%Z)
              (transactions db) (categories db) t H) as [c Hc].
  eexists. split.
  - unfold Worker.transactions_with_category. apply in_map_iff.
    exists (t, c). split; [reflexivity | exact Hc].
  - reflexivity.
Qed.

Lemma getTransactions_month (m : string) (env : Worker.Env) :
  m <> "" ->
  fst (Worker.getTransactions strftime_Ym (Some m) env)
  = Worker.jsonResponse
      (Worker.TransactionList
         (Worker.select_transactions_of_month strftime_Ym m
            (Worker.BUDGET_DB env))) 200.
Proof.
  intros Hm. apply String.eqb_neq in Hm.
  unfold Worker.getTransactions, Worker.try_catch, Worker.bind, Worker.all,
    Worker.ret.
  now rewrite Hm.
Qed.

(** X5. A transaction that POST /api/transactions created is returned by
    GET /api/transactions for the month of its date, with the id of the
    response and the date, description, amount, type and category of the
    request; once DELETE /api/transactions/:id has run for that id, no row
    of the listing has it. *)
Theorem created_listed_deleted (now : timestamp)
        (b : Worker.transaction_body) (env : Worker.Env) (id : Z)
        (b' : Worker.transaction_body) (d m : string) :
  fst (Worker.createTransaction now b env)
  = Worker.jsonResponse (Worker.TransactionBody id b') 201 ->
  Worker.date b = Value d -> strftime_Ym d = Some m -> m <> "" ->
  let env1 := snd (Worker.createTransaction now b env) in
  let env2 := snd (Api.deleteTransaction id env1) in
  (exists results,
      fst (Worker.getTransactions strftime_Ym (Some m) env1)
      = Worker.jsonResponse (Worker.TransactionList results) 200
      /\ Exists
           (fun v =>
              txn_id (Worker.t_row v) = id
              /\ Worker.date b = Value (txn_date (Worker.t_row v))
              /\ Worker.description b
                 = Value (txn_description (Worker.t_row v))
              /\ Worker.amount b = Value (txn_amount (Worker.t_row v))
              /\ Worker.type b = Value (txn_type (Worker.t_row v))
              /\ Worker.category_id b
                 = Value (txn_category_id (Worker.t_row v)))
           results)
  /\ exists results,
      fst (Worker.getTransactions strftime_Ym (Some m) env2)
      = Worker.jsonResponse (Worker.TransactionList results) 200
      /\ Forall (fun v => txn_id (Worker.t_row v) <> id) results.
Proof.
  intros Hcreated Hd Hm Hne. cbv zeta.
  destruct (createTransaction_created now b env id b' Hcreated)
    as [row [Hdb [Hid [_ [Hdate [Hds [Ha [Hty [Hc _]]]]]]]]].
  split.
  - eexists. split; [apply getTransactions_month; exact Hne |].
    assert (Hin : In row (transactions
                            (Worker.BUDGET_DB
                               (snd (Worker.createTransaction now b env))))).
    { rewrite Hdb. cbn. apply in_or_app. right. now left. }
    destruct (row_with_category _ _ Hin) as [v [Hv Hrow]].
    apply Exists_exists. exists v. split.
    + apply select_of_month_In. split; [exact Hv |].
      rewrite Hrow. unfold Worker.in_month.
      assert (Hdd : txn_date row = d) by congruence.
      rewrite Hdd, Hm. apply String.eqb_refl.
    + rewrite Hrow. repeat split; assumption.
  - eexists. split; [apply getTransactions_month; exact Hne |].
    apply Forall_forall. intros v Hv.
    apply select_of_month_In in Hv. destruct Hv as [Hv _].
    apply with_category_row in Hv.
    unfold Api.deleteTransaction, Worker.try_catch, Worker.bind, Worker.run,
      Worker.ret, delete_transaction in Hv.
    cbn [fst snd Worker.BUDGET_DB transactions] in Hv.
    apply filter_In in Hv. destruct Hv as [_ Hv].
    apply negb_true_iff in Hv. now apply Z.eqb_neq in Hv.
Qed.
End ListedAfter.

Lemma created_listed_deleted_witness :
  let b := Sample.body "2024-03-12" "Tea" (Value (num_of_Z 4)) "expense" 2 in
  let env1 := snd (Worker.createTransaction Sample.now b Sample.env) in
  exists results,
    fst (Worker.getTransactions Sample.strftime_Ym (Some "2024-03") env1)
    = Worker.jsonResponse (Worker.TransactionList results) 200
    /\ Exists (fun v => txn_id (Worker.t_row v) = 6%Z
                        /\ Worker.date b = Value (txn_date (Worker.t_row v)))
              results.
Proof.
  cbv zeta.
  destruct (created_listed_deleted Sample.strftime_Ym Sample.now
              (Sample.body "2024-03-12" "Tea" (Value (num_of_Z 4))
                 "expense" 2)
              Sample.env 6
              (Worker.with_source (Value "manual")
                 (Sample.body "2024-03-12" "Tea" (Value (num_of_Z 4))
                    "expense" 2))
              "2024-03-12" "2024-03")
    as [[results [Hr Hex]] _];
    [reflexivity | reflexivity | reflexivity | discriminate |].
  exists results. split; [exact Hr |].
  eapply Exists_impl; [| exact Hex].
  intros v [H1 [H2 _]]. split; [exact H1 | exact H2].
Defined.

(** ** Updating a transaction *)

Lemma updated_rows_same (id : Z) (b : Worker.transaction_body)
      (l : list transaction_row) :
  existsb (fun t => (txn_id t =? id)%Z) l = false ->
  Forall2 (updated_row id b) l l.
Proof.
  induction l as [| t l IH]; simpl; intros H; constructor.
  - apply orb_false_iff in H. destruct H as [E _].
    unfold updated_row. rewrite E. auto.
  - apply IH. apply orb_false_iff in H. tauto.
Qed.

Lemma updated_rows_map (id : Z) (b : Worker.transaction_body)
      (d ds ty : string) (a : number) (c : Z) (l : list transaction_row) :
  Worker.date b = Value d -> Worker.description b = Value ds ->
  Worker.amount b = Value a -> Worker.type b = Value ty ->
  Worker.category_id b = Value c ->
  Forall2 (updated_row id b) l
    (map (fun t =>
            if (txn_id t =? id)%Z
            then {| txn_id := txn_id t; txn_date := d;
                    txn_description := ds; txn_amount := a;
                    txn_type := ty; txn_category_id := c;
                    txn_source := txn_source t;
                    txn_created_at := txn_created_at t |}
            else t) l).
Proof.
  intros Hd Hds Ha Hty Hc.
  induction l as [| t l IH]; simpl; constructor; auto.
  unfold updated_row. destruct (txn_id t =? id)%Z eqn:E; simpl; auto 10.
Qed.

(** X6. PUT /api/transactions/:id either answers 200, and then every row
    of [transactions] keeps its place, id, source and creation time, the
    rows with that id carry the date, description, amount, type and
    category of the body and the others are unchanged (none, when no row
    has the id), or it answers with another status and the database is
    unchanged.  Categories and budgets are never touched. *)
Theorem updateTransaction_frame (id : Z) (b : Worker.transaction_body)
        (env : Worker.Env) :
  let r := Worker.updateTransaction id b env in
  let db := Worker.BUDGET_DB env in
  let db' := Worker.BUDGET_DB (snd r) in
  categories db' = categories db
  /\ monthly_budgets db' = monthly_budgets db
  /\ ((fst r = Worker.jsonResponse
                 (Worker.TransactionBody id
                    (Worker.with_source Undefined b)) 200
       /\ Forall2 (updated_row id b) (transactions db) (transactions db'))
      \/ (Worker.status (fst r) <> 200%nat /\ db' = db)).
Proof.
  cbv zeta. unfold Worker.updateTransaction, Worker.try_catch.
  destruct (Worker.missing_required_fields b).
  { cbn. repeat split. right. split; [discriminate | reflexivity]. }
  unfold Worker.bind, Worker.run, Worker.ret, update_transaction.
  destruct (existsb (fun t => (txn_id t =? id)%Z)
              (transactions (Worker.BUDGET_DB env))) eqn:Eid; cbn [negb].
  2:{ cbn. repeat split. left. split; [reflexivity |].
      now apply updated_rows_same. }
  destruct (bound (Worker.date b)) as [d |] eqn:Ed;
    [| cbn; repeat split; right; split; [discriminate | reflexivity]].
  destruct (bound (Worker.description b)) as [ds |] eqn:Eds;
    [| cbn; repeat split; right; split; [discriminate | reflexivity]].
  destruct (bound (Worker.amount b)) as [a |] eqn:Ea;
    [| cbn; repeat split; right; split; [discriminate | reflexivity]].
  destruct (bound (Worker.type b)) as [ty |] eqn:Ety;
    [| cbn; repeat split; right; split; [discriminate | reflexivity]].
  destruct (bound (Worker.category_id b)) as [c |] eqn:Ec;
    [| cbn; repeat split; right; split; [discriminate | reflexivity]].
  destruct (negb (type_check ty));
    [cbn; repeat split; right; split; [discriminate | reflexivity] |].
  destruct (negb (category_exists (Worker.BUDGET_DB env) c));
    [cbn; repeat split; right; split; [discriminate | reflexivity] |].
  cbn. repeat split. left. split; [reflexivity |].
  apply updated_rows_map; now apply bound_Some.
Qed.

(** ** The category names of a listing *)

Lemma transactions_with_category_find (db : database) :
  schema_ok db ->
  Worker.transactions_with_category db
  = map (fun t =>
           {| Worker.t_row := t;
              Worker.category_name :=
                option_map cat_name (category_of db t) |})
        (transactions db).
Proof.
  intros [Hcat _]. unfold Worker.transactions_with_category.
  rewrite (left_join_unique cat_id _ txn_category_id _ _ Hcat
             on_category_key).
  rewrite map_map. apply map_ext. intros t. simpl.
  unfold category_of. now rewrite hd_filter_find.
Qed.

Lemma firstn_In {A} (n : nat) (l : list A) (x : A) :
  In x (firstn n l) -> In x l.
Proof.
  intros H. rewrite <- (firstn_skipn n l). apply in_or_app. now left.
Qed.

(** X7. Every row that GET /api/transactions returns, with or without a
    month, is a transaction of the database, and its [category_name] is the
    name of the category it refers to, whether that category is active or
    deactivated; it is NULL only when no category has that id. *)
Theorem getTransactions_category_name
        (strftime_Ym : string -> option string) (month : option string)
        (env : Worker.Env) :
  schema_ok (Worker.BUDGET_DB env) ->
  exists results,
    fst (Worker.getTransactions strftime_Ym month env)
    = Worker.jsonResponse (Worker.TransactionList results) 200
    /\ Forall
         (fun v =>
            In (Worker.t_row v) (transactions (Worker.BUDGET_DB env))
            /\ Worker.category_name v
               = option_map cat_name
                   (category_of (Worker.BUDGET_DB env) (Worker.t_row v)))
         results.
Proof.
  intros Hok.
  assert (Hall : forall v,
             In v (Worker.transactions_with_category (Worker.BUDGET_DB env)) ->
             In (Worker.t_row v) (transactions (Worker.BUDGET_DB env))
             /\ Worker.category_name v
                = option_map cat_name
                    (category_of (Worker.BUDGET_DB env) (Worker.t_row v))).
  { intros v Hv. rewrite (transactions_with_category_find _ Hok) in Hv.
    apply in_map_iff in Hv. destruct Hv as [t [<- Ht]]. auto. }
  assert (Hrecent : forall v,
             In v (Worker.select_recent_transactions (Worker.BUDGET_DB env)) ->
             In v (Worker.transactions_with_category (Worker.BUDGET_DB env))).
  { intros v Hv. unfold Worker.select_recent_transactions in Hv.
    apply firstn_In in Hv.
    eapply Permutation_in; [apply order_by_perm | exact Hv]. }
  unfold Worker.getTransactions, Worker.try_catch, Worker.bind, Worker.all,
    Worker.ret.
  destruct month as [m |]; [destruct (m =? "") eqn:Em |]; simpl;
    eexists; (split; [reflexivity |]);
    apply Forall_forall; intros v Hv; apply Hall.
  - now apply Hrecent.
  - now apply (select_of_month_In strftime_Ym m) in Hv.
  - now apply Hrecent.
Qed.

Lemma getTransactions_category_name_witness :
  schema_ok (Worker.BUDGET_DB Sample.env)
  /\ exists results,
      fst (Worker.getTransactions Sample.strftime_Ym (Some "2024-03")
             Sample.env)
      = Worker.jsonResponse (Worker.TransactionList results) 200
      /\ Forall
           (fun v =>
              In (Worker.t_row v) (transactions (Worker.BUDGET_DB Sample.env))
              /\ Worker.category_name v
                 = option_map cat_name
                     (category_of (Worker.BUDGET_DB Sample.env)
                        (Worker.t_row v)))
           results.
Proof.
  split; [exact sample_schema_ok |].
  exact (getTransactions_category_name Sample.strftime_Ym (Some "2024-03")
           Sample.env sample_schema_ok).
Defined.

(** ** Saving budgets *)

Lemma budgets_kept_refl (db : database) : budgets_kept db db.
Proof.
  repeat split; auto. exists []. now rewrite app_nil_r.
Qed.

Lemma budgets_kept_trans (db1 db2 db3 : database) :
  budgets_kept db1 db2 -> budgets_kept db2 db3 -> budgets_kept db1 db3.
Proof.
  intros [Hc1 [Ht1 [Hn1 [new1 Hp1]]]] [Hc2 [Ht2 [Hn2 [new2 Hp2]]]].
  repeat split; try congruence; auto.
  exists (new1 ++ new2). now rewrite Hp2, Hp1, app_assoc.
Qed.

Lemma NoDup_snoc {A} (l : list A) (x : A) :
  NoDup l -> ~ In x l -> NoDup (l ++ [x]).
Proof.
  induction 1 as [| a l Ha Hnd IH]; simpl; intros Hx.
  - constructor; [tauto | constructor].
  - constructor.
    + rewrite in_app_iff. simpl. intros [H | [H | []]]; [tauto |].
      apply Hx. now left.
    + apply IH. tauto.
Qed.

Lemma upsert_budget_kept (now : timestamp) (mo : option string)
      (co : option Z) (ao : option number) (db db' : database) (u : unit) :
  upsert_budget now mo co ao db = inr (u, db') -> budgets_kept db db'.
Proof.
  unfold upsert_budget.
  destruct mo as [m |]; [| discriminate].
  destruct co as [c |]; [| discriminate].
  destruct ao as [a |]; [| discriminate].
  destruct (existsb (same_budget_key m c) (monthly_budgets db)) eqn:E.
  - intros H. injection H as _ <-. unfold budgets_kept.
    cbn [categories transactions monthly_budgets].
    assert (Hkey : forall l,
               map budget_key
                 (map (fun b =>
                         if same_budget_key m c b
                         then {| mb_id := mb_id b; mb_month := mb_month b;
                                 mb_category_id := mb_category_id b;
                                 mb_budget_amount := a;
                                 mb_created_at := mb_created_at b;
                                 mb_updated_at := now |}
                         else b) l)
               = map budget_key l).
    { intros l. rewrite map_map. apply map_ext. intros b.
      now destruct (same_budget_key m c b). }
    repeat split; auto.
    + now rewrite Hkey.
    + exists []. rewrite app_nil_r, map_map. apply map_ext. intros b.
      now destruct (same_budget_key m c b).
  - destruct (negb (category_exists db c)); [discriminate |].
    intros H. injection H as _ <-. unfold budgets_kept.
    cbn [categories transactions monthly_budgets].
    repeat split; auto.
    + intros Hnd. rewrite map_app. cbn [map].
      apply NoDup_snoc; [exact Hnd |].
      intros Hin. apply in_map_iff in Hin.
      {
        destruct Hin as [b [Hb Hin]].
        assert (Ex : existsb (same_budget_key m c) (monthly_budgets db)
                     = true).
        { apply existsb_exists. exists b. split; [exact Hin |].
          now apply same_budget_key_iff. }
        congruence. }
    + eexists. rewrite map_app. reflexivity.
Qed.

Lemma save_loop_kept (now : timestamp) (month : field string)
      (bs : list Worker.budget_body) :
  forall env,
    budgets_kept (Worker.BUDGET_DB env)
                 (Worker.BUDGET_DB (snd (Worker.save_loop now month bs env))).
Proof.
  induction bs as [| b bs IH]; intros env; simpl.
  - apply budgets_kept_refl.
  - destruct (truthy_int (Worker.b_category_id b)
              && negb (is_undefined (Worker.budget_amount b))).
    + unfold Worker.bind, Worker.run.
      destruct (upsert_budget now (bound month)
                  (bound (Worker.b_category_id b))
                  (bound (Worker.budget_amount b)) (Worker.BUDGET_DB env))
        as [e | [u db']] eqn:E.
      * apply budgets_kept_refl.
      * eapply budgets_kept_trans.
        -- eapply upsert_budget_kept. exact E.
        -- apply (IH {| Worker.BUDGET_DB := db';
                        Worker.statements := S (Worker.statements env) |}).
    + apply IH.
Qed.

(** X8. POST /api/budgets, whatever its body and whether it answers 200,
    400 or 500, leaves the categories and the transactions unchanged, keeps
    (month, category_id) unique in [monthly_budgets], and removes no budget
    row: the rows that were there are still there, in place, with their id,
    month, category and [created_at], and new rows come after them. *)
Theorem saveBudgets_kept (now : timestamp) (month : field string)
        (budgets : option (list Worker.budget_body)) (env : Worker.Env) :
  budgets_kept (Worker.BUDGET_DB env)
    (Worker.BUDGET_DB (snd (Worker.saveBudgets now month budgets env))).
Proof.
  unfold Worker.saveBudgets, Worker.try_catch.
  destruct budgets as [bs |]; [| apply budgets_kept_refl].
  destruct (negb (truthy_string month)); [apply budgets_kept_refl |].
  unfold Worker.bind.
  pose proof (save_loop_kept now month bs env) as H.
  destruct (Worker.save_loop now month bs env) as [[e | u] env'];
    exact H.
Qed.

(** ** Reading back a saved budget *)

Lemma filter_map_comm {A B} (p : B -> bool) (f : A -> B) (l : list A) :
  filter p (map f l) = map f (filter (fun x => p (f x)) l).
Proof.
  induction l as [| a l IH]; simpl; [reflexivity |].
  destruct (p (f a)); simpl; now rewrite IH.
Qed.

Lemma Permutation_filter_same {A} (p : A -> bool) (l l' : list A) :
  Permutation l l' -> Permutation (filter p l) (filter p l').
Proof.
  induction 1 as [| x l l' _ IH | x y l | l1 l2 l3 _ IH1 _ IH2]; simpl.
  - constructor.
  - destruct (p x); [now constructor | exact IH].
  - destruct (p x), (p y); try reflexivity. apply perm_swap.
  - now transitivity (filter p l2).
Qed.

Lemma save_one_row (now : timestamp) (m : string) (c : Z) (a : number)
      (env : Worker.Env) :
  m <> "" -> c <> 0%Z ->
  category_exists (Worker.BUDGET_DB env) c = true ->
  schema_ok (Worker.BUDGET_DB env) ->
  exists row,
    budget_rows m c (Worker.BUDGET_DB (save_one now m c a env)) = [row]
    /\ mb_budget_amount row = a /\ mb_updated_at row = now.
Proof.
  intros Hm Hc Hcat [_ Huniq].
  destruct (twice_and_once m c now now a a env Hm Hc Hcat) as [_ [_ Hbs]].
  unfold budget_rows.
  destruct (existsb (same_budget_key m c)
              (monthly_budgets (Worker.BUDGET_DB env))) eqn:E.
  - destruct Hbs as [-> _]. rewrite filter_update.
    destruct (budget_row_unique m c _ Huniq E) as [b Hb].
    rewrite Hb. simpl.
    assert (Hk : same_budget_key m c b = true).
    { assert (Hin : In b (filter (same_budget_key m c)
                            (monthly_budgets (Worker.BUDGET_DB env))))
        by (rewrite Hb; now left).
      now apply filter_In in Hin. }
    rewrite Hk. eexists. split; [reflexivity |]. split; reflexivity.
  - destruct Hbs as [-> _]. rewrite filter_app, (filter_none _ _ E).
    simpl. rewrite same_budget_key_refl by reflexivity.
    eexists. split; [reflexivity |]. split; reflexivity.
Qed.

Lemma on_budget_category_key (mb : budget_row) (c : category_row) :
  (mb_category_id mb =? cat_id c)%Z = true -> cat_id c = mb_category_id mb.
Proof. intros H. apply Z.eqb_eq in H. congruence. Qed.

(** X9. A budget saved by POST /api/budgets is read back by
    GET /api/budgets for its month: the listing has rows of that month
    only, and exactly one row for the category, with the saved amount, the
    time of the save as [updated_at] and the name of the category. *)
Theorem getBudgets_saved (now : timestamp) (m : string) (c : Z) (a : number)
        (env : Worker.Env) :
  m <> "" -> c <> 0%Z ->
  category_exists (Worker.BUDGET_DB env) c = true ->
  schema_ok (Worker.BUDGET_DB env) ->
  exists results,
    fst (Api.getBudgets (Some m) (save_one now m c a env))
    = Api.jsonResponse (Api.BudgetList results) 200
    /\ Forall (fun v => mb_month (b_row v) = m) results
    /\ exists v cat,
        filter (fun v => (mb_category_id (b_row v) =? c)%Z) results = [v]
        /\ mb_budget_amount (b_row v) = a
        /\ mb_updated_at (b_row v) = now
        /\ In cat (categories (Worker.BUDGET_DB env))
        /\ cat_id cat = c
        /\ b_category_name v = Some (cat_name cat).
Proof.
  intros Hm Hc Hcat Hok.
  destruct (save_one_row now m c a env Hm Hc Hcat Hok)
    as [row [Hrow [Ha Hu]]].
  pose proof (save_one_categories now m c a env) as Hcats.
  destruct Hok as [Hids _].
  set (db1 := Worker.BUDGET_DB (save_one now m c a env)) in *.
  assert (Hm' : (m =? "") = false) by now apply String.eqb_neq.
  unfold Api.getBudgets, Api.try_catch, Worker.bind, Worker.all, Worker.ret.
  rewrite Hm'. cbn [fst snd Worker.BUDGET_DB]. fold db1.
  eexists. split; [reflexivity |].
  unfold select_budgets.
  rewrite (left_join_unique cat_id _ mb_category_id _ _
             (eq_ind_r (fun l => NoDup (map cat_id l)) Hids Hcats)
             on_budget_category_key).
  set (pair := fun mb : budget_row =>
                 (mb, match filter (fun c0 => (mb_category_id mb =? cat_id c0)%Z)
                              (categories db1) with
                      | b :: _ => Some b
                      | [] => None
                      end)).
  set (view := fun bc : budget_row * option category_row =>
                 {| b_row := fst bc;
                    b_category_name := option_map cat_name (snd bc) |}).
  set (rows := map view (filter (fun bc => mb_month (fst bc) =? m)
                                (map pair (monthly_budgets db1)))).
  assert (Hperm : Permutation (order_by name_asc rows) rows)
    by apply order_by_perm.
  split.
  - apply Forall_forall. intros v Hv.
    eapply Permutation_in in Hv; [| exact Hperm].
    unfold rows in Hv. apply in_map_iff in Hv.
    destruct Hv as [bc [<- Hbc]]. apply filter_In in Hbc.
    destruct Hbc as [_ Hbc]. now apply String.eqb_eq in Hbc.
  - assert (Hone : filter (fun v => (mb_category_id (b_row v) =? c)%Z) rows
                   = [view (pair row)]).
    { unfold rows. rewrite filter_map_comm, filter_filter, filter_map_comm.
      change (filter _ (monthly_budgets db1)) with (budget_rows m c db1).
      now rewrite Hrow. }
    pose proof (Permutation_filter_same
                  (fun v => (mb_category_id (b_row v) =? c)%Z) _ _ Hperm)
      as Hp.
    rewrite Hone in Hp. apply Permutation_sym in Hp.
    apply Permutation_length_1_inv in Hp.
    assert (Hkey : same_budget_key m c row = true).
    { assert (Hin : In row (budget_rows m c db1)) by (rewrite Hrow; now left).
      now apply filter_In in Hin. }
    apply same_budget_key_iff in Hkey. unfold budget_key in Hkey.
    injection Hkey as Hkm Hkc.
    unfold category_exists in Hcat. apply existsb_exists in Hcat.
    destruct Hcat as [cat [Hin Hid]]. apply Z.eqb_eq in Hid.
    assert (Hfind : exists cat',
               In cat' (categories (Worker.BUDGET_DB env))
               /\ cat_id cat' = c
               /\ snd (pair row) = Some cat').
    { unfold pair. cbn [snd]. rewrite hd_filter_find, Hcats, Hkc.
      destruct (find (fun c0 => (c =? cat_id c0)%Z)
                  (categories (Worker.BUDGET_DB env))) as [cat' |] eqn:Ef.
      - apply find_some in Ef. destruct Ef as [Hin' He].
        apply Z.eqb_eq in He. exists cat'. auto.
      - exfalso. apply (find_none _ _ Ef) in Hin.
        rewrite Hid, Z.eqb_refl in Hin. discriminate. }
    destruct Hfind as [cat' [Hin' [Hid' Hsnd]]].
    exists (view (pair row)), cat'.
    split; [exact Hp |].
    unfold view. cbn [b_row b_category_name]. rewrite Hsnd.
    unfold pair. cbn [fst option_map]. auto 10.
Qed.

Lemma getBudgets_saved_witness :
  "2024-04" <> "" /\ 2%Z <> 0%Z
  /\ category_exists (Worker.BUDGET_DB Sample.env) 2 = true
  /\ schema_ok (Worker.BUDGET_DB Sample.env)
  /\ exists results,
      fst (Api.getBudgets (Some "2024-04")
             (save_one Sample.now "2024-04" 2 (num_of_Z 250) Sample.env))
      = Api.jsonResponse (Api.BudgetList results) 200
      /\ Forall (fun v => mb_month (b_row v) = "2024-04") results.
Proof.
  assert (H1 : "2024-04" <> "") by discriminate.
  assert (H2 : 2%Z <> 0%Z) by discriminate.
  assert (H3 : category_exists (Worker.BUDGET_DB Sample.env) 2 = true)
    by reflexivity.
  repeat (split; [assumption || exact sample_schema_ok |]).
  destruct (getBudgets_saved Sample.now "2024-04" 2 (num_of_Z 250)
              Sample.env H1 H2 H3 sample_schema_ok) as [results [Hr [Hf _]]].
  exists results. split; assumption.
Defined.

(** ** The router *)

Lemma first_some_In {A} (l : list (option A)) (a : A) :
  Api.first_some l = Some a -> In (Some a) l.
Proof.
  induction l as [| [x |] l IH]; simpl; intros H.
  - discriminate.
  - left. exact H.
  - right. now apply IH.
Qed.

Section RouterFacts.
Variable strftime_Ym : string -> option string.
Variable now : timestamp.

(** A property of every handler the router can call holds of the router. *)
Lemma fetch_handlers (P : Api.handler -> Prop) (request : Api.Request) :
  P (fun env => (Api.handleOptions, env)) ->
  P (fun env => (Api.errorResponse "Not found" 404, env)) ->
  (forall e, P (fun env => (Api.errorResponse e 500, env))) ->
  P (Api.lift Worker.getCategories) ->
  (forall n, P (Api.createCategory now n)) ->
  (forall id n, P (Api.updateCategory id n)) ->
  (forall id, P (Api.lift (Worker.deleteCategory id))) ->
  P (Api.lift (Worker.getTransactions strftime_Ym
                 (Api.month_param request))) ->
  (forall b, P (Api.lift (Worker.createTransaction now b))) ->
  (forall l, P (Api.lift (Worker.importTransactions now l))) ->
  (forall id b, P (Api.lift (Worker.updateTransaction id b))) ->
  (forall id, P (Api.lift (Api.deleteTransaction id))) ->
  P (Api.getBudgets (Api.month_param request)) ->
  (forall m l, P (Api.lift (Worker.saveBudgets now m l))) ->
  P (Api.lift (Worker.getSummary strftime_Ym (Api.month_param request))) ->
  P (Api.fetch strftime_Ym now request).
Proof.
  intros Hopt Hnf Herr H1 H2 H3 H4 H5 H6 H7 H8 H9 H10 H11 H12.
  assert (Hjson : forall k : Api.Body -> Api.handler,
             (forall body, P (k body)) -> P (Api.with_json request k)).
  { intros k Hk. unfold Api.with_json.
    destruct (Api.json_body request) as [e | body]; [apply Herr | apply Hk]. }
  unfold Api.fetch.
  destruct (Api.method request =? "OPTIONS"); [exact Hopt |].
  destruct (Api.first_some (Api.routes strftime_Ym now request))
    as [h |] eqn:E; [| exact Hnf].
  apply first_some_In in E. unfold Api.routes in E.
  cbv zeta in E. simpl in E.
  repeat match type of E with
         | _ \/ _ => destruct E as [E | E]
         | False => contradiction
         end;
    repeat match type of E with
           | (if ?c then _ else _) = _ => destruct c
           | match ?o with Some _ => _ | None => _ end = _ => destruct o
           | None = Some _ => discriminate
           end;
    injection E as <-; auto.
Qed.
End RouterFacts.

(** *** Responses sent before any statement *)

Ltac not_early H :=
  exfalso; unfold early_status in H; simpl in H;
  destruct H as [H | [H | H]]; discriminate H.

Lemma quiet_try_catch (m : Worker.D1 Worker.Response) :
  (forall env,
      match m env with
      | (inl _, _) => True
      | (inr r, env') =>
          early_status (Worker.status r) -> env' = env
      end) ->
  quiet (Api.lift (Worker.try_catch m)).
Proof.
  intros Hm env. unfold Api.lift, Api.of_worker, Worker.try_catch. simpl.
  specialize (Hm env). destruct (m env) as [[e | r] env']; simpl.
  - intros H. not_early H.
  - exact Hm.
Qed.

Lemma quiet_api_try_catch (m : Worker.D1 Api.Response) :
  (forall env,
      match m env with
      | (inl _, _) => True
      | (inr r, env') => early_status (Api.status r) -> env' = env
      end) ->
  quiet (Api.try_catch m).
Proof.
  intros Hm env. unfold Api.try_catch.
  specialize (Hm env). destruct (m env) as [[e | r] env']; simpl.
  - intros H. not_early H.
  - exact Hm.
Qed.

Lemma quiet_getCategories : quiet (Api.lift Worker.getCategories).
Proof.
  apply quiet_try_catch. intros env. simpl. intros H. not_early H.
Qed.

Lemma quiet_deleteCategory (id : Z) :
  quiet (Api.lift (Worker.deleteCategory id)).
Proof.
  apply quiet_try_catch. intros env. simpl. intros H. not_early H.
Qed.

Lemma quiet_getTransactions (strftime_Ym : string -> option string)
      (month : option string) :
  quiet (Api.lift (Worker.getTransactions strftime_Ym month)).
Proof.
  apply quiet_try_catch. intros env.
  destruct month as [m |]; [destruct (m =? "") |]; simpl;
    intros H; not_early H.
Qed.

Lemma quiet_createTransaction (now : timestamp)
      (b : Worker.transaction_body) :
  quiet (Api.lift (Worker.createTransaction now b)).
Proof.
  apply quiet_try_catch. intros env.
  destruct (Worker.missing_required_fields b); [simpl; auto |].
  destruct (negb (type_check _)); [simpl; auto |].
  unfold Worker.bind, Worker.run, Worker.ret.
  destruct (insert_transaction _ _ _ _ _ _ _ _) as [e | [id db']]; simpl;
    [exact I | intros H; not_early H].
Qed.

Lemma quiet_updateTransaction (id : Z) (b : Worker.transaction_body) :
  quiet (Api.lift (Worker.updateTransaction id b)).
Proof.
  apply quiet_try_catch. intros env.
  destruct (Worker.missing_required_fields b); [simpl; auto |].
  unfold Worker.bind, Worker.run, Worker.ret.
  destruct (update_transaction _ _ _ _ _ _ _) as [e | [u db']]; simpl;
    [exact I | intros H; not_early H].
Qed.

Lemma quiet_deleteTransaction (id : Z) :
  quiet (Api.lift (Api.deleteTransaction id)).
Proof.
  apply quiet_try_catch. intros env. simpl. intros H. not_early H.
Qed.

Lemma quiet_importTransactions (now : timestamp)
      (l : option (list Worker.transaction_body)) :
  quiet (Api.lift (Worker.importTransactions now l)).
Proof.
  apply quiet_try_catch. intros env.
  destruct l as [txns |]; [| simpl; auto].
  unfold Worker.bind, Worker.ret.
  destruct (Worker.import_loop now txns 0 env) as [[e | n] env']; simpl;
    [exact I | intros H; not_early H].
Qed.

Lemma quiet_saveBudgets (now : timestamp) (m : field string)
      (l : option (list Worker.budget_body)) :
  quiet (Api.lift (Worker.saveBudgets now m l)).
Proof.
  apply quiet_try_catch. intros env.
  destruct l as [bs |]; [| simpl; auto].
  destruct (negb (truthy_string m)); [simpl; auto |].
  unfold Worker.bind, Worker.ret.
  destruct (Worker.save_loop now m bs env) as [[e | u] env']; simpl;
    [exact I | intros H; not_early H].
Qed.

Lemma quiet_getSummary (strftime_Ym : string -> option string)
      (month : option string) :
  quiet (Api.lift (Worker.getSummary strftime_Ym month)).
Proof.
  apply quiet_try_catch. intros env.
  destruct month as [m |]; [destruct (m =? "") |]; simpl; auto.
  intros H. not_early H.
Qed.

Lemma quiet_createCategory (now : timestamp) (n : field string) :
  quiet (Api.createCategory now n).
Proof.
  apply quiet_api_try_catch. intros env.
  destruct n as [| | s]; simpl; auto.
  destruct (s =? ""); simpl; auto.
  unfold Worker.bind, Worker.run, Worker.ret.
  destruct (insert_category _ _ _) as [e | [id db']]; simpl;
    [exact I | intros H; not_early H].
Qed.

Lemma quiet_updateCategory (id : Z) (n : field string) :
  quiet (Api.updateCategory id n).
Proof.
  apply quiet_api_try_catch. intros env.
  destruct n as [| | s]; simpl; auto.
  destruct (s =? ""); simpl; auto.
  unfold Worker.bind, Worker.run, Worker.ret.
  destruct (update_category_name _ _ _) as [e | [u db']]; simpl;
    [exact I | intros H; not_early H].
Qed.

Lemma quiet_getBudgets (month : option string) :
  quiet (Api.getBudgets month).
Proof.
  apply quiet_api_try_catch. intros env.
  destruct month as [m |]; [destruct (m =? "") |]; simpl; auto.
  intros H. not_early H.
Qed.

(** X10. Whatever the request, a response with status 204 (preflight), 400
    (validation error) or 404 (no route) was sent before any statement was
    run: the environment of the worker, database and statement count, is
    unchanged. *)
Theorem fetch_early_no_statement (strftime_Ym : string -> option string)
        (now : timestamp) (request : Api.Request) (env : Worker.Env) :
  let r := Api.fetch strftime_Ym now request env in
  early_status (Api.status (fst r)) -> snd r = env.
Proof.
  cbv zeta. revert env.
  change (quiet (Api.fetch strftime_Ym now request)).
  apply fetch_handlers;
    auto using quiet_getCategories, quiet_deleteCategory,
      quiet_getTransactions, quiet_createTransaction,
      quiet_updateTransaction, quiet_deleteTransaction,
      quiet_importTransactions, quiet_saveBudgets, quiet_getSummary,
      quiet_createCategory, quiet_updateCategory, quiet_getBudgets;
    intros; intros env _; reflexivity.
Qed.

Lemma fetch_early_no_statement_witness :
  let request :=
    {| Api.method := "DELETE"; Api.pathname := "/api/budgets";
       Api.month_param := None; Api.json_body := inl "" |} in
  early_status
    (Api.status
       (fst (Api.fetch Sample.strftime_Ym Sample.now request Sample.env)))
  /\ snd (Api.fetch Sample.strftime_Ym Sample.now request Sample.env)
     = Sample.env.
Proof.
  cbv zeta.
  assert (H : early_status
                (Api.status
                   (fst (Api.fetch Sample.strftime_Ym Sample.now
                           {| Api.method := "DELETE";
                              Api.pathname := "/api/budgets";
                              Api.month_param := None;
                              Api.json_body := inl "" |} Sample.env))))
    by (right; right; reflexivity).
  split; [exact H |].
  exact (fetch_early_no_statement _ _ _ _ H).
Defined.

(** *** GET requests do not write *)

Lemma reads_getTransactions (strftime_Ym : string -> option string)
      (month : option string) :
  reads (Api.lift (Worker.getTransactions strftime_Ym month)).
Proof.
  intros env. unfold Worker.getTransactions.
  destruct month as [m |]; [destruct (m =? "") |]; reflexivity.
Qed.

Lemma reads_getSummary (strftime_Ym : string -> option string)
      (month : option string) :
  reads (Api.lift (Worker.getSummary strftime_Ym month)).
Proof.
  intros env. unfold Worker.getSummary.
  destruct month as [m |]; [destruct (m =? "") |]; reflexivity.
Qed.

Lemma reads_getBudgets (month : option string) :
  reads (Api.getBudgets month).
Proof.
  intros env. unfold Api.getBudgets.
  destruct month as [m |]; [destruct (m =? "") |]; reflexivity.
Qed.

(** X11. A GET request never writes: whatever its path and parameters,
    the database after it is the database before it. *)
Theorem fetch_get_reads (strftime_Ym : string -> option string)
        (now : timestamp) (request : Api.Request) (env : Worker.Env) :
  Api.method request = "GET" ->
  Worker.BUDGET_DB (snd (Api.fetch strftime_Ym now request env))
  = Worker.BUDGET_DB env.
Proof.
  intros Hget. revert env.
  change (reads (Api.fetch strftime_Ym now request)).
  unfold Api.fetch. rewrite Hget. cbn [String.eqb Ascii.eqb Bool.eqb].
  destruct (Api.first_some (Api.routes strftime_Ym now request))
    as [h |] eqn:E; [| intros env; reflexivity].
  apply first_some_In in E. unfold Api.routes in E.
  rewrite Hget in E. cbv zeta in E.
  cbn [String.eqb Ascii.eqb Bool.eqb] in E. simpl in E.
  repeat match type of E with
         | _ \/ _ => destruct E as [E | E]
         | False => contradiction
         end;
    repeat match type of E with
           | (if ?c then _ else _) = _ => destruct c
           | match ?o with Some _ => _ | None => _ end = _ => destruct o
           | None = Some _ => discriminate
           end;
    injection E as <-.
  - intros env. reflexivity.
  - apply reads_getTransactions.
  - apply reads_getBudgets.
  - apply reads_getSummary.
Qed.

Lemma fetch_get_reads_witness :
  let request :=
    {| Api.method := "GET"; Api.pathname := "/api/reports/summary";
       Api.month_param := Some "2024-03"; Api.json_body := inl "" |} in
  Api.method request = "GET"
  /\ Worker.BUDGET_DB
       (snd (Api.fetch Sample.strftime_Ym Sample.now request Sample.env))
     = Worker.BUDGET_DB Sample.env.
Proof.
  cbv zeta. split; [reflexivity |].
  apply fetch_get_reads. reflexivity.
Defined.

(** *** What every request keeps *)

Lemma categories_kept_same (db db' : database) :
  categories db' = categories db ->
  monthly_budgets db' = monthly_budgets db ->
  categories_kept db db'.
Proof.
  intros Hc Hb. split.
  - exists []. now rewrite Hc, app_nil_r.
  - unfold schema_ok. now rewrite Hc, Hb.
Qed.

Lemma categories_kept_ids (db db' : database) :
  map cat_id (categories db') = map cat_id (categories db) ->
  monthly_budgets db' = monthly_budgets db ->
  categories_kept db db'.
Proof.
  intros Hc Hb. split.
  - exists []. now rewrite Hc, app_nil_r.
  - unfold schema_ok. now rewrite Hc, Hb.
Qed.

Lemma keeps_lift_try_catch (m : Worker.D1 Worker.Response) :
  (forall env,
      categories_kept (Worker.BUDGET_DB env)
                      (Worker.BUDGET_DB (snd (m env)))) ->
  keeps (Api.lift (Worker.try_catch m)).
Proof.
  intros Hm env. unfold Api.lift, Api.of_worker, Worker.try_catch.
  specialize (Hm env). now destruct (m env) as [[e | r] env'].
Qed.

Lemma keeps_api_try_catch (m : Worker.D1 Api.Response) :
  (forall env,
      categories_kept (Worker.BUDGET_DB env)
                      (Worker.BUDGET_DB (snd (m env)))) ->
  keeps (Api.try_catch m).
Proof.
  intros Hm env. unfold Api.try_catch.
  specialize (Hm env). now destruct (m env) as [[e | r] env'].
Qed.

Lemma kept_refl (db : database) : categories_kept db db.
Proof. now apply categories_kept_same. Qed.

Lemma keeps_reads (h : Api.handler) : reads h -> keeps h.
Proof. intros H env. rewrite H. apply kept_refl. Qed.

Lemma insert_transaction_kept (now : timestamp) (d ds : option string)
      (a : option number) (ty : option string) (c : option Z)
      (src : option string) (db db' : database) (id : Z) :
  insert_transaction now d ds a ty c src db = inr (id, db') ->
  categories db' = categories db /\ monthly_budgets db' = monthly_budgets db.
Proof.
  unfold insert_transaction.
  destruct d, ds, a, ty as [ty |], c as [c |]; try discriminate.
  destruct (negb (type_check ty)); [discriminate |].
  destruct (negb (source_check src)); [discriminate |].
  destruct (negb (category_exists db c)); [discriminate |].
  intros H. injection H as _ <-. auto.
Qed.

Lemma update_transaction_kept (d ds : option string) (a : option number)
      (ty : option string) (c : option Z) (id : Z) (db db' : database)
      (u : unit) :
  update_transaction d ds a ty c id db = inr (u, db') ->
  categories db' = categories db /\ monthly_budgets db' = monthly_budgets db.
Proof.
  unfold update_transaction.
  destruct (negb (existsb _ _)).
  { intros H. injection H as _ <-. auto. }
  destruct d, ds, a, ty as [ty |], c as [c |]; try discriminate.
  destruct (negb (type_check ty)); [discriminate |].
  destruct (negb (category_exists db c)); [discriminate |].
  intros H. injection H as _ <-. auto.
Qed.

Lemma keeps_createTransaction (now : timestamp)
      (b : Worker.transaction_body) :
  keeps (Api.lift (Worker.createTransaction now b)).
Proof.
  apply keeps_lift_try_catch. intros env.
  destruct (Worker.missing_required_fields b); [apply kept_refl |].
  destruct (negb (type_check _)); [apply kept_refl |].
  unfold Worker.bind, Worker.run, Worker.ret.
  destruct (insert_transaction _ _ _ _ _ _ _ _) as [e | [id db']] eqn:E;
    simpl; [apply kept_refl |].
  apply insert_transaction_kept in E. now apply categories_kept_same.
Qed.

Lemma keeps_updateTransaction (id : Z) (b : Worker.transaction_body) :
  keeps (Api.lift (Worker.updateTransaction id b)).
Proof.
  apply keeps_lift_try_catch. intros env.
  destruct (Worker.missing_required_fields b); [apply kept_refl |].
  unfold Worker.bind, Worker.run, Worker.ret.
  destruct (update_transaction _ _ _ _ _ _ _) as [e | [u db']] eqn:E;
    simpl; [apply kept_refl |].
  apply update_transaction_kept in E. now apply categories_kept_same.
Qed.

Lemma keeps_importTransactions (now : timestamp)
      (l : option (list Worker.transaction_body)) :
  keeps (Api.lift (Worker.importTransactions now l)).
Proof.
  apply keeps_lift_try_catch. intros env.
  destruct l as [txns |]; [| apply kept_refl].
  unfold Worker.bind.
  destruct (import_loop_insert_each now txns 0 env) as [Hdb _].
  cbv zeta in Hdb.
  destruct (insert_each_rows now (filter passes_validation txns)
              (Worker.BUDGET_DB env)) as [rows [_ [_ [Hc [Hb _]]]]].
  rewrite <- Hdb in Hc, Hb.
  destruct (Worker.import_loop now txns 0 env) as [[e | n] env'];
    now apply categories_kept_same.
Qed.

Lemma keeps_saveBudgets (now : timestamp) (m : field string)
      (l : option (list Worker.budget_body)) :
  keeps (Api.lift (Worker.saveBudgets now m l)).
Proof.
  intros env. unfold Api.lift, Api.of_worker. cbn [snd].
  assert (H : budgets_kept (Worker.BUDGET_DB env)
                (Worker.BUDGET_DB (snd (Worker.saveBudgets now m l env)))).
  { unfold Worker.saveBudgets, Worker.try_catch.
    destruct l as [bs |]; [| apply budgets_kept_refl].
    destruct (negb (truthy_string m)); [apply budgets_kept_refl |].
    unfold Worker.bind.
    pose proof (save_loop_kept now m bs env) as H.
    destruct (Worker.save_loop now m bs env) as [[e | u] env']; exact H. }
  destruct H as [Hc [_ [Hn _]]]. split.
  - exists []. now rewrite Hc, app_nil_r.
  - intros [Hids Hkeys]. split; [now rewrite Hc | now apply Hn].
Qed.

Lemma keeps_deleteCategory (id : Z) :
  keeps (Api.lift (Worker.deleteCategory id)).
Proof.
  intros env. apply categories_kept_ids; [| reflexivity].
  cbn. rewrite map_map. apply map_ext. intros c.
  now destruct (cat_id c =? id)%Z.
Qed.

Lemma keeps_deleteTransaction (id : Z) :
  keeps (Api.lift (Api.deleteTransaction id)).
Proof. intros env. now apply categories_kept_same. Qed.

Lemma keeps_updateCategory (id : Z) (n : field string) :
  keeps (Api.updateCategory id n).
Proof.
  apply keeps_api_try_catch. intros env.
  destruct n as [| | s]; try apply kept_refl.
  destruct (s =? ""); [apply kept_refl |].
  unfold Worker.bind, Worker.run, Worker.ret, update_category_name.
  cbn [bound].
  destruct (negb (existsb _ _)); [apply kept_refl |].
  destruct (existsb _ _); [apply kept_refl |].
  apply categories_kept_ids; [| reflexivity].
  cbn. rewrite map_map. apply map_ext. intros c.
  now destruct (cat_id c =? id)%Z.
Qed.

Lemma keeps_createCategory (now : timestamp) (n : field string) :
  keeps (Api.createCategory now n).
Proof.
  apply keeps_api_try_catch. intros env.
  destruct n as [| | s]; try apply kept_refl.
  destruct (s =? ""); [apply kept_refl |].
  unfold Worker.bind, Worker.run, Worker.ret, insert_category.
  cbn [bound].
  destruct (existsb _ _); [apply kept_refl |].
  cbn [fst snd Worker.BUDGET_DB]. split.
  - cbn [categories]. eexists. rewrite map_app. reflexivity.
  - intros [Hids Hkeys]. split;
      cbn [categories monthly_budgets]; [| exact Hkeys].
    rewrite map_app. cbn [map cat_id].
    apply NoDup_snoc; [exact Hids | apply next_id_fresh].
Qed.

(** X12. No request removes a category or changes the id of one: after
    any request the categories that were there are still there, in place,
    before any new one (categories are only ever deactivated), and a
    database in which [categories.id] and [monthly_budgets (month,
    category_id)] are keys is left with both still keys. *)
Theorem fetch_keeps_categories (strftime_Ym : string -> option string)
        (now : timestamp) (request : Api.Request) (env : Worker.Env) :
  categories_kept
    (Worker.BUDGET_DB env)
    (Worker.BUDGET_DB (snd (Api.fetch strftime_Ym now request env))).
Proof.
  revert env. change (keeps (Api.fetch strftime_Ym now request)).
  apply fetch_handlers;
    auto using keeps_createTransaction, keeps_updateTransaction,
      keeps_importTransactions, keeps_saveBudgets, keeps_deleteCategory,
      keeps_deleteTransaction, keeps_updateCategory, keeps_createCategory,
      keeps_reads, reads_getTransactions, reads_getSummary,
      reads_getBudgets;
    intros; apply keeps_reads; intros env; reflexivity.
Qed.

Lemma categories_kept_trans (db1 db2 db3 : database) :
  categories_kept db1 db2 -> categories_kept db2 db3 ->
  categories_kept db1 db3.
Proof.
  intros [[new1 H1] S1] [[new2 H2] S2]. split; [| auto].
  exists (new1 ++ new2). now rewrite H2, H1, app_assoc.
Qed.

Lemma serve_keeps (strftime_Ym : string -> option string)
      (requests : list (timestamp * Api.Request)) :
  forall env,
    categories_kept (Worker.BUDGET_DB env)
      (Worker.BUDGET_DB (serve strftime_Ym requests env)).
Proof.
  induction requests as [| [now request] rest IH]; intros env; simpl.
  - split; [exists []; now rewrite app_nil_r | auto].
  - eapply categories_kept_trans; [| apply IH].
    revert env. change (keeps (Api.fetch strftime_Ym now request)).
    apply fetch_handlers;
      auto using keeps_createTransaction, keeps_updateTransaction,
        keeps_importTransactions, keeps_saveBudgets, keeps_deleteCategory,
        keeps_deleteTransaction, keeps_updateCategory, keeps_createCategory,
        keeps_reads, reads_getTransactions, reads_getSummary,
        reads_getBudgets;
      intros; apply keeps_reads; intros env; reflexivity.
Qed.

(** X13. Every state that requests reach from the database of
    [schema.sql] has [categories.id] and [monthly_budgets (month,
    category_id)] as keys, and still has the nine default categories, with
    the ids 1 to 9, before any category added since. *)
Theorem reachable_schema_ok (strftime_Ym : string -> option string)
        (created : timestamp) (requests : list (timestamp * Api.Request)) :
  let env :=
    serve strftime_Ym requests
      {| Worker.BUDGET_DB := initial_database created;
         Worker.statements := 0 |} in
  schema_ok (Worker.BUDGET_DB env)
  /\ exists new,
      map cat_id (categories (Worker.BUDGET_DB env))
      = [1; 2; 3; 4; 5; 6; 7; 8; 9]%Z ++ new.
Proof.
  cbv zeta.
  destruct (serve_keeps strftime_Ym requests
              {| Worker.BUDGET_DB := initial_database created;
                 Worker.statements := 0 |}) as [[new Hnew] Hok].
  split.
  - apply Hok. split; simpl.
    + repeat constructor; simpl; intuition discriminate.
    + constructor.
  - exists new. exact Hnew.
Qed.

(** * Further properties of the client *)

(** ** The row objects of [parseCSV] *)

Lemma get_set_same (o : Frontend.object) (key : string) (v : option string) :
  Frontend.get (Frontend.set o key v) key = v.
Proof.
  induction o as [| [k w] o IH]; simpl.
  - now rewrite String.eqb_refl.
  - destruct (k =? key) eqn:E; simpl; rewrite E; auto.
Qed.

Lemma get_set_other (o : Frontend.object) (key key' : string)
      (v : option string) :
  key <> key' ->
  Frontend.get (Frontend.set o key v) key' = Frontend.get o key'.
Proof.
  intros Hne. induction o as [| [k w] o IH]; simpl.
  - apply String.eqb_neq in Hne. now rewrite Hne.
  - destruct (k =? key) eqn:E; simpl.
    + apply String.eqb_eq in E. subst k.
      apply String.eqb_neq in Hne. now rewrite Hne.
    + destruct (k =? key'); auto.
Qed.





(** ** The cells of [parseCSV] *)

Lemma split_nonempty (sep : ascii) (s : string) : Frontend.split sep s <> [].
Proof.
  destruct s as [| c s]; simpl; [discriminate |].
  destruct (Ascii.eqb c sep); [discriminate |].
  destruct (Frontend.split sep s); discriminate.
Qed.

Lemma split_pieces (sep : ascii) (s : string) :
  Forall (fun piece => contains sep piece = false) (Frontend.split sep s).
Proof.
  induction s as [| c s IH]; simpl.
  - repeat constructor.
  - destruct (Ascii.eqb c sep) eqn:E.
    + constructor; [reflexivity | exact IH].
    + destruct (Frontend.split sep s) as [| h t].
      * constructor; [simpl; now rewrite E | constructor].
      * inversion IH as [| ? ? Hh Ht]; subst.
        constructor; [simpl; now rewrite E, Hh | exact Ht].
Qed.

Lemma split_chars (sep c : ascii) (s : string) :
  contains c s = false ->
  Forall (fun piece => contains c piece = false) (Frontend.split sep s).
Proof.
  induction s as [| a s IH]; simpl; intros H.
  - repeat constructor.
  - apply orb_false_iff in H. destruct H as [Ha Hs]. specialize (IH Hs).
    destruct (Ascii.eqb a sep).
    + constructor; [reflexivity | exact IH].
    + destruct (Frontend.split sep s) as [| h t].
      * constructor; [simpl; now rewrite Ha | constructor].
      * inversion IH as [| ? ? Hh Ht]; subst.
        constructor; [simpl; now rewrite Ha, Hh | exact Ht].
Qed.

Lemma contains_trimStart (c : ascii) (s : string) :
  contains c s = false -> contains c (Frontend.trimStart s) = false.
Proof.
  induction s as [| a s IH]; simpl; intros H; [reflexivity |].
  apply orb_false_iff in H. destruct H as [Ha Hs].
  destruct (Frontend.is_white a); [auto |]. simpl. now rewrite Ha, Hs.
Qed.

Lemma contains_rev_string (c : ascii) (s : string) :
  forall acc,
    contains c acc = false -> contains c s = false ->
    contains c (Frontend.rev_string acc s) = false.
Proof.
  induction s as [| a s IH]; simpl; intros acc Hacc H; [exact Hacc |].
  apply orb_false_iff in H. destruct H as [Ha Hs].
  apply IH; [simpl; now rewrite Ha, Hacc | exact Hs].
Qed.

Lemma contains_trim (c : ascii) (s : string) :
  contains c s = false -> contains c (Frontend.trim s) = false.
Proof.
  intros H. unfold Frontend.trim.
  apply contains_rev_string; [reflexivity |].
  apply contains_trimStart.
  apply contains_rev_string; [reflexivity |].
  now apply contains_trimStart.
Qed.

Lemma fill_values (headers : list string) (key v : string) :
  forall index values row,
    Frontend.get (Frontend.fill headers index values row) key = Some v ->
    In v values \/ Frontend.get row key = Some v.
Proof.
  induction headers as [| h headers IH]; simpl; intros index values row H.
  - now right.
  - apply IH in H. destruct H as [H | H]; [now left |].
    destruct (String.eqb_spec h key) as [-> | Hne].
    + rewrite get_set_same in H. left. eapply nth_error_In. exact H.
    + rewrite get_set_other in H by exact Hne. now right.
Qed.

(** X15. No cell of a row object of [parseCSV] contains a comma or a line
    feed: lines are cut at every line feed and cells at every comma, quoted
    or not, so a field written ["1,200.50"] in the file never reaches the
    mapping in one piece. *)
Theorem parseCSV_cells_plain (csvText : string) (row : Frontend.object)
        (key v : string) :
  In row (Frontend.parseCSV csvText) ->
  Frontend.get row key = Some v ->
  contains "," v = false /\ contains "010" v = false.
Proof.
  unfold Frontend.parseCSV.
  pose proof (split_pieces "010" (Frontend.trim csvText)) as Hlines.
  destruct (Frontend.split "010" (Frontend.trim csvText)) as [| line0 lines];
    [contradiction |].
  inversion Hlines as [| ? ? _ Hrest]; subst.
  intros Hrow Hget. apply in_map_iff in Hrow.
  destruct Hrow as [line [<- Hline]].
  apply fill_values in Hget. destruct Hget as [Hv | Hv]; [| discriminate].
  apply in_map_iff in Hv. destruct Hv as [piece [<- Hpiece]].
  rewrite Forall_forall in Hrest. specialize (Hrest line Hline).
  split; apply contains_trim.
  - pose proof (split_pieces "," line) as Hp.
    rewrite Forall_forall in Hp. now apply Hp.
  - pose proof (split_chars "," "010" line Hrest) as Hp.
    rewrite Forall_forall in Hp. now apply Hp.
Qed.

Lemma parseCSV_cells_plain_witness :
  let row := [("Date", Some "2024-03-01"); ("Description", Some "Rent");
              ("Amount", Some "$1200.50")] in
  In row (Frontend.parseCSV Sample.csv_full_lines)
  /\ Frontend.get row "Amount" = Some "$1200.50"
  /\ contains "," "$1200.50" = false.
Proof.
  cbv zeta.
  assert (Hin : In [("Date", Some "2024-03-01"); ("Description", Some "Rent");
                    ("Amount", Some "$1200.50")]
                   (Frontend.parseCSV Sample.csv_full_lines))
    by (vm_compute; left; reflexivity).
  split; [exact Hin |]. split; [reflexivity |].
  exact (proj1 (parseCSV_cells_plain Sample.csv_full_lines _ "Amount"
                  "$1200.50" Hin eq_refl)).
Defined.

(** ** What [handleCSVImport] submits *)

Lemma Math_abs_nonnegative (x : Frontend.jsnumber) :
  Frontend.isNaN (Frontend.Math_abs x) = false ->
  nonnegative (Frontend.Math_abs x).
Proof.
  destruct x as [q | neg |]; simpl; intros H.
  - apply Qcabs_nonneg.
  - reflexivity.
  - discriminate.
Qed.

Section Submitted.
Variable toISODate : string -> option string.
Variables dateColumn descColumn amountColumn defaultType : string.
Variable defaultCategory : Z.

Lemma handleCSVImport_inr (rows : list Frontend.object)
      (txns : list Frontend.Transaction) (count : nat) :
  Frontend.handleCSVImport toISODate dateColumn descColumn amountColumn
    defaultType defaultCategory rows = inr (txns, count) ->
  count = List.length txns
  /\ forall txn,
      In txn txns ->
      Frontend.keep txn = true
      /\ exists row,
          In row rows
          /\ mapped_from dateColumn descColumn amountColumn defaultType
               defaultCategory row txn.
Proof.
  unfold Frontend.handleCSVImport.
  destruct (Frontend.map_rows toISODate dateColumn descColumn amountColumn
              defaultType defaultCategory rows) as [e | mapped] eqn:Em;
    [discriminate |].
  intros H. injection H as <- <-. split; [reflexivity |].
  intros txn Htxn. apply filter_In in Htxn. destruct Htxn as [Hin Hkeep].
  split; [exact Hkeep |].
  pose proof (map_rows_mapped _ _ _ _ _ _ rows _ Em) as Hall.
  clear Em. revert Hin.
  induction Hall as [| row t rows' ts Hrt _ IH]; simpl; [contradiction |].
  intros [-> | Hin].
  - exists row. split; [now left | exact Hrt].
  - destruct (IH Hin) as [row' [Hin' H']]. exists row'.
    split; [now right | exact H'].
Qed.

(** X16. Whatever the rows and the column mapping, when [handleCSVImport]
    submits, every transaction it submits has a date, a description and an
    amount that is a number not below zero; the count of the alert is the
    number of transactions submitted. *)
Theorem handleCSVImport_nonnegative (rows : list Frontend.object) :
  match Frontend.handleCSVImport toISODate dateColumn descColumn
          amountColumn defaultType defaultCategory rows with
  | inl _ => True
  | inr (txns, count) =>
      count = List.length txns
      /\ Forall (fun txn =>
                   nonnegative (Frontend.amount txn)
                   /\ Frontend.truthy (Frontend.date txn) = true
                   /\ Frontend.truthy (Frontend.description txn) = true)
                txns
  end.
Proof.
  destruct (Frontend.handleCSVImport toISODate dateColumn descColumn
              amountColumn defaultType defaultCategory rows)
    as [e | [txns count]] eqn:E; [exact I |].
  destruct (handleCSVImport_inr rows txns count E) as [Hc Hall].
  split; [exact Hc |].
  apply Forall_forall. intros txn Htxn.
  destruct (Hall txn Htxn) as [Hkeep [row [_ [raw [_ [Ha _]]]]]].
  unfold Frontend.keep in Hkeep.
  rewrite !andb_true_iff, negb_true_iff in Hkeep.
  destruct Hkeep as [[Hd Hds] Hnan].
  repeat split; auto.
  rewrite Ha in *. now apply Math_abs_nonnegative.
Qed.
End Submitted.

(** ** From the CSV rows to the stored rows *)

Lemma importTransactions_insert_each (now : timestamp)
      (txns : list Worker.transaction_body) (env : Worker.Env) :
  let r := Worker.importTransactions now (Some txns) env in
  let valid := filter passes_validation txns in
  let stored := insert_each now valid (Worker.BUDGET_DB env) in
  Worker.BUDGET_DB (snd r) = fst stored
  /\ fst r = match snd stored with
             | None =>
                 Worker.jsonResponse
                   (Worker.ImportBody
                      (Worker.string_of_nat (List.length valid)
                       ++ " transactions imported successfully")
                      (List.length valid)) 200
             | Some e => Worker.errorResponse e 500
             end.
Proof.
  cbv zeta.
  destruct (import_loop_insert_each now txns 0 env) as [Hdb Hres].
  cbv zeta in Hdb, Hres. split.
  - unfold Worker.importTransactions, Worker.try_catch, Worker.bind.
    rewrite <- Hdb.
    destruct (Worker.import_loop now txns 0 env) as [[e | n] env'];
      reflexivity.
  - unfold Worker.importTransactions, Worker.try_catch, Worker.bind.
    destruct (Worker.import_loop now txns 0 env) as [[e | n] env'];
      simpl in Hres;
      destruct (snd (insert_each now _ _)); try discriminate;
      injection Hres as ->; reflexivity.
Qed.



Section EndToEnd.
Variable toISODate : string -> option string.
Variables dateColumn descColumn amountColumn defaultType : string.
Variable defaultCategory : Z.
Variable now : timestamp.

End EndToEnd.


(** ** The totals of the budget page *)

Lemma fold_left_pointwise {A B} (f g : A -> B -> A) (l : list B) :
  (forall a x, In x l -> f a x = g a x) ->
  forall a, fold_left f l a = fold_left g l a.
Proof.
  induction l as [| x l IH]; intros H a; simpl; [reflexivity |].
  rewrite (H a x) by now left. apply IH. intros a' y Hy. apply H. now right.
Qed.

Lemma fold_left_totals {A} (f g : A -> number) (l : list A) :
  forall b a : number,
    fold_left (fun (totals : number * number) x =>
                 ((fst totals + f x)%Qc, (snd totals + g x)%Qc)) l (b, a)
    = ((b + sum_amounts (map f l))%Qc, (a + sum_amounts (map g l))%Qc).
Proof.
  induction l as [| x l IH]; intros b a; simpl.
  - f_equal; ring.
  - rewrite IH. simpl. f_equal; ring.
Qed.

Lemma sum_amounts_perm (l l' : list number) :
  Permutation l l' -> sum_amounts l = sum_amounts l'.
Proof.
  induction 1; simpl; try congruence.
  unfold sum_amounts. ring.
Qed.

Lemma find_by_key {A} (key : A -> Z) (l : list A) (x : A) :
  NoDup (map key l) -> In x l ->
  find (fun y => (key y =? key x)%Z) l = Some x.
Proof.
  induction l as [| a l IH]; simpl; intros Hnd Hin; [contradiction |].
  inversion Hnd as [| k ks Hk Hnd']; subst.
  destruct Hin as [-> | Hin].
  - now rewrite Z.eqb_refl.
  - destruct (key a =? key x)%Z eqn:E; [| now apply IH].
    apply Z.eqb_eq in E. exfalso. apply Hk. rewrite E.
    now apply in_map.
Qed.

(** X18. The totals of the budget page, when the client has loaded its
    categories and then the summary of a month from the same database: the
    total budgeted is the sum of the month's budget amounts of the active
    categories, the total actual is the sum of the amounts of the month's
    expense transactions of the active categories, each category counted
    once, and the total difference is the first minus the second. *)
Theorem loadBudget_totals_active (strftime_Ym : string -> option string)
        (m : string) (env : Worker.Env) :
  schema_ok (Worker.BUDGET_DB env) ->
  m <> "" ->
  let db := Worker.BUDGET_DB env in
  let shown := filter active (categories db) in
  let budgeted :=
    sum_amounts (map (fun c => budget_of m (cat_id c) db) shown) in
  let actual :=
    sum_amounts
      (map (fun c =>
              sum_amounts
                (map txn_amount
                     (of_type "expense"
                        (of_category (cat_id c)
                           (of_month strftime_Ym m db))))) shown) in
  exists cats summary,
    fst (Worker.getCategories env)
    = Worker.jsonResponse (Worker.CategoryList cats) 200
    /\ fst (Worker.getSummary strftime_Ym (Some m)
              (snd (Worker.getCategories env)))
       = Worker.jsonResponse (Worker.SummaryBody summary) 200
    /\ Frontend.loadBudget_totals cats summary
       = (budgeted, actual, (budgeted - actual)%Qc).
Proof.
  intros Hok Hm. cbv zeta.
  exists (select_active_categories (Worker.BUDGET_DB env)).
  destruct (getSummary_body strftime_Ym m (snd (Worker.getCategories env))
              Hm) as [summary [Hs Hb]].
  exists summary. split; [reflexivity |]. split; [exact Hs |].
  remember (select_active_categories (Worker.BUDGET_DB env)) as cats
    eqn:Hc.
  change (Worker.BUDGET_DB (snd (Worker.getCategories env)))
    with (Worker.BUDGET_DB env) in Hb.
  rewrite (select_breakdown_entries strftime_Ym m _ Hok) in Hb.
  set (db := Worker.BUDGET_DB env) in *.
  set (shown := filter active (categories db)) in *.
  assert (Hperm : Permutation cats shown).
  { rewrite Hc. apply order_by_perm. }
  assert (Hbreak : Permutation (Worker.category_breakdown summary)
                     (map (breakdown_of strftime_Ym m db) shown)).
  { rewrite Hb. apply order_by_perm. }
  assert (Hnd : NoDup (map Worker.id (Worker.category_breakdown summary))).
  { eapply Permutation_NoDup.
    - symmetry. apply Permutation_map. exact Hbreak.
    - rewrite map_map. simpl. destruct Hok as [Hids _].
      now apply NoDup_map_filter. }
  assert (Hfind : forall cat, In cat cats ->
            Frontend.catData summary cat
            = Some (breakdown_of strftime_Ym m db cat)).
  { intros cat Hin. unfold Frontend.catData.
    change (cat_id cat)
      with (Worker.id (breakdown_of strftime_Ym m db cat)).
    apply find_by_key; [exact Hnd |].
    eapply Permutation_in; [symmetry; exact Hbreak |].
    apply in_map. eapply Permutation_in; [exact Hperm | exact Hin]. }
  unfold Frontend.loadBudget_totals, Frontend.budget_totals. cbv zeta.
  rewrite (fold_left_pointwise _
             (fun (totals : number * number) cat =>
                ((fst totals
                  + Worker.budgeted (breakdown_of strftime_Ym m db cat))%Qc,
                 (snd totals
                  + Worker.actual (breakdown_of strftime_Ym m db cat))%Qc))).
  2:{ intros a x Hx. rewrite (Hfind x Hx). simpl option_map.
      now rewrite !or_zero_COALESCE. }
  rewrite fold_left_totals. cbn [fst snd].
  rewrite !Qcplus_0_l.
  rewrite (sum_amounts_perm _ _
             (Permutation_map (fun c => Worker.budgeted
                                 (breakdown_of strftime_Ym m db c)) Hperm)).
  rewrite (sum_amounts_perm _ _
             (Permutation_map (fun c => Worker.actual
                                 (breakdown_of strftime_Ym m db c)) Hperm)).
  reflexivity.
Qed.

Lemma loadBudget_totals_active_witness :
  schema_ok (Worker.BUDGET_DB Sample.env) /\ "2024-03" <> ""
  /\ exists cats summary,
      fst (Worker.getCategories Sample.env)
      = Worker.jsonResponse (Worker.CategoryList cats) 200
      /\ fst (Worker.getSummary Sample.strftime_Ym (Some "2024-03")
                (snd (Worker.getCategories Sample.env)))
         = Worker.jsonResponse (Worker.SummaryBody summary) 200
      /\ fst (fst (Frontend.loadBudget_totals cats summary))
         = num_of_Z 1900
      /\ snd (fst (Frontend.loadBudget_totals cats summary))
         = num_of_Z 1700
      /\ snd (Frontend.loadBudget_totals cats summary) = num_of_Z 200.
Proof.
  split; [exact sample_schema_ok |].
  split; [discriminate |].
  destruct (loadBudget_totals_active Sample.strftime_Ym "2024-03" Sample.env
              sample_schema_ok ltac:(discriminate))
    as [cats [summary [Hc [Hs Ht]]]].
  exists cats, summary.
  split; [exact Hc |]. split; [exact Hs |].
  rewrite Ht. cbn [fst snd].
  repeat split; apply Qc_is_canon; vm_compute; reflexivity.
Defined.

(** ** The summary after saving a budget *)

Lemma insert_by_map {A B} (f : A -> B) (le : A -> A -> bool)
      (le' : B -> B -> bool) (x : A) (l : list A) :
  (forall x y, le' (f x) (f y) = le x y) ->
  insert_by le' (f x) (map f l) = map f (insert_by le x l).
Proof.
  intros H. induction l as [| y l IH]; simpl; [reflexivity |].
  rewrite H. destruct (le x y); simpl; [reflexivity |]. now rewrite IH.
Qed.

Lemma order_by_map {A B} (f : A -> B) (le : A -> A -> bool)
      (le' : B -> B -> bool) (l : list A) :
  (forall x y, le' (f x) (f y) = le x y) ->
  order_by le' (map f l) = map f (order_by le l).
Proof.
  intros H. unfold order_by.
  induction l as [| x l IH]; simpl; [reflexivity |].
  rewrite IH. now apply insert_by_map.
Qed.

Lemma upsert_budget_accepted (now : timestamp) (m : string) (c : Z)
      (a : number) (db : database) :
  category_exists db c = true ->
  exists db', upsert_budget now (Some m) (Some c) (Some a) db = inr (tt, db').
Proof.
  intros Hcat. unfold upsert_budget.
  destruct (existsb _ _); [eauto |]. rewrite Hcat. simpl. eauto.
Qed.

Lemma same_budget_key_eqb (m m' : string) (c c' : Z) (b : budget_row) :
  same_budget_key m' c' b = true ->
  same_budget_key m c b = (m' =? m) && (c' =? c)%Z.
Proof.
  unfold same_budget_key. rewrite andb_true_iff, String.eqb_eq, Z.eqb_eq.
  now intros [-> ->].
Qed.

Lemma budget_of_upsert (now : timestamp) (m : string) (c : Z) (a : number)
      (db db' : database) (u : unit) :
  upsert_budget now (Some m) (Some c) (Some a) db = inr (u, db') ->
  forall (m' : string) (c' : Z),
    budget_of m' c' db'
    = if (m' =? m) && (c' =? c)%Z then a else budget_of m' c' db.
Proof.
  unfold upsert_budget, budget_of.
  destruct (existsb (same_budget_key m c) (monthly_budgets db)) eqn:E.
  - intros H m' c'. injection H as _ <-. cbn [monthly_budgets].
    induction (monthly_budgets db) as [| b l IH]; [discriminate |].
    cbn [map find].
    assert (Hk : forall b0 : budget_row,
               same_budget_key m' c'
                 (if same_budget_key m c b0
                  then {| mb_id := mb_id b0; mb_month := mb_month b0;
                          mb_category_id := mb_category_id b0;
                          mb_budget_amount := a;
                          mb_created_at := mb_created_at b0;
                          mb_updated_at := now |}
                  else b0)
               = same_budget_key m' c' b0).
    { intros b0. now destruct (same_budget_key m c b0). }
    rewrite Hk.
    destruct (same_budget_key m' c' b) eqn:Eb.
    + rewrite (same_budget_key_eqb m m' c c' b Eb).
      now destruct ((m' =? m) && (c' =? c)%Z).
    + simpl in E.
      destruct (same_budget_key m c b) eqn:Ec.
      * destruct ((m' =? m) && (c' =? c)%Z) eqn:Em.
        -- apply andb_true_iff in Em. destruct Em as [Em1 Em2].
           apply String.eqb_eq in Em1. apply Z.eqb_eq in Em2. subst.
           congruence.
        -- clear IH E.
           induction l as [| b1 l IH]; [reflexivity |].
           cbn [map find]. rewrite Hk.
           destruct (same_budget_key m' c' b1) eqn:E1; [| exact IH].
           rewrite (same_budget_key_eqb m m' c c' b1 E1), Em.
           reflexivity.
      * simpl in E. exact (IH E).
  - destruct (negb (category_exists db c)); [discriminate |].
    intros H m' c'. injection H as _ <-. cbn [monthly_budgets].
    generalize (next_id (map mb_id (monthly_budgets db))). intros id.
    induction (monthly_budgets db) as [| b l IH].
    + cbn [app find]. unfold same_budget_key at 1. cbn [mb_month
        mb_category_id mb_budget_amount].
      rewrite (String.eqb_sym m m'), (Z.eqb_sym c c').
      now destruct ((m' =? m) && (c' =? c)%Z).
    + simpl in E. apply orb_false_iff in E. destruct E as [Eb El].
      cbn [app find].
      destruct (same_budget_key m' c' b) eqn:E1; [| exact (IH El)].
      rewrite <- (same_budget_key_eqb m m' c c' b E1), Eb. reflexivity.
Qed.

Lemma getSummary_same_transactions (strftime_Ym : string -> option string)
      (m : string) (env env' : Worker.Env) :
  m <> "" ->
  transactions (Worker.BUDGET_DB env') = transactions (Worker.BUDGET_DB env) ->
  exists s s',
    fst (Worker.getSummary strftime_Ym (Some m) env)
    = Worker.jsonResponse (Worker.SummaryBody s) 200
    /\ fst (Worker.getSummary strftime_Ym (Some m) env')
       = Worker.jsonResponse (Worker.SummaryBody s') 200
    /\ Worker.month s' = Worker.month s
    /\ Worker.total_income s' = Worker.total_income s
    /\ Worker.total_expenses s' = Worker.total_expenses s
    /\ Worker.net s' = Worker.net s
    /\ Worker.category_breakdown s
       = Worker.select_breakdown strftime_Ym m (Worker.BUDGET_DB env)
    /\ Worker.category_breakdown s'
       = Worker.select_breakdown strftime_Ym m (Worker.BUDGET_DB env').
Proof.
  intros Hm Ht. apply String.eqb_neq in Hm.
  unfold Worker.getSummary, Worker.try_catch, Worker.bind, Worker.all,
    Worker.ret.
  rewrite Hm. cbn [fst snd Worker.BUDGET_DB].
  unfold Worker.select_totals. rewrite Ht.
  do 2 eexists. repeat split; reflexivity.
Qed.

(** X19. Saving a budget and reading the summary.  After POST /api/budgets
    with one budget of amount [a] for the month [m] and an existing category
    [c], the summary of any month has the totals and the net it had before,
    and its category breakdown is the breakdown it had before, row by row in
    the same order, except that in the summary of [m] the row of [c] now has
    [budgeted] equal to [a]. *)
Theorem saveBudgets_summary (strftime_Ym : string -> option string)
        (now : timestamp) (m : string) (c : Z) (a : number)
        (env : Worker.Env) (m' : string) :
  m <> "" -> c <> 0%Z ->
  category_exists (Worker.BUDGET_DB env) c = true ->
  schema_ok (Worker.BUDGET_DB env) ->
  m' <> "" ->
  exists before after,
    fst (Worker.getSummary strftime_Ym (Some m') env)
    = Worker.jsonResponse (Worker.SummaryBody before) 200
    /\ fst (Worker.getSummary strftime_Ym (Some m') (save_one now m c a env))
       = Worker.jsonResponse (Worker.SummaryBody after) 200
    /\ Worker.total_income after = Worker.total_income before
    /\ Worker.total_expenses after = Worker.total_expenses before
    /\ Worker.net after = Worker.net before
    /\ Worker.category_breakdown after
       = map (budgeted_as m c a m') (Worker.category_breakdown before).
Proof.
  intros Hm Hc Hcat Hok Hm'.
  destruct (upsert_budget_accepted now m c a _ Hcat) as [db' Hup].
  assert (Hdb : Worker.BUDGET_DB (save_one now m c a env) = db').
  { unfold save_one. rewrite (save_one_upsert now m c a env Hm Hc), Hup.
    reflexivity. }
  destruct (upsert_budget_kept _ _ _ _ _ _ _ Hup) as [Hcs [Hts [Hnd _]]].
  assert (Hok' : schema_ok db').
  { destruct Hok as [Hids Hkeys]. split; [now rewrite Hcs | auto]. }
  destruct (getSummary_same_transactions strftime_Ym m' env
              (save_one now m c a env) Hm')
    as [before [after [Hb [Ha [_ [Hi [He [Hn [Bb Ba]]]]]]]]].
  { now rewrite Hdb. }
  exists before, after.
  repeat (split; [assumption |]).
  rewrite Ba, Bb, Hdb.
  rewrite (select_breakdown_entries strftime_Ym m' _ Hok).
  rewrite (select_breakdown_entries strftime_Ym m' _ Hok').
  rewrite Hcs.
  rewrite <- (order_by_map (budgeted_as m c a m')
                (fun r1 r2 => num_leb (Worker.actual r2) (Worker.actual r1))
                (fun r1 r2 => num_leb (Worker.actual r2) (Worker.actual r1))).
  - f_equal. rewrite map_map. apply map_ext. intros cat.
    unfold budgeted_as, breakdown_of, of_month.
    cbn [Worker.id Worker.name Worker.actual Worker.budgeted].
    rewrite Hts, (budget_of_upsert _ _ _ _ _ _ _ Hup).
    now destruct ((m' =? m) && (cat_id cat =? c)%Z).
  - intros x y. unfold budgeted_as.
    destruct ((m' =? m) && (Worker.id x =? c)%Z),
             ((m' =? m) && (Worker.id y =? c)%Z); reflexivity.
Qed.

Lemma saveBudgets_summary_witness :
  "2024-03" <> "" /\ 2%Z <> 0%Z
  /\ category_exists (Worker.BUDGET_DB Sample.env) 2 = true
  /\ schema_ok (Worker.BUDGET_DB Sample.env)
  /\ exists before after,
      fst (Worker.getSummary Sample.strftime_Ym (Some "2024-03") Sample.env)
      = Worker.jsonResponse (Worker.SummaryBody before) 200
      /\ fst (Worker.getSummary Sample.strftime_Ym (Some "2024-03")
                (save_one Sample.now "2024-03" 2 (num_of_Z 350) Sample.env))
         = Worker.jsonResponse (Worker.SummaryBody after) 200
      /\ Worker.net after = Worker.net before
      /\ Worker.category_breakdown after
         = map (budgeted_as "2024-03" 2 (num_of_Z 350) "2024-03")
               (Worker.category_breakdown before).
Proof.
  split; [discriminate |]. split; [discriminate |].
  split; [reflexivity |]. split; [exact sample_schema_ok |].
  destruct (saveBudgets_summary Sample.strftime_Ym Sample.now "2024-03" 2
              (num_of_Z 350) Sample.env "2024-03"
              ltac:(discriminate) ltac:(discriminate) eq_refl
              sample_schema_ok ltac:(discriminate))
    as [before [after [Hb [Ha [_ [_ [Hn Hbr]]]]]]].
  exists before, after. repeat split; assumption.
Defined.

(** ** Amounts that are not numbers *)

(** X20. POST /api/transactions checks that the amount is not undefined, so
    a body whose amount is null (what JSON makes of NaN and of an infinity)
    passes the validation when its other fields are present and its type is
    allowed; the store then rejects it for its NOT NULL amount: the
    response is the message of the store with status 500, one statement has
    run and the database is unchanged. *)
Theorem createTransaction_null_amount (now : timestamp)
        (b : Worker.transaction_body) (env : Worker.Env) :
  truthy_string (Worker.date b) = true ->
  truthy_string (Worker.description b) = true ->
  Worker.amount b = Null ->
  (Worker.type b = Value "income" \/ Worker.type b = Value "expense") ->
  truthy_int (Worker.category_id b) = true ->
  exists message,
    Worker.createTransaction now b env
    = (Worker.errorResponse message 500,
       {| Worker.BUDGET_DB := Worker.BUDGET_DB env;
          Worker.statements := S (Worker.statements env) |}).
Proof.
  intros Hd Hds Ha Hty Hc.
  unfold Worker.createTransaction, Worker.try_catch,
    Worker.missing_required_fields.
  rewrite Hd, Hds, Hc, Ha.
  destruct (Worker.date b) as [| | d]; try discriminate.
  destruct (Worker.description b) as [| | ds]; try discriminate.
  destruct Hty as [-> | ->]; eexists; reflexivity.
Qed.

Lemma createTransaction_null_amount_witness :
  let b := Sample.body "2024-03-12" "Tea" Null "expense" 2 in
  Worker.status (fst (Worker.createTransaction Sample.now b Sample.env))
  = 500%nat
  /\ Worker.BUDGET_DB (snd (Worker.createTransaction Sample.now b Sample.env))
     = Sample.db.
Proof.
  cbv zeta.
  destruct (createTransaction_null_amount Sample.now
              (Sample.body "2024-03-12" "Tea" Null "expense" 2) Sample.env
              eq_refl eq_refl eq_refl (or_intror eq_refl) eq_refl)
    as [message ->].
  split; reflexivity.
Defined.

Lemma insert_each_rejected (now : timestamp)
      (l : list Worker.transaction_body) (t : Worker.transaction_body) :
  In t l ->
  (forall db, exists e, insert_element now t db = inl e) ->
  forall db, exists e, snd (insert_each now l db) = Some e.
Proof.
  intros Hin Hrej.
  induction l as [| x l IH]; intros db; [contradiction |].
  cbn [insert_each].
  destruct (insert_element now x db) as [e | [id db']] eqn:E.
  - simpl. eauto.
  - destruct Hin as [-> | Hin].
    + destruct (Hrej db) as [e He]. congruence.
    + now apply IH.
Qed.

(** X21. An infinite amount fails the whole CSV import.  A transaction that
    the client's filter keeps (it has a date and a description, and an
    infinity is not NaN) reaches the worker with a null amount; when its
    type is not empty and its category is not 0 it passes the worker's
    validation and the store rejects it, so the response has status 500 and
    the client alerts that the import failed, whatever the other
    transactions are. *)
Theorem submit_infinite_amount (now : timestamp)
        (txns : list Frontend.Transaction) (txn : Frontend.Transaction)
        (negative : bool) (env : Worker.Env) :
  In txn txns ->
  Frontend.keep txn = true ->
  Frontend.amount txn = Frontend.Infinity negative ->
  Frontend.type txn <> "" ->
  Frontend.category_id txn <> 0%Z ->
  Worker.status
    (fst (Worker.importTransactions now (Some (map Frontend.to_body txns))
            env)) = 500%nat
  /\ fst (Frontend.submit now txns env) = "Failed to import transactions".
Proof.
  intros Hin Hkeep Ha Hty Hc.
  unfold Frontend.keep in Hkeep. rewrite !andb_true_iff in Hkeep.
  destruct Hkeep as [[Hd Hds] _].
  apply String.eqb_neq in Hty. apply Z.eqb_neq in Hc.
  assert (Hvalid : In (Frontend.to_body txn)
                     (filter passes_validation
                        (map Frontend.to_body txns))).
  { apply filter_In. split; [now apply in_map |].
    unfold passes_validation, Worker.missing_required_fields,
      Frontend.to_body.
    cbn [Worker.date Worker.description Worker.amount Worker.type
         Worker.category_id].
    rewrite Ha.
    destruct (Frontend.date txn); [| discriminate].
    destruct (Frontend.description txn); [| discriminate].
    simpl in *. now rewrite Hd, Hds, Hty, Hc. }
  assert (Hrej : forall db, exists e,
             insert_element now (Frontend.to_body txn) db = inl e).
  { intros db. unfold insert_element, Frontend.to_body.
    cbn [Worker.date Worker.description Worker.amount Worker.type
         Worker.category_id Worker.source].
    rewrite Ha.
    destruct (Frontend.date txn); [| discriminate].
    destruct (Frontend.description txn); [| discriminate].
    simpl. eauto. }
  destruct (insert_each_rejected now _ _ Hvalid Hrej (Worker.BUDGET_DB env))
    as [e He].
  destruct (importTransactions_insert_each now (map Frontend.to_body txns)
              env) as [_ Hres].
  cbv zeta in Hres. rewrite He in Hres.
  split.
  - now rewrite Hres.
  - unfold Frontend.submit. cbv zeta. rewrite Hres. reflexivity.
Qed.

Lemma submit_infinite_amount_witness :
  let txn :=
    {| Frontend.date := Some "2024-03-06"; Frontend.description := Some "Gift";
       Frontend.amount := Frontend.Infinity false;
       Frontend.type := "income"; Frontend.category_id := 2;
       Frontend.source := "csv" |} in
  Frontend.keep txn = true
  /\ Worker.status
       (fst (Worker.importTransactions Sample.now
               (Some (map Frontend.to_body [txn])) Sample.env)) = 500%nat
  /\ fst (Frontend.submit Sample.now [txn] Sample.env)
     = "Failed to import transactions".
Proof.
  intros txn. split; [reflexivity |].
  assert (Hty : Frontend.type txn <> "") by discriminate.
  assert (Hc : Frontend.category_id txn <> 0%Z) by discriminate.
  exact (submit_infinite_amount Sample.now [txn] txn false Sample.env
           (or_introl eq_refl) eq_refl eq_refl Hty Hc).
Defined.
